(** * csrank: FETA choice network, FATE linear core, pairwise SVM, random baseline

    A shallow embedding of the score-producing code of the csrank library
    and the properties its specification states about it.
    Further properties follow: of that code, of the training of the FATE
    linear core, of the fit of the pairwise SVM, of the LETOR
    discrete-choice dataset reader and of the fixture of the ranking tests.

    Conventions.
    - Scores, weights and features are real numbers ([R]); the arithmetic
      of the embedding is exact real arithmetic.
    - A Keras tensor of shape (batch, k) is modelled per batch element, as
      a [list R] of length k; layers act on every batch element alike.
    - A numpy array carries its shape next to its (nested) data, so that
      empty axes keep their extent.
    - Python exceptions are values of [exn]; code with effects lives in the
      monad [Py St], whose state survives a raised exception. *)

From Stdlib Require Import List Arith Bool ZArith Lia Reals Lra QArith Permutation FinFun.
From Stdlib Require String.
Import ListNotations.

Close Scope Q_scope.
Close Scope R_scope.

Set Implicit Arguments.

(* ================================================================== *)
(** * Python effects: state that survives exceptions *)
(* ================================================================== *)

Module Py.

Inductive exn : Type :=
| AssertionError
| ValueError
| ZeroDivisionError
| IndexError
| KeyboardInterrupt
| UnboundLocalError
| AttributeError
| NotImplementedError
| Exception (msg : String.string).

Inductive Result (A : Type) : Type :=
| Ok (a : A)
| Raise (e : exn).
Arguments Ok {A} a.
Arguments Raise {A} e.

(** A computation over a mutable store [St]: the store is returned in
    both outcomes, as attribute writes made before a [raise] stay. *)
Definition M (St A : Type) : Type := St -> Result A * St.

Definition ret {St A} (a : A) : M St A := fun s => (Ok a, s).

Definition bind {St A B} (c : M St A) (k : A -> M St B) : M St B :=
  fun s => match c s with
           | (Ok a, s') => k a s'
           | (Raise e, s') => (Raise e, s')
           end.

Definition raise {St A} (e : exn) : M St A := fun s => (Raise e, s).

Definition get {St} : M St St := fun s => (Ok s, s).
Definition put {St} (s : St) : M St unit := fun _ => (Ok tt, s).
Definition modify {St} (f : St -> St) : M St unit := fun s => (Ok tt, f s).

(** [assert b] *)
Definition assert {St} (b : bool) : M St unit :=
  if b then ret tt else raise AssertionError.

(** [try: body  except E: handler], for the exceptions [catches] selects. *)
Definition try_except {St A} (body : M St A) (catches : exn -> bool)
           (handler : M St A) : M St A :=
  fun s => match body s with
           | (Ok a, s') => (Ok a, s')
           | (Raise e, s') => if catches e then handler s' else (Raise e, s')
           end.

(** [try: body  finally: final]: the final block runs in both outcomes;
    an exception of the body is re-raised after it, unless the final
    block raises itself. *)
Definition try_finally {St A} (body : M St A) (final : M St unit) : M St A :=
  fun s => match body s with
           | (r, s') => match final s' with
                        | (Ok _, s'') => (r, s'')
                        | (Raise e, s'') => (Raise e, s'')
                        end
           end.

(** [for a in l: body(a)] *)
Fixpoint for_each {St A} (l : list A) (body : A -> M St unit) : M St unit :=
  match l with
  | [] => ret tt
  | a :: rest => bind (body a) (fun _ => for_each rest body)
  end.

(** [if b: c] *)
Definition when {St} (b : bool) (c : M St unit) : M St unit :=
  if b then c else ret tt.

Definition is_KeyboardInterrupt (e : exn) : bool :=
  match e with KeyboardInterrupt => true | _ => false end.

(** A pure computation that may raise, lifted into the store monad. *)
Definition lift {St A} (r : Result A) : M St A := fun s => (r, s).

Definition rbind {A B} (r : Result A) (k : A -> Result B) : Result B :=
  match r with Ok a => k a | Raise e => Raise e end.

Definition rmap {A B} (f : A -> B) (r : Result A) : Result B :=
  match r with Ok a => Ok (f a) | Raise e => Raise e end.

End Py.

Import Py.

Declare Scope py_scope.
Delimit Scope py_scope with py.
Notation "x <- c ;; k" := (Py.bind c (fun x => k))
  (at level 61, c at next level, right associativity) : py_scope.
Notation "c ;;; k" := (Py.bind c (fun _ => k))
  (at level 61, right associativity) : py_scope.
Notation "'let?' x := r 'in' k" := (Py.rbind r (fun x => k))
  (at level 61, x name, r at next level, right associativity) : py_scope.

(* ================================================================== *)
(** * Real-valued helpers *)
(* ================================================================== *)

Local Open Scope R_scope.

Definition Rsum (l : list R) : R := fold_right Rplus 0 l.

(** [K.mean] / [np.mean] along one axis: the sum divided by the count. *)
Definition Rmean (l : list R) : R := Rsum l / INR (length l).

(** Modelled from the spec: the logistic squashing function
    ([csrank.numpy_util.sigmoid], and the sigmoid activation of the
    network libraries), "a logistic squashing function ... to produce a
    utility in (0,1)". *)
Definition sigmoid (x : R) : R := 1 / (1 + exp (- x)).

Definition in_unit_interval (s : R) : Prop := 0 < s < 1.

Close Scope R_scope.

(* ================================================================== *)
(** * Keras layers, per batch element *)
(* ================================================================== *)

Module Keras.

Definition tensor : Type := list R.

(** A layer with its stored parameters: calling the same layer object
    twice applies the same function (weight sharing). *)
Definition Layer : Type := tensor -> tensor.

(** [concatenate(ts)], along the last axis. *)
Definition concatenate (ts : list tensor) : tensor := concat ts.

(** [add([a, b])], element-wise; the library refuses operands of
    different shapes, and the network below only applies it to two
    tensors of [n_objects_fit_] entries (lemma [first_order_scores_length]
    and [zeroth_order_scores_length]). *)
Definition add (a b : tensor) : tensor :=
  map (fun ab => (fst ab + snd ab)%R) (combine a b).

(** [Lambda(lambda s: K.mean(s, axis=1, keepdims=True))] *)
Definition mean_keepdims (s : tensor) : tensor := [Rmean s].

(** [Activation("sigmoid")] *)
Definition Activation_sigmoid (t : tensor) : tensor := map sigmoid t.

(** [Lambda(lambda x: x[:, i])] applied to the input layer of shape
    (batch, n_objects, n_features): the features of object [i]. *)
Definition create_input_lambda (i : nat) (input_layer : list tensor) : tensor :=
  nth i input_layer [].

End Keras.

(* ================================================================== *)
(** * itertools and list mutation *)
(* ================================================================== *)

(** [itertools.combinations(l, 2)]: the pairs of positions of [l] in
    lexicographic order. *)
Fixpoint combinations2 {A : Type} (l : list A) : list (A * A) :=
  match l with
  | [] => []
  | x :: t => map (pair x) t ++ combinations2 t
  end.

(** [range(n)] *)
Definition range (n : nat) : list nat := seq 0 n.

(** [outputs[i].append(v)] on a list of lists.  Python raises IndexError
    when [i] is out of range; the loops below only use indices drawn from
    [range(len(outputs))], where it cannot happen, and the model leaves the
    list unchanged there. *)
Fixpoint append_at {A : Type} (i : nat) (v : A) (outputs : list (list A))
  : list (list A) :=
  match outputs, i with
  | [], _ => []
  | o :: rest, O => (o ++ [v]) :: rest
  | o :: rest, S i' => o :: append_at i' v rest
  end.

(* ================================================================== *)
(** * FETAChoiceFunction: the network *)
(* ================================================================== *)

Module FETA.
Import Keras.

(** The attributes of a [FETAChoiceFunction] instance that
    [construct_model] reads, after [_construct_layers]. *)
Record FETAChoiceFunction : Type := {
  n_objects_fit_ : nat;
  n_object_features_fit_ : nat;
  add_zeroth_order_model : bool;
  max_number_of_objects : nat;
  hidden_layers : list Layer;
  output_node : tensor -> R;          (* Dense(1, activation="linear") *)
  hidden_layers_zeroth : list Layer;
  output_node_zeroth : tensor -> R    (* Dense(1, activation="linear") *)
}.

Section ConstructModel.
Variable self : FETAChoiceFunction.
Variable input_layer : list tensor.

(** Lines 190-200: the zeroth-order branch.  Returns the list [inputs]
    and the list [zeroth_order_outputs]. *)
Definition zeroth_order_step (acc : list tensor * list tensor) (i : nat)
  : list tensor * list tensor :=
  let '(inputs, zeroth_order_outputs) := acc in
  let x := create_input_lambda i input_layer in
  let inputs := inputs ++ [x] in
  let x := fold_left (fun x hidden => hidden x) (hidden_layers_zeroth self) x in
  (inputs, zeroth_order_outputs ++ [[output_node_zeroth self x]]).

Definition zeroth_order_loop : list tensor * list tensor :=
  fold_left zeroth_order_step (range (n_objects_fit_ self)) ([], []).

(** Lines 204-225: the body of the loop over pairs. *)
Definition pair_step (inputs : list tensor) (outputs : list (list tensor))
           (ij : nat * nat) : list (list tensor) :=
  let '(i, j) := ij in
  let x1 := if add_zeroth_order_model self then nth i inputs []
            else create_input_lambda i input_layer in
  let x2 := if add_zeroth_order_model self then nth j inputs []
            else create_input_lambda j input_layer in
  let x1x2 := concatenate [x1; x2] in
  let x2x1 := concatenate [x2; x1] in
  let '(x1x2, x2x1) :=
    fold_left (fun acc hidden => (hidden (fst acc), hidden (snd acc)))
              (hidden_layers self) (x1x2, x2x1) in
  let merged_left := concatenate [x1x2; x2x1] in
  let merged_right := concatenate [x2x1; x1x2] in
  let N_g := [output_node self merged_left] in
  let N_l := [output_node self merged_right] in
  let outputs := append_at i N_g outputs in
  append_at j N_l outputs.

(** Lines 203-225: the rows of the pairwise matrix, as lists of
    one-entry tensors. *)
Definition pairwise_outputs (inputs : list tensor) : list (list tensor) :=
  fold_left (pair_step inputs)
            (combinations2 (range (n_objects_fit_ self)))
            (repeat [] (n_objects_fit_ self)).

(** Lines 186-238: the function the constructed [Model] computes from
    one batch element of the input layer to its output scores. *)
Definition construct_model : tensor :=
  let '(inputs, zeroth_order_outputs) :=
    if add_zeroth_order_model self then zeroth_order_loop else ([], []) in
  let zeroth_order_scores := concatenate zeroth_order_outputs in
  let outputs := pairwise_outputs inputs in
  let outputs := map concatenate outputs in
  let scores := map mean_keepdims outputs in
  let scores := concatenate scores in
  let scores := if add_zeroth_order_model self
                then add scores zeroth_order_scores else scores in
  Activation_sigmoid scores.

(** The quantities the docstring names: [U_1(x_i, x_j)], the score of
    object [i] against object [j] from the shared pairwise network, and
    [U_0(x_i)] from the shared zeroth-order network. *)
Definition U_1 (i j : nat) : R :=
  let xi := nth i input_layer [] in
  let xj := nth j input_layer [] in
  let h := fold_left (fun x hidden => hidden x) (hidden_layers self) in
  output_node self (h (xi ++ xj) ++ h (xj ++ xi)).

Definition U_0 (i : nat) : R :=
  output_node_zeroth self
    (fold_left (fun x hidden => hidden x) (hidden_layers_zeroth self)
               (nth i input_layer [])).

(** What one iteration of the pair loop adds to row [k] of the
    pairwise matrix. *)
Definition contribution (k : nat) (ij : nat * nat) : list tensor :=
  (if fst ij =? k then [[U_1 (fst ij) (snd ij)]] else [])
  ++ (if snd ij =? k then [[U_1 (snd ij) (fst ij)]] else []).

(** The list [inputs] the pair loop reads: the one the zeroth-order
    loop built, when there is one. *)
Definition inputs_of_model : list tensor :=
  fst (if add_zeroth_order_model self then zeroth_order_loop else ([], [])).

(** Lines 227-233: the pairwise utility component of every object. *)
Definition first_order_scores : tensor :=
  concatenate
    (map mean_keepdims (map concatenate (pairwise_outputs inputs_of_model))).

(** The other objects of the query, in position order. *)
Definition others (i : nat) : list nat :=
  filter (fun j => negb (j =? i)) (range (n_objects_fit_ self)).

End ConstructModel.

End FETA.

(* ================================================================== *)
(** * numpy arrays *)
(* ================================================================== *)

Module Np.

(** A 1-D array is a list; arrays of rank 2 and 3 keep their shape next to
    the nested data, as an axis of extent 0 hides the extents after it. *)
Definition Array1 : Type := list R.

Record Array2 : Type := mkArray2 {
  shape2 : nat * nat;
  data2 : list (list R)
}.

Record Array3 : Type := mkArray3 {
  shape3 : nat * nat * nat;
  data3 : list (list (list R))
}.

Definition has_shape1 (k : nat) (v : Array1) : Prop := length v = k.

Definition has_shape2 (n m : nat) (A : Array2) : Prop :=
  shape2 A = (n, m) /\
  length (data2 A) = n /\
  Forall (has_shape1 m) (data2 A).

Definition has_shape3 (n m d : nat) (X : Array3) : Prop :=
  shape3 X = (n, m, d) /\
  length (data3 X) = n /\
  Forall (fun q => length q = m /\ Forall (has_shape1 d) q) (data3 X).

(** Element-wise combination of two lists of equal length. *)
Definition zip_with {A B C : Type} (f : A -> B -> C) (a : list A) (b : list B)
  : list C :=
  map (fun ab => f (fst ab) (snd ab)) (combine a b).

(** Inner product of two vectors of equal length. *)
Definition inner (v w : list R) : R := Rsum (zip_with Rmult v w).

(** Column [k] of a matrix given by its rows. *)
Definition column (k : nat) (rows : list (list R)) : list R :=
  map (fun row => nth k row 0%R) rows.

(** [np.dot(X, W)] for [X] of rank 3 and [W] of rank 2: sums over the last
    axis of [X] and the first axis of [W]; ValueError when they differ. *)
Definition dot_3_2 (X : Array3) (W : Array2) : Result Array3 :=
  let '(n, m, d) := shape3 X in
  let '(d', h) := shape2 W in
  if d =? d'
  then Ok (mkArray3 (n, m, h)
             (map (map (fun v => map (fun k => inner v (column k (data2 W)))
                                     (seq 0 h)))
                  (data3 X)))
  else Raise ValueError.

(** [np.dot(X, w)] for [X] of rank 3 and [w] of rank 1. *)
Definition dot_3_1 (X : Array3) (w : Array1) : Result Array2 :=
  let '(n, m, d) := shape3 X in
  if d =? length w
  then Ok (mkArray2 (n, m) (map (map (fun v => inner v w)) (data3 X)))
  else Raise ValueError.

(** [np.mean(A, axis=1)] for [A] of shape (n, m, h): the mean over the m
    entries of axis 1, of shape (n, h).  (For m = 0 numpy warns and yields
    nan; the quotient by [INR 0] stands for it.) *)
Definition mean_axis1 (A : Array3) : Array2 :=
  let '(n, m, h) := shape3 A in
  mkArray2 (n, h)
    (map (fun q => map (fun k => Rmean (column k q)) (seq 0 h)) (data3 A)).

(** One row of [A + b] under broadcasting, for a row of extent [h] and [b]
    of extent [k]. *)
Definition broadcast_row (h k : nat) (row b : list R) : list R :=
  if h =? k then zip_with Rplus row b
  else if k =? 1 then map (fun x => (x + nth 0 b 0)%R) row
  else map (fun y => (nth 0 row 0 + y)%R) b.

(** [A + b] for [A] of shape (n, h) and [b] of shape (k,): the trailing
    axes must agree or one of them be 1, else ValueError. *)
Definition add_2_1 (A : Array2) (b : Array1) : Result Array2 :=
  let '(n, h) := shape2 A in
  let k := length b in
  if (h =? k) || (k =? 1) || (h =? 1)
  then Ok (mkArray2 (n, if h =? k then h else if k =? 1 then h else k)
             (map (fun row => broadcast_row h k row b) (data2 A)))
  else Raise ValueError.

(** [np.tile(rep[:, np.newaxis, :], (1, m, 1))]: shape (n, h) to (n, m, h). *)
Definition tile_axis1 (m : nat) (rep : Array2) : Array3 :=
  let '(n, h) := shape2 rep in
  mkArray3 (n, m, h) (map (fun r => repeat r m) (data2 rep)).

(** [np.concatenate((X, Y), axis=2)]: the other two axes must agree. *)
Definition concatenate_axis2 (X Y : Array3) : Result Array3 :=
  let '(n, m, d) := shape3 X in
  let '(n', m', h) := shape3 Y in
  if (n =? n') && (m =? m')
  then Ok (mkArray3 (n, m, d + h)
             (zip_with (zip_with (@app R)) (data3 X) (data3 Y)))
  else Raise ValueError.

(** [sigmoid(scores)], element-wise. *)
Definition sigmoid2 (A : Array2) : Array2 :=
  mkArray2 (shape2 A) (map (map sigmoid) (data2 A)).

(** Every entry of a rank-2 array satisfies [P]. *)
Definition Forall2d (P : R -> Prop) (A : Array2) : Prop :=
  Forall (Forall P) (data2 A).

(** Row-major reshape of [n * m] values to shape (n, m). *)
Definition reshape2 (n m : nat) (l : list R) : Array2 :=
  mkArray2 (n, m) (map (fun i => firstn m (skipn (i * m) l)) (seq 0 n)).

End Np.

(* ================================================================== *)
(** * numpy.random.RandomState *)
(* ================================================================== *)

(** The generator behind [random_state_]: a state type [G] with the three
    draws the code uses.  [random_sample] is one uniform draw;
    [choice_raw a size replace p] is the sampling step of
    [choice(a, size, replace, p)] after its argument validation, returning
    [size] positions below [a]; [shuffle_raw] permutes in place. *)
Class RandomState (G : Type) : Type := {
  random_sample : G -> R * G;
  choice_raw : nat -> nat -> bool -> option (list Q) -> G -> list nat * G;
  shuffle_raw : list nat -> G -> list nat * G
}.

(** What the sampling routines guarantee about their results. *)
Class RandomStateLaws (G : Type) `{RandomState G} : Prop := {
  choice_raw_length : forall a size replace p g,
    length (fst (choice_raw a size replace p g)) = size;
  choice_raw_range : forall a size replace p g,
    0 < a -> replace = true \/ size <= a ->
    Forall (fun i => i < a) (fst (choice_raw a size replace p g));
  choice_raw_distinct : forall a size p g,
    size <= a -> NoDup (fst (choice_raw a size false p g));
  shuffle_raw_permutation : forall l g,
    Permutation l (fst (shuffle_raw l g))
}.

(** [count] successive uniform draws. *)
Fixpoint random_samples {G : Type} `{RandomState G} (count : nat) (g : G)
  : list R * G :=
  match count with
  | O => ([], g)
  | S c => let (x, g1) := random_sample g in
           let (xs, g2) := random_samples c g1 in
           (x :: xs, g2)
  end.

(** [random_state.rand(n, m)] *)
Definition rand {G : Type} `{RandomState G} (n m : nat) : Py.M G Np.Array2 :=
  fun g => let (xs, g') := random_samples (n * m) g in
           (Ok (Np.reshape2 n m xs), g').

(* ================================================================== *)
(** * Score prediction of the three learners *)
(* ================================================================== *)

(** Records written by [logger.info], [print] and [progress_bar]. *)
Inductive LogRecord : Type :=
| LogTestInstances (n_instances n_objects n_features : nat)
| LogDonePredicting
| LogInterrupted
| LogEpochCost (epoch : nat) (cost : R)
| LogFittingCompleted (epochs : nat) (cost : R)
| LogStartTuningThreshold
| PrintProgress (done total : nat)
| PrintEpochCost (epoch : nat) (cost : R).

Module FATELinear.
Import Np.

(** The attributes of a fitted [FATELinearCore] that prediction reads. *)
Record FATELinearCore : Type := {
  n_hidden_set_units : nat;
  n_object_features_fit_ : nat;
  weight1_ : Array2;
  bias1_ : Array1;
  weight2_ : Array1;
  bias2_ : Array1
}.

(** The shapes [fit] stores: those [_construct_model_] gives to
    [W1], [b1], [W2] and [b2]. *)
Definition fitted (self : FATELinearCore) : Prop :=
  has_shape2 (n_object_features_fit_ self) (n_hidden_set_units self)
             (weight1_ self) /\
  has_shape1 (n_hidden_set_units self) (bias1_ self) /\
  has_shape1 (n_object_features_fit_ self + n_hidden_set_units self)
             (weight2_ self) /\
  has_shape1 1 (bias2_ self).

(** Lines 139-147.  The method reads [self] and assigns nothing to it. *)
Definition _predict_scores_fixed (X : Array3) : Py.M FATELinearCore Array2 :=
  (self <- Py.get ;;
   let '(n_instances, n_objects, n_features) := shape3 X in
   Py.assert (n_features =? n_object_features_fit_ self) ;;;
   Py.lift
     (let? XW := dot_3_2 X (weight1_ self) in
      let? rep := add_2_1 (mean_axis1 XW) (bias1_ self) in
      let rep := tile_axis1 n_objects rep in
      let? X_n := concatenate_axis2 X rep in
      let? scores := dot_3_1 X_n (weight2_ self) in
      let? scores := add_2_1 scores (bias2_ self) in
      let scores := sigmoid2 scores in
      Ok scores))%py.

End FATELinear.

Module PairwiseSVM.
Import Np.

(** The attributes of a fitted [PairwiseSVM] that prediction reads, and the
    records its logger has received. *)
Record PairwiseSVM : Type := {
  fit_intercept : bool;
  n_object_features_fit_ : nat;
  weights : Array1;
  logger : list LogRecord
}.

Definition logger_info (r : LogRecord) : Py.M PairwiseSVM unit :=
  Py.modify (fun self =>
    {| fit_intercept := fit_intercept self;
       n_object_features_fit_ := n_object_features_fit_ self;
       weights := weights self;
       logger := logger self ++ [r] |}).

(** After [fit]: [coef_] has one weight per feature, followed by the
    intercept when one is fitted. *)
Definition fitted (self : PairwiseSVM) : Prop :=
  length (weights self)
  = n_object_features_fit_ self + (if fit_intercept self then 1 else 0).

(** Lines 99-109, for [X] of rank 3. *)
Definition _predict_scores_fixed (X : Array3) : Py.M PairwiseSVM Array2 :=
  (self <- Py.get ;;
   let '(n_instances, n_objects, n_features) := shape3 X in
   Py.assert (n_features =? n_object_features_fit_ self) ;;;
   logger_info (LogTestInstances n_instances n_objects n_features) ;;;
   scores <- Py.lift (if fit_intercept self
                      then dot_3_1 X (removelast (weights self))
                      else dot_3_1 X (weights self)) ;;
   logger_info LogDonePredicting ;;;
   Py.ret scores)%py.

(** The instance after a completed prediction: two more log records. *)
Definition after_predict (self : PairwiseSVM) (n m d : nat) : PairwiseSVM :=
  {| fit_intercept := fit_intercept self;
     n_object_features_fit_ := n_object_features_fit_ self;
     weights := weights self;
     logger := (logger self ++ [LogTestInstances n m d]) ++ [LogDonePredicting] |}.

(** Two instances that differ at most in what their logger holds. *)
Definition same_model (a b : PairwiseSVM) : Prop :=
  fit_intercept a = fit_intercept b /\
  n_object_features_fit_ a = n_object_features_fit_ b /\
  weights a = weights b.

End PairwiseSVM.

Module RandomBaselineDC.
Import Np.

Section WithGenerator.
Context {G : Type} `{RandomState G}.

(** The instance after [fit]: its generator [random_state_]. *)
Record RandomBaselineDC : Type := { random_state_ : G }.

(** Lines 24-26. *)
Definition _predict_scores_fixed (X : Array3) : Py.M RandomBaselineDC Array2 :=
  fun self =>
    let '(n_instances, n_objects, n_features) := shape3 X in
    let (r, g') := rand n_instances n_objects (random_state_ self) in
    (r, {| random_state_ := g' |}).

End WithGenerator.
Arguments RandomBaselineDC G : clear implicits.

End RandomBaselineDC.

(* ================================================================== *)
(** * FATELinearCore: training *)
(* ================================================================== *)

Module FATELinearFit.
Import Np.

(** The values of the graph variables [W1], [b1], [W2], [b2] in a session. *)
Record TFVariables : Type := {
  W1 : Array2;
  b1 : Array1;
  W2 : Array1;
  b2 : Array1
}.

(** What [fit] and [_fit_] read and write: attributes of the instance, the
    session, the local variable [epoch] of [_fit_], the output channels, and
    the operator: [sigint = Some k] means that an interrupt is delivered at
    the [k]-th statement boundary from now. *)
Record Fitting : Type := mkFitting {
  optimizer_lr : R;
  current_lr_ : option R;
  session : TFVariables;
  epoch : option nat;
  fit_shape : option (nat * nat);
  fitted_weights : option TFVariables;
  logger : list LogRecord;
  stdout : list LogRecord;
  sigint : option nat
}.

Definition set_optimizer (lr : R) (s : Fitting) : Fitting :=
  mkFitting lr (Some lr) (session s) (epoch s) (fit_shape s)
            (fitted_weights s) (logger s) (stdout s) (sigint s).

Definition set_session (v : TFVariables) (s : Fitting) : Fitting :=
  mkFitting (optimizer_lr s) (current_lr_ s) v (epoch s) (fit_shape s)
            (fitted_weights s) (logger s) (stdout s) (sigint s).

Definition set_epoch (e : nat) (s : Fitting) : Fitting :=
  mkFitting (optimizer_lr s) (current_lr_ s) (session s) (Some e) (fit_shape s)
            (fitted_weights s) (logger s) (stdout s) (sigint s).

Definition set_fit_shape (n_objects n_features : nat) (s : Fitting) : Fitting :=
  mkFitting (optimizer_lr s) (current_lr_ s) (session s) (epoch s)
            (Some (n_objects, n_features))
            (fitted_weights s) (logger s) (stdout s) (sigint s).

Definition set_fitted_weights (v : TFVariables) (s : Fitting) : Fitting :=
  mkFitting (optimizer_lr s) (current_lr_ s) (session s) (epoch s) (fit_shape s)
            (Some v) (logger s) (stdout s) (sigint s).

Definition add_log (r : LogRecord) (s : Fitting) : Fitting :=
  mkFitting (optimizer_lr s) (current_lr_ s) (session s) (epoch s) (fit_shape s)
            (fitted_weights s) (logger s ++ [r]) (stdout s) (sigint s).

Definition add_stdout (r : LogRecord) (s : Fitting) : Fitting :=
  mkFitting (optimizer_lr s) (current_lr_ s) (session s) (epoch s) (fit_shape s)
            (fitted_weights s) (logger s) (stdout s ++ [r]) (sigint s).

Definition clear_epoch (s : Fitting) : Fitting :=
  mkFitting (optimizer_lr s) (current_lr_ s) (session s) None (fit_shape s)
            (fitted_weights s) (logger s) (stdout s) (sigint s).

Definition set_sigint (k : option nat) (s : Fitting) : Fitting :=
  mkFitting (optimizer_lr s) (current_lr_ s) (session s) (epoch s) (fit_shape s)
            (fitted_weights s) (logger s) (stdout s) k.

(** A statement boundary: a pending interrupt is counted down, and raised
    as KeyboardInterrupt, once, when its turn has come. *)
Definition checkpoint : Py.M Fitting unit :=
  fun s => match sigint s with
           | None => (Ok tt, s)
           | Some (S k) => (Ok tt, set_sigint (Some k) s)
           | Some O => (Raise KeyboardInterrupt, set_sigint None s)
           end.

(** A computation that raises KeyboardInterrupt only with the pending
    interrupt cleared: the interrupt came from a statement boundary. *)
Definition delivers_once {A : Type} (c : Py.M Fitting A) : Prop :=
  forall s s', c s = (Raise KeyboardInterrupt, s') -> sigint s' = None.

Definition logger_info (r : LogRecord) : Py.M Fitting unit :=
  Py.modify (add_log r).

Definition print (r : LogRecord) : Py.M Fitting unit :=
  Py.modify (add_stdout r).

(** [range(0, n, step)] *)
Definition range_step (n step : nat) : Result (list nat) :=
  if step =? 0 then Raise ValueError
  else Ok (map (fun k => k * step) (seq 0 ((n + step - 1) / step))).

(** [X[start:stop]] and [Y[start:stop]] along the first axis. *)
Definition slice3 (start stop : nat) (X : Array3) : Array3 :=
  let '(n, m, d) := shape3 X in
  mkArray3 (Nat.min stop n - start, m, d)
           (firstn (stop - start) (skipn start (data3 X))).

Definition slice2 (start stop : nat) (Y : Array2) : Array2 :=
  let '(n, m) := shape2 Y in
  mkArray2 (Nat.min stop n - start, m)
           (firstn (stop - start) (skipn start (data2 Y))).

Section Training.

(** Hyper-parameters of the instance. *)
Variable learning_rate : R.
Variable drop : R.
Variable batch_size : nat.
Variable epochs_drop : nat.

(** The graph: one run of a gradient-descent optimizer with a given
    learning rate on a batch, the per-instance losses [loss_], and the
    values [global_variables_initializer] gives the variables. *)
Variable minimize : R -> TFVariables -> Array3 -> Array2 -> TFVariables.
Variable loss_ : TFVariables -> Array3 -> Array2 -> list R.
Variable initial_variables : TFVariables.

(** [super()._pre_fit()] and [check_random_state], outside this file. *)
Variable _pre_fit : Py.M Fitting unit.

(** [tf_session.run(self.optimizer_, feed_dict=...)] *)
Definition run_optimizer (Xb : Array3) (Yb : Array2) : Py.M Fitting unit :=
  Py.modify (fun s => set_session (minimize (optimizer_lr s) (session s) Xb Yb) s).

(** [tf_session.run(self.loss_, feed_dict=...)] *)
Definition run_loss (X : Array3) (Y : Array2) : Py.M Fitting (list R) :=
  (s <- Py.get ;; Py.ret (loss_ (session s) X Y))%py.

(** Lines 82-87. *)
Definition step_decay (epoch : nat) : Py.M Fitting unit :=
  if epochs_drop =? 0 then Py.raise ZeroDivisionError
  else
    let step := (1 + epoch) / epochs_drop in
    Py.modify (set_optimizer (learning_rate * drop ^ step)%R).

(** Lines 119-126: one iteration of the loop over batches. *)
Definition train_batch (X : Array3) (Y : Array2) (n_instances verbose : nat)
           (start : nat) : Py.M Fitting unit :=
  (checkpoint ;;;
   let end_ := Nat.min (start + batch_size) n_instances in
   checkpoint ;;;
   run_optimizer (slice3 start end_ X) (slice2 start end_ Y) ;;;
   checkpoint ;;;
   Py.when (verbose =? 1) (print (PrintProgress end_ n_instances)))%py.

(** Lines 118-133: one iteration of the loop over epochs. *)
Definition train_epoch (X : Array3) (Y : Array2) (n_instances verbose : nat)
           (e : nat) : Py.M Fitting unit :=
  (checkpoint ;;;
   Py.modify (set_epoch e) ;;;
   starts <- Py.lift (range_step n_instances batch_size) ;;
   Py.for_each starts (train_batch X Y n_instances verbose) ;;;
   checkpoint ;;;
   Py.when (verbose =? 1)
     (c <- run_loss X Y ;;
      checkpoint ;;;
      print (PrintEpochCost (e + 1) (Rmean c))) ;;;
   checkpoint ;;;
   Py.when ((e + 1) mod 100 =? 0)
     (c <- run_loss X Y ;;
      checkpoint ;;;
      logger_info (LogEpochCost (e + 1) (Rmean c))) ;;;
   checkpoint ;;;
   step_decay e)%py.

(** Lines 118-133: the body of the [try]. *)
Definition training_loop (X : Array3) (Y : Array2)
           (epochs n_instances verbose : nat) : Py.M Fitting unit :=
  Py.for_each (range epochs) (train_epoch X Y n_instances verbose).

(** Lines 134-137: the [except KeyboardInterrupt] block.  [epoch] is read
    as the local variable the loop last assigned. *)
Definition interrupted (X : Array3) (Y : Array2) : Py.M Fitting unit :=
  (checkpoint ;;;
   logger_info LogInterrupted ;;;
   checkpoint ;;;
   c <- run_loss X Y ;;
   checkpoint ;;;
   s <- Py.get ;;
   match epoch s with
   | None => Py.raise UnboundLocalError
   | Some e => logger_info (LogEpochCost (e + 1) (Rmean c))
   end)%py.

(** Lines 116-137.  A call starts with its local variable [epoch] unbound. *)
Definition _fit_ (X : Array3) (Y : Array2) (epochs n_instances verbose : nat)
  : Py.M Fitting unit :=
  (Py.modify clear_epoch ;;;
   Py.try_except (training_loop X Y epochs n_instances verbose)
                 Py.is_KeyboardInterrupt
                 (interrupted X Y))%py.

(** Lines 96-103: up to the call of [_fit_]. *)
Definition fit_prologue (X : Array3) : Py.M Fitting unit :=
  (checkpoint ;;;
   _pre_fit ;;;
   checkpoint ;;;
   let '(n_instances, n_objects, n_features) := shape3 X in
   Py.modify (set_fit_shape n_objects n_features) ;;;
   checkpoint ;;;
   Py.modify (fun s => mkFitting learning_rate (current_lr_ s) (session s)
                                 (epoch s) (fit_shape s) (fitted_weights s)
                                 (logger s) (stdout s) (sigint s)) ;;;
   checkpoint ;;;
   Py.modify (set_session initial_variables))%py.

(** Lines 105-114: after the call of [_fit_]. *)
Definition fit_epilogue (X : Array3) (Y : Array2) (epochs : nat)
  : Py.M Fitting unit :=
  (checkpoint ;;;
   training_cost <- run_loss X Y ;;
   checkpoint ;;;
   logger_info (LogFittingCompleted epochs (Rmean training_cost)) ;;;
   checkpoint ;;;
   Py.modify (fun s => set_fitted_weights (session s) s))%py.

(** Lines 93-114. *)
Definition fit (X : Array3) (Y : Array2) (epochs verbose : nat)
  : Py.M Fitting unit :=
  (fit_prologue X ;;;
   _fit_ X Y epochs (fst (fst (shape3 X))) verbose ;;;
   fit_epilogue X Y epochs)%py.

End Training.

End FATELinearFit.

(* ================================================================== *)
(** * FETAChoiceFunction: fit and score prediction from pairs *)
(* ================================================================== *)

Module FETAFit.
Import Np.

(** The instance as [fit] sees it: the attribute [threshold_], the logger,
    and everything else ([rest]: the network, its weights, the generator),
    which only the inherited methods touch. *)
Record Instance (W : Type) : Type := mkInstance {
  threshold_ : option R;
  logger : list LogRecord;
  rest : W
}.

Definition set_threshold {W : Type} (t : R) (self : Instance W) : Instance W :=
  mkInstance (Some t) (logger self) (rest self).

Definition add_log {W : Type} (r : LogRecord) (self : Instance W) : Instance W :=
  mkInstance (threshold_ self) (logger self ++ [r]) (rest self).

Section Fit.
Variable W : Type.
Variables Callbacks Kwd : Type.

(** Methods and functions defined outside this file: [_pre_fit],
    [sklearn.model_selection.train_test_split], [FETANetwork.fit] and
    [ChoiceFunctions._tune_threshold]. *)
Variable _pre_fit : Py.M (Instance W) unit.
Variable train_test_split :
  Array3 -> Array2 -> R -> Py.M (Instance W) (Array3 * Array3 * Array2 * Array2).
Variable super_fit :
  Array3 -> Array2 -> nat -> Callbacks -> R -> nat -> Kwd -> Py.M (Instance W) unit.
Variable _tune_threshold : Array3 -> Array2 -> nat -> nat -> Py.M (Instance W) R.

(** Lines 305-310: the [finally] block. *)
Definition tune (X_val : Array3) (Y_val : Array2) (thin_thresholds verbose : nat)
  : Py.M (Instance W) unit :=
  (Py.modify (add_log LogStartTuningThreshold) ;;;
   t <- _tune_threshold X_val Y_val thin_thresholds verbose ;;
   Py.modify (set_threshold t))%py.

(** Lines 289-313. *)
Definition fit (X : Array3) (Y : Array2) (epochs : nat) (callbacks : Callbacks)
           (validation_split tune_size : R) (thin_thresholds verbose : nat)
           (kwd : Kwd) : Py.M (Instance W) unit :=
  (_pre_fit ;;;
   if Rlt_dec 0 tune_size
   then
     split <- train_test_split X Y tune_size ;;
     let '(X_train, X_val, Y_train, Y_val) := split in
     Py.try_finally
       (super_fit X_train Y_train epochs callbacks validation_split verbose kwd)
       (tune X_val Y_val thin_thresholds verbose)
   else
     super_fit X Y epochs callbacks validation_split verbose kwd ;;;
     Py.modify (set_threshold (1 / 2)%R))%py.

(** Lines 247-250; [super_predict] is
    [FETANetwork._predict_scores_using_pairs]. *)
Definition _predict_scores_using_pairs
           (super_predict : Array3 -> Kwd -> Py.M (Instance W) Array2)
           (X : Array3) (kwd : Kwd) : Py.M (Instance W) Array2 :=
  (scores <- super_predict X kwd ;;
   let scores := sigmoid2 scores in
   Py.ret scores)%py.

End Fit.

End FETAFit.

(* ================================================================== *)
(** * FETAChoiceFunction.sub_sampling *)
(* ================================================================== *)

Module SubSampling.
Import Np.

(** Probability vectors are kept exact, as rationals. *)
Definition Qsum (p : list Q) : Q := fold_right Qplus 0%Q p.

(** [np.zeros(k) + 1 / k]; [1 / 0] raises ZeroDivisionError. *)
Definition uniform (k : nat) : Result (list Q) :=
  if k =? 0 then Raise ZeroDivisionError
  else Ok (repeat (0 + 1 / inject_Z (Z.of_nat k))%Q k).

(** [p[idx] = 0.2 * p[idx]]: every position listed in [idx] is scaled
    once, from its old value.  (The positions come from [choice] on
    [len(p)], so none is out of range.) *)
Definition scale_at (idx : list nat) (p : list Q) : list Q :=
  map (fun iq => if existsb (Nat.eqb (fst iq)) idx
                 then ((2 # 10) * snd iq)%Q else snd iq)
      (combine (seq 0 (length p)) p).

(** [p / p.sum()] *)
Definition normalise (p : list Q) : list Q :=
  map (fun q => (q / Qsum p)%Q) p.

(** [np.count_nonzero(p)] *)
Definition count_nonzero (p : list Q) : nat :=
  length (filter (fun q => negb (Qeq_bool q 0)) p).

(** The argument validation of [RandomState.choice(a, size, replace, p)]
    for an integer [a]. *)
Definition valid_choice (a size : nat) (replace : bool) (p : option (list Q))
  : bool :=
  negb (a =? 0)
  && match p with
     | None => true
     | Some p => (length p =? a)
                 && forallb (fun q => Qle_bool 0 q) p
                 && Qeq_bool (Qsum p) 1
     end
  && (replace
      || ((size <=? a)
          && match p with
             | None => true
             | Some p => size <=? count_nonzero p
             end)).

Section WithGenerator.
Context {G : Type} `{RandomState G}.

(** [random_state.choice(a, size=size, replace=replace, p=p)] *)
Definition choice (a size : nat) (replace : bool) (p : option (list Q))
  : Py.M G (list nat) :=
  fun g => if valid_choice a size replace p
           then let (r, g') := choice_raw a size replace p g in (Ok r, g')
           else (Raise ValueError, g).

(** [random_state.shuffle(i)] *)
Definition shuffle (i : list nat) : Py.M G (list nat) :=
  fun g => let (r, g') := shuffle_raw i g in (Ok r, g').

(** [a[idx]] for a 1-D index array; IndexError out of range. *)
Fixpoint take {A : Type} (a : list A) (idx : list nat) : Result (list A) :=
  match idx with
  | [] => Ok []
  | i :: rest =>
      match nth_error a i with
      | None => Raise IndexError
      | Some v => (let? vs := take a rest in Ok (v :: vs))%py
      end
  end.

(** [a[idx]] for a 2-D index array. *)
Fixpoint take2 {A : Type} (a : list A) (idx : list (list nat))
  : Result (list (list A)) :=
  match idx with
  | [] => Ok []
  | row :: rest =>
      (let? r := take a row in
       let? rs := take2 a rest in
       Ok (r :: rs))%py
  end.

(** [np.where(y == v)[0]] and [(y == v).sum()] *)
Definition where_eq (v : Z) (y : list Z) : list nat :=
  filter (fun i => Z.eqb (nth i y 0%Z) v) (seq 0 (length y)).

Definition count_eq (v : Z) (y : list Z) : nat :=
  length (filter (fun l => Z.eqb l v) y).

(** Row-major split of a flat array into [rows] rows of [cols] entries. *)
Definition reshape_rows {A : Type} (rows cols : nat) (l : list A)
  : list (list A) :=
  map (fun r => firstn cols (skipn (r * cols) l)) (seq 0 rows).

(** Lines 340-359: the body of [for c in cp], on the state
    [(p_0, p_1)]; returns the index row [i].  ([c] never exceeds
    [n_objects] here, so [n_objects - c] is not negative.) *)
Definition sample_row (n_objects : nat) (ind_1 ind_0 : list nat) (c : nat)
           (p_0 p_1 : list Q) : Py.M G (list nat * (list Q * list Q)) :=
  (pos <- choice (length ind_1) c false (Some p_1) ;;
   neg <- (if length ind_0 <? n_objects - c
           then choice (length ind_0) (n_objects - c) true (Some p_0)
           else choice (length ind_0) (n_objects - c) false (Some p_0)) ;;
   let p_0 := scale_at neg p_0 in
   let p_0 := normalise p_0 in
   i_1 <- Py.lift (take ind_1 pos) ;;
   i_0 <- Py.lift (take ind_0 neg) ;;
   i <- shuffle (i_1 ++ i_0) ;;
   let p_1 := scale_at pos p_1 in
   let p_1 := normalise p_1 in
   let p_0 := scale_at neg p_0 in
   let p_0 := normalise p_0 in
   Py.ret (i, (p_0, p_1)))%py.

(** Lines 338-360: [for c in cp], collecting [idx]. *)
Fixpoint sample_rows (n_objects : nat) (ind_1 ind_0 : list nat) (cp : list nat)
         (p_0 p_1 : list Q) (idx : list (list nat)) : Py.M G (list (list nat)) :=
  match cp with
  | [] => Py.ret idx
  | c :: rest =>
      (r <- sample_row n_objects ind_1 ind_0 c p_0 p_1 ;;
       let '(i, (p_0, p_1)) := r in
       sample_rows n_objects ind_1 ind_0 rest p_0 p_1 (idx ++ [i]))%py
  end.

(** Lines 323-363: the index array [idx] for one query with labels [y]. *)
Definition sample_query (n_objects bucket_size : nat) (y : list Z)
  : Py.M G (list (list nat)) :=
  (let ind_1 := where_eq 1 y in
   p_1 <- Py.lift (uniform (length ind_1)) ;;
   if count_eq 1 y <? n_objects
   then
     let ind_0 := where_eq 0 y in
     p_0 <- Py.lift (uniform (length ind_0)) ;;
     let positives := if count_eq 1 y <? n_objects
                      then count_eq 1 y else n_objects in
     cp <- (if bucket_size <? positives
            then choice positives bucket_size false None
            else choice positives bucket_size true None) ;;
     let cp := map (fun c => c + 1) cp in
     sample_rows n_objects ind_1 ind_0 cp p_0 p_1 []
   else
     r <- choice (length ind_1) (bucket_size * n_objects) true None ;;
     picked <- Py.lift (take ind_1 r) ;;
     Py.ret (reshape_rows bucket_size n_objects picked))%py.

(** Lines 322-369: [for x, y in zip(X, Y)], accumulating the batch. *)
Fixpoint sample_batch (n_objects bucket_size : nat)
         (XY : list (list (list R) * list Z))
         (X_train : list (list (list R))) (Y_train : list (list Z))
  : Py.M G (list (list (list R)) * list (list Z)) :=
  match XY with
  | [] => Py.ret (X_train, Y_train)
  | (x, y) :: rest =>
      (idx <- sample_query n_objects bucket_size y ;;
       if length X_train =? 0
       then
         xs <- Py.lift (take2 x idx) ;;
         ys <- Py.lift (take2 y idx) ;;
         sample_batch n_objects bucket_size rest xs ys
       else
         ys <- Py.lift (take2 y idx) ;;
         xs <- Py.lift (take2 x idx) ;;
         sample_batch n_objects bucket_size rest (X_train ++ xs) (Y_train ++ ys))%py
  end.

(** Lines 315-373.  The generator is the one in the attribute
    [random_state]; the closing [logger.info] reads [X_train.shape], which
    the empty Python list of a batch without queries does not have. *)
Definition sub_sampling (self : FETA.FETAChoiceFunction)
           (X : Array3) (Y : list (list Z)) : Py.M G (Array3 * list (list Z)) :=
  if FETA.n_objects_fit_ self <=? FETA.max_number_of_objects self
  then Py.ret (X, Y)
  else
    let n_objects := FETA.max_number_of_objects self in
    let '(_, N, d) := shape3 X in
    if n_objects =? 0 then Py.raise ZeroDivisionError
    else
      let bucket_size := N / n_objects in
      (r <- sample_batch n_objects bucket_size (combine (data3 X) Y) [] [] ;;
       let '(X_train, Y_train) := r in
       match combine (data3 X) Y with
       | [] => Py.raise AttributeError
       | _ => Py.ret (mkArray3 (length X_train, n_objects, d) X_train, Y_train)
       end)%py.

End WithGenerator.

(** A probability vector over [k] positions, none of them zero. *)
Definition positive_distribution (k : nat) (p : list Q) : Prop :=
  length p = k /\ Forall (fun q => (0 < q)%Q) p /\ (Qsum p == 1)%Q.

(** An index row of a sub-sample of the query with labels [y]: [n_objects]
    positions of the query, one of them at least of a chosen object. *)
Definition good_row (n_objects : nat) (y : list Z) (i : list nat) : Prop :=
  length i = n_objects /\
  Forall (fun j => j < length y) i /\
  exists j, In j i /\ nth j y 0%Z = 1%Z.

(** [a[idx]] where no index is out of range. *)
Definition gather {A : Type} (d : A) (a : list A) (idx : list (list nat))
  : list (list A) :=
  map (map (fun i => nth i a d)) idx.

(** A label row of a choice problem: binary, with at least one chosen
    object. *)
Definition binary (y : list Z) : Prop := Forall (fun l => l = 0%Z \/ l = 1%Z) y.
Definition has_chosen (y : list Z) : Prop := In 1%Z y.

End SubSampling.

(* ================================================================== *)
(** * The estimator protocol *)
(* ================================================================== *)

Module Learner.
Import Np.

(** What a learner implements itself: its score prediction for a batch of
    fixed query size. *)
Class Learner (Self : Type) : Type := {
  _predict_scores_fixed : Array3 -> Py.M Self Array2
}.

#[export] Instance FATELinearCore_Learner : Learner FATELinear.FATELinearCore := {
  _predict_scores_fixed := FATELinear._predict_scores_fixed
}.

#[export] Instance PairwiseSVM_Learner : Learner PairwiseSVM.PairwiseSVM := {
  _predict_scores_fixed := PairwiseSVM._predict_scores_fixed
}.

#[export] Instance RandomBaselineDC_Learner (G : Type) `{RandomState G}
  : Learner (RandomBaselineDC.RandomBaselineDC G) := {
  _predict_scores_fixed := RandomBaselineDC._predict_scores_fixed
}.

Section Protocol.
Context {Self : Type} `{Learner Self}.

(** Modelled from the spec: [Learner.predict_scores] (csrank/learner.py is
    not part of the sources), "[predict_scores(X)] returns utility scores":
    for a rank-3 array it is the score prediction of the learner. *)
Definition predict_scores (X : Array3) : Py.M Self Array2 :=
  _predict_scores_fixed X.

(** Modelled from the spec: [Learner.predict] (csrank/learner.py is not
    part of the sources), "[predict(X)] / [predict_for_scores(scores)]
    convert scores to final rankings or choice sets": the scores of [X] are
    predicted and converted by [predict_for_scores], a function of the
    scores alone. *)
Definition predict {P : Type} (predict_for_scores : Array2 -> P) (X : Array3)
  : Py.M Self P :=
  (scores <- predict_scores X ;;
   Py.ret (predict_for_scores scores))%py.

(** The other side of the round trip, written out by a caller:
    [predict_for_scores(predict_scores(X))]. *)
Definition predict_for_scores_of_predict_scores {P : Type}
           (predict_for_scores : Array2 -> P) (X : Array3) : Py.M Self P :=
  (scores <- predict_scores X ;;
   Py.ret (predict_for_scores scores))%py.

(** Both sides evaluated on one instance, one after the other, as a test
    of the round trip does. *)
Definition both_sides {P : Type} (predict_for_scores : Array2 -> P) (X : Array3)
  : Py.M Self (P * P) :=
  (left_side <- predict predict_for_scores X ;;
   right_side <- predict_for_scores_of_predict_scores predict_for_scores X ;;
   Py.ret (left_side, right_side))%py.

(** [predict_scores] called twice on the same input. *)
Definition predict_scores_twice (X : Array3) : Py.M Self (Array2 * Array2) :=
  (first <- predict_scores X ;;
   second <- predict_scores X ;;
   Py.ret (first, second))%py.

End Protocol.

(** [np.argmax] of a row: the first position of the largest score. *)
Fixpoint argmax_from (best_i : nat) (best : R) (i : nat) (l : list R) : nat :=
  match l with
  | [] => best_i
  | x :: rest => if Rlt_dec best x then argmax_from i x (S i) rest
                 else argmax_from best_i best (S i) rest
  end.

Definition argmax (l : list R) : nat :=
  match l with
  | [] => 0
  | x :: rest => argmax_from 0 x 1 rest
  end.

(** Modelled from the spec: [DiscreteObjectChooser.predict_for_scores]
    (csrank/discretechoice/discrete_choice.py is not part of the sources),
    which turns the scores of a query into "a single chosen object": the
    position of the highest score of each query. *)
Definition discrete_choice_for_scores (scores : Array2) : list nat :=
  map argmax (data2 scores).

End Learner.

(* ================================================================== *)
(** * Concrete instances used to exercise the statements *)
(* ================================================================== *)

Module Examples.
Import Keras FETA.

(** A three-object network with one shared hidden layer and the
    zeroth-order model switched on. *)
Definition feta3 : FETAChoiceFunction := {|
  n_objects_fit_ := 3;
  n_object_features_fit_ := 1;
  add_zeroth_order_model := true;
  max_number_of_objects := 10;
  hidden_layers := [map (Rmult 2)];
  output_node := Rsum;
  hidden_layers_zeroth := [map (Rplus 1)];
  output_node_zeroth := Rsum
|}.

Definition query3 : list tensor := [[1%R]; [2%R]; [3%R]].

(** A batch of two queries of two objects with one feature, and labels. *)
Definition X221 : Np.Array3 :=
  Np.mkArray3 (2, 2, 1) [[[1%R]; [2%R]]; [[3%R]; [4%R]]].

Definition Y22 : Np.Array2 :=
  Np.mkArray2 (2, 2) [[1%R; 0%R]; [0%R; 1%R]].

(** A training set-up whose optimizer shifts the output bias by the
    learning rate and whose loss is that bias, and a run of it in which the
    operator interrupts at the seventh statement boundary. *)
Definition variables0 : FATELinearFit.TFVariables :=
  {| FATELinearFit.W1 := Np.mkArray2 (1, 1) [[1%R]];
     FATELinearFit.b1 := [0%R];
     FATELinearFit.W2 := [1%R; 1%R];
     FATELinearFit.b2 := [0%R] |}.

Definition shift_bias (lr : R) (v : FATELinearFit.TFVariables)
           (Xb : Np.Array3) (Yb : Np.Array2) : FATELinearFit.TFVariables :=
  {| FATELinearFit.W1 := FATELinearFit.W1 v;
     FATELinearFit.b1 := FATELinearFit.b1 v;
     FATELinearFit.W2 := FATELinearFit.W2 v;
     FATELinearFit.b2 := map (Rplus lr) (FATELinearFit.b2 v) |}.

Definition bias_loss (v : FATELinearFit.TFVariables)
           (X : Np.Array3) (Y : Np.Array2) : list R :=
  FATELinearFit.b2 v.

Definition unfit (pending : option nat) : FATELinearFit.Fitting :=
  FATELinearFit.mkFitting 0%R None variables0 None None None [] [] pending.

(** A FETA choice function whose network fit fails, and whose threshold
    tuning returns 3/10. *)
Definition feta_unfit : FETAFit.Instance unit :=
  FETAFit.mkInstance None [] tt.

Definition split_half (X : Np.Array3) (Y : Np.Array2) (tune_size : R)
  : Py.M (FETAFit.Instance unit)
         (Np.Array3 * Np.Array3 * Np.Array2 * Np.Array2) :=
  Py.ret (FATELinearFit.slice3 0 1 X, FATELinearFit.slice3 1 2 X,
          FATELinearFit.slice2 0 1 Y, FATELinearFit.slice2 1 2 Y).

Definition failing_fit (X : Np.Array3) (Y : Np.Array2) (epochs : nat)
           (callbacks : unit) (validation_split : R) (verbose : nat) (kwd : unit)
  : Py.M (FETAFit.Instance unit) unit :=
  Py.raise ValueError.

Definition constant_threshold (X : Np.Array3) (Y : Np.Array2)
           (thin_thresholds verbose : nat) : Py.M (FETAFit.Instance unit) R :=
  Py.ret (3 / 10)%R.

(** A generator for the examples: its state counts the calls made.  The
    uniform draws cycle through 1/2, 1/3, 1/4; a choice with replacement
    walks round the population from the current count; one without takes a
    run of consecutive positions; a shuffle reverses. *)
#[export] Instance counting_generator : RandomState nat := {
  random_sample g := ((/ (INR (g mod 3) + 2))%R, S g);
  choice_raw a size replace p g :=
    (if replace
     then map (fun i => (g + i) mod a) (seq 0 size)
     else seq (g mod (a - size + 1)) size,
     S g);
  shuffle_raw l g := (rev l, S g)
}.

(** A FETA choice function fitted on four objects that subsamples queries
    to two objects, and a batch of two queries with their choices. *)
Definition feta_large : FETAChoiceFunction := {|
  n_objects_fit_ := 4;
  n_object_features_fit_ := 1;
  add_zeroth_order_model := false;
  max_number_of_objects := 2;
  hidden_layers := [];
  output_node := Rsum;
  hidden_layers_zeroth := [];
  output_node_zeroth := Rsum
|}.

Definition X241 : Np.Array3 :=
  Np.mkArray3 (2, 4, 1)
    [[[1%R]; [2%R]; [3%R]; [4%R]]; [[5%R]; [6%R]; [7%R]; [8%R]]].

Definition Y24 : list (list Z) := [[0; 1; 0; 0]%Z; [1; 1; 0; 1]%Z].

(** Fitted instances of the three learners, for one feature. *)
Definition fate_fitted : FATELinear.FATELinearCore := {|
  FATELinear.n_hidden_set_units := 1;
  FATELinear.n_object_features_fit_ := 1;
  FATELinear.weight1_ := Np.mkArray2 (1, 1) [[1%R]];
  FATELinear.bias1_ := [0%R];
  FATELinear.weight2_ := [1%R; 1%R];
  FATELinear.bias2_ := [0%R]
|}.

Definition svm_fitted : PairwiseSVM.PairwiseSVM := {|
  PairwiseSVM.fit_intercept := true;
  PairwiseSVM.n_object_features_fit_ := 1;
  PairwiseSVM.weights := [2%R; 0%R];
  PairwiseSVM.logger := []
|}.

Definition baseline_fitted : RandomBaselineDC.RandomBaselineDC nat :=
  {| RandomBaselineDC.random_state_ := 0 |}.

(** A batch with three features per object, and one with a single query. *)
Definition X113 : Np.Array3 := Np.mkArray3 (1, 1, 3) [[[1%R; 2%R; 3%R]]].

Definition X121 : Np.Array3 := Np.mkArray3 (1, 2, 1) [[[1%R]; [2%R]]].

Definition raw_scores (X : Np.Array3) (kwd : unit)
  : Py.M (FETAFit.Instance unit) Np.Array2 :=
  Py.ret (Np.mkArray2 (1, 2) [[0%R; 5%R]]).

End Examples.

(* ================================================================== *)
(** * FATELinearCore: what a score is made of *)
(* ================================================================== *)

Module FATELinearScores.
Import Np FATELinear.

(** [X[:, pi]] and [S[:, pi]]: the objects of every query, respectively
    their scores, picked by the index list [pi]; IndexError when an index
    is not below the number of objects. *)
Definition take_objects (pi : list nat) (X : Array3) : Result Array3 :=
  let '(n, m, d) := shape3 X in
  if forallb (fun k => k <? m) pi
  then Ok (mkArray3 (n, length pi, d)
             (map (fun q => map (fun k => nth k q []) pi) (data3 X)))
  else Raise IndexError.

Definition take_scores (pi : list nat) (S : Array2) : Result Array2 :=
  let '(n, m) := shape2 S in
  if forallb (fun k => k <? m) pi
  then Ok (mkArray2 (n, length pi)
             (map (fun row => map (fun k => nth k row 0%R) pi) (data2 S)))
  else Raise IndexError.

(** Lines 142: the representation of a query [q], the mean over its
    objects of their image under [weight1_], shifted by [bias1_]. *)
Definition set_representation (self : FATELinearCore) (q : list (list R))
  : list R :=
  let h := snd (shape2 (weight1_ self)) in
  let XW := map (fun v => map (fun k => inner v (column k (data2 (weight1_ self))))
                              (seq 0 h)) q in
  broadcast_row h (length (bias1_ self))
                (map (fun k => Rmean (column k XW)) (seq 0 h)) (bias1_ self).

(** Lines 143-146: the score of an object with features [v] in the query
    [q]. *)
Definition utility (self : FATELinearCore) (q : list (list R)) (v : list R) : R :=
  sigmoid (inner (v ++ set_representation self q) (weight2_ self)
           + nth 0 (bias2_ self) 0)%R.

End FATELinearScores.

(* ================================================================== *)
(** * Sub-sampling: what a drawn row holds *)
(* ================================================================== *)

Module SubSamplingRows.
Import SubSampling.

(** Position [j] of the query with labels [y] carries the label [v]. *)
Definition labelled (v : Z) (y : list Z) (j : nat) : Prop :=
  j < length y /\ nth j y 0%Z = v.

(** A row drawn by lines 338-359: some chosen objects, each once, and some
    objects that were not chosen, in any order. *)
Definition mixed_row (y : list Z) (i : list nat) : Prop :=
  exists chosen rest,
    Permutation (chosen ++ rest) i /\
    NoDup chosen /\ 1 <= length chosen /\ Forall (labelled 1 y) chosen /\
    1 <= length rest /\ Forall (labelled 0 y) rest.

(** A row drawn by line 362: chosen objects only. *)
Definition chosen_row (y : list Z) (i : list nat) : Prop :=
  Forall (labelled 1 y) i.

(** The index rows drawn for a query: [bucket_size] rows of [n_objects]
    positions of the query, of the kind the number of chosen objects
    selects. *)
Definition drawn_rows (n_objects bucket_size : nat) (y : list Z)
           (idx : list (list nat)) : Prop :=
  length idx = bucket_size /\
  Forall (fun i => length i = n_objects /\
                   Forall (fun j => j < length y) i /\
                   if count_eq 1 y <? n_objects
                   then mixed_row y i else chosen_row y i) idx.

End SubSamplingRows.

(* ================================================================== *)
(** * FATELinearCore: what an uninterrupted fit computes *)
(* ================================================================== *)

Module FATELinearSchedule.
Import Np FATELinearFit.

Section Training.
Variables (learning_rate drop : R) (batch_size epochs_drop : nat).
Variable minimize : R -> TFVariables -> Array3 -> Array2 -> TFVariables.

(** The learning rate of the optimizer during epoch [e]: the one
    [_construct_model_] sets for the first epoch, and the one [step_decay]
    sets at the end of each epoch for the next. *)
Definition rate_of_epoch (e : nat) : R :=
  (learning_rate * drop ^ (e / epochs_drop))%R.

(** The start positions [range(0, n_instances, batch_size)]. *)
Definition starts (n_instances : nat) : list nat :=
  map (fun k => k * batch_size)
      (seq 0 ((n_instances + batch_size - 1) / batch_size)).

(** One optimizer run on the batch that starts at [start]. *)
Definition descend (lr : R) (X : Array3) (Y : Array2) (n_instances : nat)
           (v : TFVariables) (start : nat) : TFVariables :=
  let end_ := Nat.min (start + batch_size) n_instances in
  minimize lr v (slice3 start end_ X) (slice2 start end_ Y).

(** One pass over the batches, in order, at a fixed learning rate. *)
Definition sweep (lr : R) (X : Array3) (Y : Array2) (n_instances : nat)
           (v : TFVariables) : TFVariables :=
  fold_left (descend lr X Y n_instances) (starts n_instances) v.

(** [epochs] passes, each at the learning rate of its epoch. *)
Definition trained (X : Array3) (Y : Array2) (n_instances epochs : nat)
           (v : TFVariables) : TFVariables :=
  fold_left (fun v e => sweep (rate_of_epoch e) X Y n_instances v)
            (range epochs) v.

End Training.

End FATELinearSchedule.

(* ================================================================== *)
(** * PairwiseSVM: fit, and the classes that inherit it *)
(* ================================================================== *)

Module PairwiseSVMFit.
Import Np String.

(** The two linear models of scikit-learn [fit] chooses from. *)
Inductive Estimator : Type := LogisticRegression | LinearSVC.

(** Records written by [self.logger]. *)
Inductive LogLine : Type :=
| InfoLogisticRegression
| InfoLinearSVC
| DebugFinishedCreating
| DebugFittingComplete
| DebugCreatingDataset
| DebugFinishedDataset (n_instances : nat).

Section Fit.

(** Seeds and generators of [sklearn.utils.check_random_state], and the
    labels [Y], which [fit] only hands on. *)
Variables Seed G Labels : Type.

(** The attributes of an instance: those [__init__] sets, those [fit]
    assigns ([None] before), and [n_object_features], which
    [PairwiseSVMDiscreteChoiceFunction._convert_instances] reads.
    [model] holds the estimator and, once fitted, its [coef_] and
    [intercept_]. *)
Record Instance : Type := mkInstance {
  C : R;
  tol : R;
  normalize : bool;
  fit_intercept : bool;
  random_state : Seed;
  threshold_instances : Z;
  n_object_features : option nat;
  random_state_ : option G;
  n_objects_fit_ : option nat;
  n_object_features_fit_ : option nat;
  model : option (Estimator * option (Array2 * Array1));
  weights : option Array1;
  logger : list LogLine
}.

Definition set_random_state_ (g : G) (s : Instance) : Instance :=
  mkInstance (C s) (tol s) (normalize s) (fit_intercept s) (random_state s)
             (threshold_instances s) (n_object_features s) (Some g)
             (n_objects_fit_ s) (n_object_features_fit_ s) (model s)
             (weights s) (logger s).

Definition set_fit_shape (n_objects n_features : nat) (s : Instance) : Instance :=
  mkInstance (C s) (tol s) (normalize s) (fit_intercept s) (random_state s)
             (threshold_instances s) (n_object_features s) (random_state_ s)
             (Some n_objects) (Some n_features) (model s)
             (weights s) (logger s).

Definition set_model (m : Estimator * option (Array2 * Array1)) (s : Instance)
  : Instance :=
  mkInstance (C s) (tol s) (normalize s) (fit_intercept s) (random_state s)
             (threshold_instances s) (n_object_features s) (random_state_ s)
             (n_objects_fit_ s) (n_object_features_fit_ s) (Some m)
             (weights s) (logger s).

Definition set_weights (w : Array1) (s : Instance) : Instance :=
  mkInstance (C s) (tol s) (normalize s) (fit_intercept s) (random_state s)
             (threshold_instances s) (n_object_features s) (random_state_ s)
             (n_objects_fit_ s) (n_object_features_fit_ s) (model s)
             (Some w) (logger s).

Definition log (r : LogLine) : Py.M Instance unit :=
  Py.modify (fun s =>
    mkInstance (C s) (tol s) (normalize s) (fit_intercept s) (random_state s)
               (threshold_instances s) (n_object_features s) (random_state_ s)
               (n_objects_fit_ s) (n_object_features_fit_ s) (model s)
               (weights s) (logger s ++ [r])).

(** Functions defined outside the sources: [check_random_state], the
    [fit] of the scikit-learn estimators, which yields [coef_] and
    [intercept_], [StandardScaler().fit_transform], and
    [generate_complete_pairwise_dataset], of whose five results the third
    and the fifth are kept. *)
Variable check_random_state : Seed -> Result G.
Variable estimator_fit :
  Estimator -> R -> R -> bool -> G -> Array2 -> list Z -> Result (Array2 * Array1).
Variable fit_transform : Array2 -> Result Array2.
Variable generate_complete_pairwise_dataset :
  Array3 -> Labels -> Result (Array2 * list Z).

(** A method that converts instances, and a class body as a dictionary
    from the names it defines to such methods. *)
Definition Conversion : Type :=
  Array3 -> Labels -> Py.M Instance (Array2 * list Z).

Definition ClassDict : Type := list (String.string * Conversion).

Fixpoint lookup (name : String.string) (d : ClassDict) : option Conversion :=
  match d with
  | [] => None
  | (k, f) :: rest => if String.eqb k name then Some f else lookup name rest
  end.

(** Attribute lookup on the class of an instance: the first class of the
    method resolution order that defines the name. *)
Fixpoint resolve (name : String.string) (mro : list ClassDict)
  : option Conversion :=
  match mro with
  | [] => None
  | d :: rest => match lookup name d with
                 | Some f => Some f
                 | None => resolve name rest
                 end
  end.

(** [self.<name>(X, Y)] *)
Definition call (mro : list ClassDict) (name : String.string)
           (X : Array3) (Y : Labels) : Py.M Instance (Array2 * list Z) :=
  match resolve name mro with
  | Some f => f X Y
  | None => Py.raise AttributeError
  end.

(** pairwise_svm.py, lines 111-112. *)
Definition _convert_instances_ : Conversion :=
  fun X Y => Py.raise NotImplementedError.

(** pairwise_svm.py, lines 53-97, for an instance whose class has the
    method resolution order [mro]. *)
Definition fit (mro : list ClassDict) (X : Array3) (Y : Labels)
  : Py.M Instance unit :=
  (self <- Py.get ;;
   g <- Py.lift (check_random_state (random_state self)) ;;
   Py.modify (set_random_state_ g) ;;;
   let '(_n_instances, n_objects, n_features) := shape3 X in
   Py.modify (set_fit_shape n_objects n_features) ;;;
   converted <- call mro "_convert_instances_"%string X Y ;;
   let '(x_train, y_single) := converted in
   self <- Py.get ;;
   let estimator :=
     if (Z.of_nat (fst (shape2 x_train)) >? threshold_instances self)%Z
     then LogisticRegression else LinearSVC in
   Py.modify (set_model (estimator, None)) ;;;
   log (match estimator with
        | LogisticRegression => InfoLogisticRegression
        | LinearSVC => InfoLinearSVC
        end) ;;;
   x_train <- (if normalize self then Py.lift (fit_transform x_train)
               else Py.ret x_train) ;;
   log DebugFinishedCreating ;;;
   fitted <- Py.lift (estimator_fit estimator (C self) (tol self)
                                    (fit_intercept self) g x_train y_single) ;;
   Py.modify (set_model (estimator, Some fitted)) ;;;
   let '(coef_, intercept_) := fitted in
   Py.modify (set_weights (List.concat (data2 coef_))) ;;;
   Py.when (fit_intercept self)
     (Py.modify (set_weights (List.concat (data2 coef_) ++ intercept_))) ;;;
   log DebugFittingComplete)%py.

(** The body of [class PairwiseSVM], as far as converting goes. *)
Definition PairwiseSVM_dict : ClassDict :=
  [("_convert_instances_"%string, _convert_instances_)].

(** pairwise_discrete_choice.py, lines 48-54. *)
Definition _convert_instances : Conversion :=
  fun X Y =>
    (log DebugCreatingDataset ;;;
     converted <- Py.lift (generate_complete_pairwise_dataset X Y) ;;
     let '(x_train, y_single) := converted in
     self <- Py.get ;;
     match n_object_features self with
     | None => Py.raise AttributeError
     | Some d =>
         Py.assert (snd (shape2 x_train) =? d) ;;;
         log (DebugFinishedDataset (fst (shape2 x_train))) ;;;
         Py.ret (x_train, y_single)
     end)%py.

(** The body of [class PairwiseSVMDiscreteChoiceFunction]. *)
Definition PairwiseSVMDiscreteChoiceFunction_dict : ClassDict :=
  [("_convert_instances"%string, _convert_instances)].

(** The method resolution order of
    [PairwiseSVMDiscreteChoiceFunction(PairwiseSVM, DiscreteObjectChooser)]:
    the class, its first base, then the classes defined outside the
    sources ([others]). *)
Definition PairwiseSVMDiscreteChoiceFunction_mro (others : list ClassDict)
  : list ClassDict :=
  PairwiseSVMDiscreteChoiceFunction_dict :: PairwiseSVM_dict :: others.

(** pairwise_discrete_choice.py, lines 56-57: [super().fit(X, Y, **kwd)]
    on an instance of the class. *)
Definition PairwiseSVMDiscreteChoiceFunction_fit (others : list ClassDict)
           (X : Array3) (Y : Labels) : Py.M Instance unit :=
  fit (PairwiseSVMDiscreteChoiceFunction_mro others) X Y.

End Fit.

End PairwiseSVMFit.

(* ================================================================== *)
(** * FATELinearCore: the scores of the training graph *)
(* ================================================================== *)

Module FATELinearGraph.
Import Np FATELinearFit.

(** [tf.tile(A, [1, k])] for [A] of shape (n, h): every row [k] times in
    a row, shape (n, h * k). *)
Definition tf_tile_1 (k : nat) (A : Array2) : Array2 :=
  let '(n, h) := shape2 A in
  mkArray2 (n, h * k) (map (fun row => concat (repeat row k)) (data2 A)).

(** The first [count] runs of [size] entries of a list. *)
Fixpoint chunks {A : Type} (size count : nat) (l : list A) : list (list A) :=
  match count with
  | O => []
  | S c => firstn size l :: chunks size c (skipn size l)
  end.

(** [tf.reshape(A, (-1, m, h))] for [A] of rank 2: the entries in
    row-major order, regrouped; the first extent is the number of entries
    divided by [m * h].  (The library refuses a number of entries that
    [m * h] does not divide; here the entries are regrouped as far as they
    go.) *)
Definition tf_reshape_3 (m h : nat) (A : Array2) : Array3 :=
  let '(n, w) := shape2 A in
  let n' := n * w / (m * h) in
  mkArray3 (n', m, h)
           (map (chunks h m) (chunks (m * h) n' (concat (data2 A)))).

(** Lines 37-76: the tensor [scores] of the graph as a function of the
    values of the variables and of the array fed for the placeholder
    [self.X], whose declared shape [None, n_objects, n_features] the fed
    array must fit. *)
Definition scores (n_objects n_object_features_fit_ n_hidden_set_units : nat)
           (v : TFVariables) (X : Array3) : Result Array2 :=
  (let '(n, m, d) := shape3 X in
   if (m =? n_objects) && (d =? n_object_features_fit_)
   then
     let? XW := dot_3_2 X (W1 v) in
     let? set_rep := add_2_1 (mean_axis1 XW) (b1 v) in
     let set_rep :=
       tf_reshape_3 n_objects n_hidden_set_units (tf_tile_1 n_objects set_rep) in
     let? X_con := concatenate_axis2 X set_rep in
     let? scores := dot_3_1 X_con (W2 v) in
     let? scores := add_2_1 scores (b2 v) in
     Ok (sigmoid2 scores)
   else Raise ValueError)%py.

(** Lines 111-114: the instance [fit] leaves, as prediction reads it. *)
Definition stored (n_object_features_fit_ n_hidden_set_units : nat)
           (v : TFVariables) : FATELinear.FATELinearCore :=
  {| FATELinear.n_hidden_set_units := n_hidden_set_units;
     FATELinear.n_object_features_fit_ := n_object_features_fit_;
     FATELinear.weight1_ := W1 v;
     FATELinear.bias1_ := b1 v;
     FATELinear.weight2_ := W2 v;
     FATELinear.bias2_ := b2 v |}.

End FATELinearGraph.

(* ================================================================== *)
(** * LetorDiscreteChoiceDatasetReader: the training dictionaries *)
(* ================================================================== *)

Module PyDict.
Import String.

(** The exception of a failed [d[key]]. *)
Definition KeyError : exn := Exception "KeyError"%string.

(** A dict with integer keys: its items in insertion order. *)
Definition dict (V : Type) : Type := list (nat * V).

Definition keys {V : Type} (d : dict V) : list nat := map fst d.

Fixpoint get {V : Type} (k : nat) (d : dict V) : option V :=
  match d with
  | [] => None
  | (k', v) :: rest => if k' =? k then Some v else get k rest
  end.

(** [key in d.keys()] *)
Definition contains {V : Type} (k : nat) (d : dict V) : bool :=
  match get k d with Some _ => true | None => false end.

(** [d[key]] *)
Definition getitem {V : Type} (k : nat) (d : dict V) : Result V :=
  match get k d with Some v => Ok v | None => Raise KeyError end.

(** [d[key] = v]: a key the dict has keeps its place, a new one goes to
    the end. *)
Fixpoint setitem {V : Type} (k : nat) (v : V) (d : dict V) : dict V :=
  match d with
  | [] => [(k, v)]
  | (k', v') :: rest =>
      if k' =? k then (k, v) :: rest else (k', v') :: setitem k v rest
  end.

End PyDict.

Module LetorReader.
Import PyDict.

(** Records written by [self.logger]. *)
Inductive LogLine : Type :=
| LogSampled (instances objects : nat).

Section Reader.

(** What an array holds along its first axis, and the state of whatever
    the sampling function outside the sources draws from. *)
Variables Item World : Type.

(** A numpy array seen along its first axis: its items, and their shape
    (the shape of the array after its first extent). *)
Record NdArray : Type := mkNdArray {
  item_shape : list nat;
  items : list Item
}.

(** [np.append(a, b, axis=0)] and [np.concatenate([a, b], axis=0)]: the
    items of both, when the arrays have the same rank and agree in every
    extent but the first; ValueError otherwise. *)
Definition np_concatenate (a b : NdArray) : Result NdArray :=
  if list_eq_dec Nat.eq_dec (item_shape a) (item_shape b)
  then Ok (mkNdArray (item_shape a) (items a ++ items b))
  else Raise ValueError.

(** The attributes of the reader [merge_to_train] and
    [sub_sampling_for_dictionary] use. *)
Record Reader : Type := mkReader {
  n_objects : nat;
  X_train : dict NdArray;
  Y_train : dict NdArray;
  scores_train : dict NdArray;
  logger : list LogLine;
  world : World
}.

Definition set_X_train (d : dict NdArray) (s : Reader) : Reader :=
  mkReader (n_objects s) d (Y_train s) (scores_train s) (logger s) (world s).

Definition set_Y_train (d : dict NdArray) (s : Reader) : Reader :=
  mkReader (n_objects s) (X_train s) d (scores_train s) (logger s) (world s).

Definition set_scores_train (d : dict NdArray) (s : Reader) : Reader :=
  mkReader (n_objects s) (X_train s) (Y_train s) d (logger s) (world s).

Definition logger_info (r : LogLine) : Py.M Reader unit :=
  Py.modify (fun s =>
    mkReader (n_objects s) (X_train s) (Y_train s) (scores_train s)
             (logger s ++ [r]) (world s)).

(** Lines 50-60: the body of the loop of [merge_to_train]. *)
Definition merge_key (X Y scores : dict NdArray) (key : nat)
  : Py.M Reader unit :=
  (x <- Py.lift (getitem key X) ;;
   y <- Py.lift (getitem key Y) ;;
   s <- Py.lift (getitem key scores) ;;
   self <- Py.get ;;
   if contains key (X_train self)
   then
     old <- Py.lift (getitem key (X_train self)) ;;
     new <- Py.lift (np_concatenate old x) ;;
     Py.modify (fun self => set_X_train (setitem key new (X_train self)) self) ;;;
     self <- Py.get ;;
     old <- Py.lift (getitem key (Y_train self)) ;;
     new <- Py.lift (np_concatenate old y) ;;
     Py.modify (fun self => set_Y_train (setitem key new (Y_train self)) self) ;;;
     self <- Py.get ;;
     old <- Py.lift (getitem key (scores_train self)) ;;
     new <- Py.lift (np_concatenate old s) ;;
     Py.modify (fun self =>
                  set_scores_train (setitem key new (scores_train self)) self)
   else
     Py.modify (fun self => set_X_train (setitem key x (X_train self)) self) ;;;
     Py.modify (fun self => set_Y_train (setitem key y (Y_train self)) self) ;;;
     Py.modify (fun self =>
                  set_scores_train (setitem key s (scores_train self)) self))%py.

(** Lines 48-60. *)
Definition merge_to_train (X Y scores : dict NdArray) : Py.M Reader unit :=
  Py.for_each (keys X) (merge_key X Y scores).

(** A local variable that starts as the list [[]] and becomes an array. *)
Inductive PyValue : Type :=
| EmptyList
| Array (a : NdArray).

(** [len(v)] *)
Definition len (v : PyValue) : nat :=
  match v with
  | EmptyList => 0
  | Array a => length (items a)
  end.

(** The array numpy makes of an operand: the empty list becomes an array
    of shape (0,). *)
Definition asarray (v : PyValue) : NdArray :=
  match v with
  | EmptyList => mkNdArray [] []
  | Array a => a
  end.

(** [sub_sampling_discerete_choices(name, X, scores, n_objects=...)],
    defined outside the sources. *)
Variable sub_sampling_discerete_choices :
  NdArray -> NdArray -> nat -> World -> Result (NdArray * NdArray) * World.

Definition sample (Xn Sn : NdArray) : Py.M Reader (NdArray * NdArray) :=
  fun self =>
    let (r, w) := sub_sampling_discerete_choices Xn Sn (n_objects self)
                                                 (world self) in
    (r, mkReader (n_objects self) (X_train self) (Y_train self)
                 (scores_train self) (logger self) w).

(** Lines 66-75: the body of the loop of [sub_sampling_for_dictionary],
    from the values of [X] and [Y] before to those after. *)
Definition sample_key (n : nat) (XY : PyValue * PyValue)
  : Py.M Reader (PyValue * PyValue) :=
  (let '(X, Y) := XY in
   self <- Py.get ;;
   if n_objects self <? n
   then
     Xn <- Py.lift (getitem n (X_train self)) ;;
     Sn <- Py.lift (getitem n (scores_train self)) ;;
     xy <- sample Xn Sn ;;
     let '(x, y) := xy in
     if len X =? 0
     then Py.ret (Array x, Array y)
     else
       X <- Py.lift (np_concatenate (asarray X) x) ;;
       Y <- Py.lift (np_concatenate (asarray Y) y) ;;
       Py.ret (Array X, Array Y)
   else Py.ret (X, Y))%py.

(** A [for] loop that carries the values of local variables along. *)
Fixpoint for_carrying {A B : Type} (l : list A)
         (body : A -> B -> Py.M Reader B) (acc : B) : Py.M Reader B :=
  match l with
  | [] => Py.ret acc
  | a :: rest => (acc <- body a acc ;; for_carrying rest body acc)%py
  end.

(** Lines 62-80. *)
Definition sub_sampling_for_dictionary : Py.M Reader (PyValue * PyValue) :=
  (self <- Py.get ;;
   XY <- for_carrying (keys (X_train self)) sample_key (EmptyList, EmptyList) ;;
   let '(X, Y) := XY in
   XY <- (if contains (n_objects self) (X_train self)
          then
            Xn <- Py.lift (getitem (n_objects self) (X_train self)) ;;
            X <- Py.lift (np_concatenate (asarray X) Xn) ;;
            Yn <- Py.lift (getitem (n_objects self) (Y_train self)) ;;
            Y <- Py.lift (np_concatenate (asarray Y) Yn) ;;
            Py.ret (Array X, Array Y)
          else Py.ret (X, Y)) ;;
   let '(X, Y) := XY in
   match X with
   | EmptyList => Py.raise AttributeError
   | Array a =>
       match item_shape a with
       | [] => Py.raise IndexError
       | objects :: _ =>
           logger_info (LogSampled (length (items a)) objects) ;;;
           Py.ret (X, Y)
       end
   end)%py.

(** The number of instances a dictionary holds for a key. *)
Definition instances (k : nat) (d : dict NdArray) : nat :=
  match get k d with
  | Some a => length (items a)
  | None => 0
  end.

(** Three dictionaries that go together: the same keys, and for every
    key equally many instances. *)
Definition aligned (X Y scores : dict NdArray) : Prop :=
  (forall k, In k (keys Y) <-> In k (keys X)) /\
  (forall k, In k (keys scores) <-> In k (keys X)) /\
  (forall k, instances k Y = instances k X) /\
  (forall k, instances k scores = instances k X).

(** What lines 53-60 leave under [key] in a training dictionary that
    receives the array [x]. *)
Definition merged (key : nat) (x : NdArray) (d : dict NdArray) : dict NdArray :=
  match get key d with
  | Some old => setitem key (mkNdArray (item_shape old) (items old ++ items x)) d
  | None => setitem key x d
  end.

(** Sampled queries with their choices: arrays of at least one instance
    of [n] objects with [d] features, and equally many choices. *)
Definition sampled (n d : nat) (choice_shape : list nat) (X Y : NdArray)
  : Prop :=
  item_shape X = [n; d] /\ item_shape Y = choice_shape /\
  1 <= length (items X) /\ length (items Y) = length (items X).

(** Arrays that can be appended: under a common key, items of one
    shape. *)
Definition appendable (new old : dict NdArray) : Prop :=
  forall k a b, get k new = Some a -> get k old = Some b ->
                item_shape b = item_shape a.

(** The sampling function returns, and what it returns is [sampled]. *)
Definition sampler_returns (d : nat) (choice_shape : list nat) (n : nat)
  : Prop :=
  forall a c w, exists x y w',
    sub_sampling_discerete_choices a c n w = (Ok (x, y), w') /\
    sampled n d choice_shape x y.

(** The local variables [X] and [Y] once a query has been sampled. *)
Definition collected (n d : nat) (choice_shape : list nat)
           (acc : PyValue * PyValue) : Prop :=
  exists X Y, acc = (Array X, Array Y) /\ sampled n d choice_shape X Y.

(** Two states of the reader that differ at most in what the sampling
    function draws from. *)
Definition same_dictionaries (s s' : Reader) : Prop :=
  n_objects s' = n_objects s /\ X_train s' = X_train s /\
  Y_train s' = Y_train s /\ scores_train s' = scores_train s /\
  logger s' = logger s.

End Reader.

End LetorReader.

(** A reader fitted out for three objects per query, a fold to merge into
    it, and a sampling function that returns one fixed query. *)
Module LetorExamples.
Import PyDict LetorReader.

Definition fold_X : dict (NdArray nat) := [(3, mkNdArray [3; 1] [10; 11])].
Definition fold_Y : dict (NdArray nat) := [(3, mkNdArray [] [0; 2])].
Definition fold_scores : dict (NdArray nat) := [(3, mkNdArray [3] [20; 21])].

Definition reader (n_objects : nat) : Reader nat unit :=
  mkReader n_objects
           [(3, mkNdArray [3; 1] [12])]
           [(3, mkNdArray [] [1])]
           [(3, mkNdArray [3] [22])]
           [] tt.

Definition one_query (Xn Sn : NdArray nat) (n_objects : nat) (w : unit)
  : Result (NdArray nat * NdArray nat) * unit :=
  (Ok (mkNdArray [n_objects; 1] [30], mkNdArray [] [0]), w).

End LetorExamples.



(* ================================================================== *)
(** * tests/test_ranking.py: the trivial ranking problem *)
(* ================================================================== *)

Module TestRanking.

Section Argsort.
Context {A : Type}.
Variable ltb : A -> A -> bool.

(** Insertion of a position with its entry into a list sorted by entry,
    before the entries that are not smaller. *)
Fixpoint insert (e : nat * A) (l : list (nat * A)) : list (nat * A) :=
  match l with
  | [] => [e]
  | f :: rest => if ltb (snd f) (snd e) then f :: insert e rest
                 else e :: f :: rest
  end.

(** The positions of an array with their entries, sorted by entry. *)
Definition sorted_items (a : list A) : list (nat * A) :=
  fold_right insert [] (combine (seq 0 (length a)) a).

(** [a.argsort()] along the axis of a 1-D array: the positions of [a] in
    the order of their entries.  (For equal entries the order the default
    kind of sort yields is not specified; the positions are kept in
    order here.) *)
Definition argsort (a : list A) : list nat := map fst (sorted_items a).

(** An item comes before another in the order of the entries, and a list
    of items in which every item comes before all the later ones. *)
Definition before (e f : nat * A) : Prop := ltb (snd e) (snd f) = true.

Fixpoint increasing (l : list (nat * A)) : Prop :=
  match l with
  | [] => True
  | e :: rest => Forall (before e) rest /\ increasing rest
  end.

End Argsort.

Definition Rltb (x y : R) : bool := if Rlt_dec x y then true else false.

(** Line 63, [x.argsort(axis=1).argsort(axis=1).squeeze(axis=-1)], for
    [x] of shape (n, m, 1) given by the features of the objects of each
    query. *)
Definition y_true (x : list (list R)) : list (list nat) :=
  map (fun q => argsort Nat.ltb (argsort Rltb q)) x.

(** The rank of an object in its query: the number of objects with a
    smaller feature. *)
Definition rank (q : list R) (j : nat) : nat :=
  length (filter (fun v => Rltb v (nth j q 0%R)) q).

End TestRanking.



(* ================================================================== *)
(** * Proofs *)
(* ================================================================== *)

Local Open Scope R_scope.

Lemma sigmoid_in_unit_interval (x : R) : in_unit_interval (sigmoid x).
Proof.
  unfold in_unit_interval, sigmoid.
  pose proof (exp_pos (- x)) as Hpos.
  split.
  - apply Rdiv_lt_0_compat; lra.
  - apply (Rmult_lt_reg_r (1 + exp (- x))); [lra|].
    unfold Rdiv. rewrite Rmult_assoc, Rinv_l by lra. lra.
Qed.

Lemma Forall_map_sigmoid (l : list R) :
  Forall in_unit_interval (map sigmoid l).
Proof.
  induction l as [|x l IH]; simpl; constructor; auto using sigmoid_in_unit_interval.
Qed.



Lemma Rmean_length (l : list R) (n : nat) :
  length l = n -> Rmean l = Rsum l / INR n.
Proof. intros <-. reflexivity. Qed.

Close Scope R_scope.

(** ** Lists: positions, appends at an index, pairs *)

Lemma list_eq_map_nth {A : Type} (d : A) (l : list A) :
  l = map (fun k => nth k l d) (seq 0 (length l)).
Proof.
  induction l as [|a l IH]; simpl; [reflexivity|].
  f_equal. rewrite <- seq_shift, map_map. exact IH.
Qed.

Lemma concat_map_singleton {A B : Type} (f : A -> B) (l : list A) :
  concat (map (fun a => [f a]) l) = map f l.
Proof. induction l as [|a l IH]; simpl; congruence. Qed.

Lemma append_at_length {A : Type} (i : nat) (v : A) (o : list (list A)) :
  length (append_at i v o) = length o.
Proof.
  revert i; induction o as [|r o IH]; intros [|i]; simpl; auto.
Qed.

Lemma append_at_nth {A : Type} (i k : nat) (v : A) (o : list (list A)) :
  k < length o ->
  nth k (append_at i v o) [] = nth k o [] ++ (if i =? k then [v] else []).
Proof.
  revert i k; induction o as [|r o IH]; intros i k Hk; simpl in Hk; [lia|].
  destruct i as [|i], k as [|k]; simpl; try (rewrite app_nil_r; reflexivity).
  - reflexivity.
  - apply IH. lia.
Qed.

Lemma fold_left_pairwise {A : Type} (hs : list (A -> A)) (a b : A) :
  fold_left (fun acc h => (h (fst acc), h (snd acc))) hs (a, b)
  = (fold_left (fun x h => h x) hs a, fold_left (fun x h => h x) hs b).
Proof.
  revert a b; induction hs as [|h hs IH]; intros a b; simpl; [reflexivity|].
  apply IH.
Qed.


Lemma combinations2_seq_In (a n i j : nat) :
  In (i, j) (combinations2 (seq a n)) <-> a <= i /\ i < j /\ j < a + n.
Proof.
  revert a; induction n as [|n IH]; intros a; simpl.
  - split; [tauto | lia].
  - rewrite in_app_iff, in_map_iff, IH. split.
    + intros [(y & Heq & Hy) | H].
      * inversion Heq; subst. apply in_seq in Hy. lia.
      * lia.
    + intros (Hai & Hij & Hj).
      destruct (Nat.eq_dec a i) as [->|Hne].
      * left. exists j. split; [reflexivity|]. apply in_seq. lia.
      * right. lia.
Qed.


(** ** The FETA network *)

Module FETAProofs.
Import Keras FETA.

Section Network.
Variable self : FETAChoiceFunction.
Variable input_layer : list tensor.

Let n := n_objects_fit_ self.
Let contrib := contribution self input_layer.

Lemma zeroth_order_fold (l : list nat) (a b : list tensor) :
  fold_left (zeroth_order_step self input_layer) l (a, b)
  = (a ++ map (fun i => nth i input_layer []) l,
     b ++ map (fun i => [U_0 self input_layer i]) l).
Proof.
  revert a b; induction l as [|i l IH]; intros a b; simpl.
  - now rewrite !app_nil_r.
  - unfold create_input_lambda. rewrite IH, <- !app_assoc. reflexivity.
Qed.

Lemma zeroth_order_loop_spec :
  zeroth_order_loop self input_layer
  = (map (fun i => nth i input_layer []) (range n),
     map (fun i => [U_0 self input_layer i]) (range n)).
Proof. unfold zeroth_order_loop. now rewrite zeroth_order_fold. Qed.

Lemma inputs_of_model_nth (i : nat) :
  i < n -> add_zeroth_order_model self = true ->
  nth i (inputs_of_model self input_layer) [] = create_input_lambda i input_layer.
Proof.
  intros Hi Hz. unfold inputs_of_model. rewrite Hz, zeroth_order_loop_spec.
  simpl. unfold create_input_lambda, range.
  rewrite (nth_indep _ [] (nth 0 input_layer []))
    by (rewrite length_map, length_seq; exact Hi).
  rewrite (map_nth (fun i => nth i input_layer [])), seq_nth by exact Hi.
  reflexivity.
Qed.

Lemma pair_step_spec (outputs : list (list tensor)) (i j : nat) :
  i < n -> j < n ->
  pair_step self input_layer (inputs_of_model self input_layer) outputs (i, j)
  = append_at j [U_1 self input_layer j i]
              (append_at i [U_1 self input_layer i j] outputs).
Proof.
  intros Hi Hj. unfold pair_step.
  assert (Hx : forall k, k < n ->
            (if add_zeroth_order_model self
             then nth k (inputs_of_model self input_layer) []
             else create_input_lambda k input_layer)
            = nth k input_layer []).
  { intros k Hk. destruct (add_zeroth_order_model self) eqn:Hz.
    - now rewrite inputs_of_model_nth.
    - reflexivity. }
  rewrite (Hx i Hi), (Hx j Hj).
  unfold concatenate. simpl concat. rewrite !app_nil_r.
  rewrite fold_left_pairwise. unfold U_1. simpl. rewrite !app_nil_r.
  reflexivity.
Qed.

Lemma pair_loop_row (pairs : list (nat * nat)) (outputs : list (list tensor))
      (k : nat) :
  Forall (fun ij => fst ij < n /\ snd ij < n) pairs ->
  k < length outputs ->
  let result :=
    fold_left (pair_step self input_layer (inputs_of_model self input_layer))
              pairs outputs in
  length result = length outputs /\
  nth k result [] = nth k outputs [] ++ flat_map (contrib k) pairs.
Proof.
  revert outputs; induction pairs as [|[i j] pairs IH]; intros outputs Hp Hk;
    cbn [fold_left flat_map].
  - now rewrite app_nil_r.
  - inversion Hp as [|? ? [Hi Hj] Hp']; subst. simpl in Hi, Hj.
    rewrite pair_step_spec by assumption.
    set (o' := append_at j [U_1 self input_layer j i]
                         (append_at i [U_1 self input_layer i j] outputs)).
    assert (Hlen : length o' = length outputs)
      by (unfold o'; now rewrite !append_at_length).
    assert (Hk' : k < length o') by lia.
    destruct (IH o' Hp' Hk') as [IH1 IH2].
    split; [rewrite IH1; exact Hlen|].
    rewrite IH2. unfold o'.
    rewrite !append_at_nth by (rewrite ?append_at_length; assumption).
    unfold contrib, contribution; simpl. now rewrite <- !app_assoc.
Qed.

Lemma contribution_first (k : nat) (t : list nat) :
  ~ In k t ->
  flat_map (contrib k) (map (pair k) t)
  = map (fun j => [U_1 self input_layer k j]) t.
Proof.
  induction t as [|y t IH]; intros Hnin; simpl; [reflexivity|].
  unfold contrib, contribution at 1; simpl; fold contrib. rewrite Nat.eqb_refl.
  destruct (Nat.eqb_spec y k) as [->|_]; [exfalso; apply Hnin; now left|].
  simpl. f_equal. apply IH. intros H; apply Hnin; now right.
Qed.

Lemma contribution_second (k x : nat) (t : list nat) :
  x <> k -> NoDup t ->
  flat_map (contrib k) (map (pair x) t)
  = if in_dec Nat.eq_dec k t then [[U_1 self input_layer k x]] else [].
Proof.
  intros Hx. induction t as [|y t IH]; intros Hnd; simpl; [reflexivity|].
  inversion Hnd as [|? ? Hy Hnd']; subst.
  unfold contrib, contribution at 1; simpl; fold contrib.
  destruct (Nat.eqb_spec x k) as [|_]; [contradiction|]. simpl.
  rewrite (IH Hnd').
  destruct (Nat.eqb_spec y k) as [->|Hyk].
  - destruct (Nat.eq_dec k k) as [e|ne]; [|contradiction].
    destruct (in_dec Nat.eq_dec k t); [contradiction|reflexivity].
  - destruct (Nat.eq_dec y k) as [e|ne]; [contradiction|].
    destruct (in_dec Nat.eq_dec k t); reflexivity.
Qed.

Lemma contribution_absent (k : nat) (l : list nat) :
  ~ In k l -> flat_map (contrib k) (combinations2 l) = [].
Proof.
  induction l as [|x t IH]; intros Hnin; simpl; [reflexivity|].
  rewrite flat_map_app, IH by (intros H; apply Hnin; now right).
  rewrite app_nil_r.
  assert (Hx : x <> k) by (intros ->; apply Hnin; now left).
  assert (Ht : ~ In k t) by (intros H; apply Hnin; now right).
  clear IH Hnin. induction t as [|y t IH]; simpl; [reflexivity|].
  unfold contrib, contribution at 1; simpl; fold contrib.
  destruct (Nat.eqb_spec x k); [contradiction|].
  destruct (Nat.eqb_spec y k) as [->|_]; [exfalso; apply Ht; now left|].
  simpl. apply IH. intros H; apply Ht; now right.
Qed.

Lemma contribution_combinations2 (k : nat) (l : list nat) :
  NoDup l -> In k l ->
  flat_map (contrib k) (combinations2 l)
  = map (fun j => [U_1 self input_layer k j])
        (filter (fun j => negb (j =? k)) l).
Proof.
  induction l as [|x t IH]; intros Hnd Hin; [contradiction|].
  inversion Hnd as [|? ? Hx Hnd']; subst.
  simpl. rewrite flat_map_app.
  destruct (Nat.eqb_spec x k) as [->|Hxk]; simpl.
  - rewrite contribution_first, contribution_absent by assumption.
    rewrite app_nil_r. f_equal.
    clear -Hx. induction t as [|y t IH]; simpl; [reflexivity|].
    destruct (Nat.eqb_spec y k) as [->|_]; [exfalso; apply Hx; now left|].
    simpl. f_equal. apply IH. intros H; apply Hx; now right.
  - destruct Hin as [|Hin]; [contradiction|].
    rewrite contribution_second by assumption.
    destruct (in_dec Nat.eq_dec k t); [|contradiction].
    simpl. f_equal. now apply IH.
Qed.

Lemma range_pairs_in_range :
  Forall (fun ij => fst ij < n /\ snd ij < n) (combinations2 (range n)).
Proof.
  apply Forall_forall. intros [i j] Hin.
  apply combinations2_seq_In in Hin. simpl. lia.
Qed.

Lemma pairwise_outputs_length :
  length (pairwise_outputs self input_layer (inputs_of_model self input_layer))
  = n.
Proof.
  unfold pairwise_outputs. fold n.
  destruct n as [|m] eqn:Hn; [reflexivity|].
  destruct (@pair_loop_row (combinations2 (range (S m))) (repeat [] (S m)) 0)
    as [Hlen _].
  - rewrite <- Hn. exact range_pairs_in_range.
  - rewrite repeat_length. lia.
  - rewrite Hlen, repeat_length. reflexivity.
Qed.

Lemma pairwise_outputs_row (k : nat) :
  k < n ->
  nth k (pairwise_outputs self input_layer (inputs_of_model self input_layer)) []
  = map (fun j => [U_1 self input_layer k j]) (others self k).
Proof.
  intros Hk. unfold pairwise_outputs. fold n.
  destruct (@pair_loop_row (combinations2 (range n)) (repeat [] n) k)
    as [_ Hrow].
  - exact range_pairs_in_range.
  - now rewrite repeat_length.
  - rewrite Hrow.
    replace (nth k (repeat [] n) []) with (@nil tensor)
      by (symmetry; apply nth_repeat).
    simpl. unfold contrib.
    rewrite contribution_combinations2.
    + reflexivity.
    + apply seq_NoDup.
    + apply in_seq. lia.
Qed.

Lemma others_spec (k j : nat) :
  In j (others self k) <-> j < n /\ j <> k.
Proof.
  unfold others, range. rewrite filter_In, in_seq, negb_true_iff, Nat.eqb_neq.
  fold n. lia.
Qed.

Lemma others_length (k : nat) : k < n -> length (others self k) = n - 1.
Proof.
  intros Hk. unfold others, range. fold n.
  replace n with (k + (1 + (n - 1 - k))) at 1 by lia.
  rewrite !seq_app, !filter_app, !length_app. simpl.
  rewrite Nat.eqb_refl. simpl.
  rewrite !forallb_filter_id.
  - rewrite !length_seq. lia.
  - apply forallb_forall. intros j Hj. apply in_seq in Hj.
    apply negb_true_iff, Nat.eqb_neq. lia.
  - apply forallb_forall. intros j Hj. apply in_seq in Hj.
    apply negb_true_iff, Nat.eqb_neq. lia.
Qed.

Lemma first_order_scores_spec :
  first_order_scores self input_layer
  = map (fun k => Rmean (map (U_1 self input_layer k) (others self k)))
        (range n).
Proof.
  unfold first_order_scores, concatenate.
  rewrite (list_eq_map_nth []
             (pairwise_outputs self input_layer
                               (inputs_of_model self input_layer))).
  rewrite pairwise_outputs_length, !map_map.
  unfold mean_keepdims.
  rewrite (concat_map_singleton
             (fun x => Rmean (concat (nth x (pairwise_outputs self input_layer
                                  (inputs_of_model self input_layer)) [])))).
  apply map_ext_in. intros k Hk. apply in_seq in Hk.
  rewrite pairwise_outputs_row by lia.
  now rewrite (concat_map_singleton (U_1 self input_layer k)).
Qed.

Lemma first_order_scores_length : length (first_order_scores self input_layer) = n.
Proof.
  rewrite first_order_scores_spec. unfold range.
  now rewrite length_map, length_seq.
Qed.

Lemma zeroth_order_scores_spec :
  concatenate (snd (zeroth_order_loop self input_layer))
  = map (U_0 self input_layer) (range n).
Proof.
  rewrite zeroth_order_loop_spec. simpl. unfold concatenate.
  apply concat_map_singleton.
Qed.

Lemma zeroth_order_scores_length :
  length (concatenate (snd (zeroth_order_loop self input_layer))) = n.
Proof.
  rewrite zeroth_order_scores_spec. unfold range.
  now rewrite length_map, length_seq.
Qed.

Lemma construct_model_unfold :
  construct_model self input_layer
  = Activation_sigmoid
      (if add_zeroth_order_model self
       then add (first_order_scores self input_layer)
                (concatenate (snd (zeroth_order_loop self input_layer)))
       else first_order_scores self input_layer).
Proof.
  unfold construct_model, first_order_scores, inputs_of_model.
  destruct (add_zeroth_order_model self).
  - destruct (zeroth_order_loop self input_layer) as [inputs zs]. reflexivity.
  - reflexivity.
Qed.

Lemma add_map_range (f g : nat -> R) (l : list nat) :
  add (map f l) (map g l) = map (fun k => (f k + g k)%R) l.
Proof.
  unfold add. induction l as [|k l IH]; simpl; [reflexivity|].
  now rewrite IH.
Qed.

(** The whole network, position by position. *)
Lemma construct_model_spec :
  construct_model self input_layer
  = map (fun k =>
           let m := Rmean (map (U_1 self input_layer k) (others self k)) in
           sigmoid (if add_zeroth_order_model self
                    then (m + U_0 self input_layer k)%R else m))
        (range n).
Proof.
  rewrite construct_model_unfold, first_order_scores_spec.
  unfold Activation_sigmoid.
  destruct (add_zeroth_order_model self).
  - rewrite zeroth_order_scores_spec, add_map_range, map_map. reflexivity.
  - rewrite map_map. reflexivity.
Qed.

Lemma construct_model_length : length (construct_model self input_layer) = n.
Proof.
  rewrite construct_model_spec. unfold range.
  now rewrite length_map, length_seq.
Qed.

Lemma construct_model_in_unit_interval :
  Forall in_unit_interval (construct_model self input_layer).
Proof.
  rewrite construct_model_unfold. apply Forall_map_sigmoid.
Qed.

End Network.

End FETAProofs.

(** ** Claims about the FETA network *)

Import Keras FETA FETAProofs.

(** C1.  For a query of size n >= 2, the score the constructed FETA model
    gives object [i] is the sigmoid of the arithmetic mean of its n-1
    directional pairwise scores [U_1 i j], one for every other object [j]
    of the query, to which the zeroth-order score [U_0 i] is added before
    the sigmoid when the zeroth-order model is enabled. *)
Theorem feta_score_is_sigmoid_of_pairwise_mean
        (self : FETAChoiceFunction) (x : list tensor) (i : nat) :
  2 <= n_objects_fit_ self ->
  length x = n_objects_fit_ self ->
  i < n_objects_fit_ self ->
  let n := n_objects_fit_ self in
  let directional := map (U_1 self x i) (others self i) in
  let mean := (Rsum directional / INR (n - 1))%R in
  (forall j, In j (others self i) <-> j < n /\ j <> i) /\
  NoDup (others self i) /\
  length directional = n - 1 /\
  nth i (construct_model self x) 0%R
  = sigmoid (if add_zeroth_order_model self
             then (mean + U_0 self x i)%R else mean).
Proof.
  intros Hn Hx Hi n directional mean.
  split; [|split; [|split]].
  - intros j. apply others_spec.
  - unfold others. apply NoDup_filter, seq_NoDup.
  - unfold directional. rewrite length_map. now apply others_length.
  - rewrite construct_model_spec.
    rewrite (nth_indep _ 0%R ((fun k =>
               let m := Rmean (map (U_1 self x k) (others self k)) in
               sigmoid (if add_zeroth_order_model self
                        then (m + U_0 self x k)%R else m)) 0))
      by (unfold range; rewrite length_map, length_seq; exact Hi).
    rewrite (map_nth (fun k =>
               let m := Rmean (map (U_1 self x k) (others self k)) in
               sigmoid (if add_zeroth_order_model self
                        then (m + U_0 self x k)%R else m))).
    unfold range. rewrite seq_nth by exact Hi. simpl.
    rewrite (@Rmean_length _ (n - 1))
      by (rewrite length_map; now apply others_length).
    reflexivity.
Qed.

Lemma feta_score_is_sigmoid_of_pairwise_mean_witness :
  let self := Examples.feta3 in
  let x := Examples.query3 in
  2 <= n_objects_fit_ self /\
  length x = n_objects_fit_ self /\
  1 < n_objects_fit_ self /\
  nth 1 (construct_model self x) 0%R
  = sigmoid (Rsum (map (U_1 self x 1) (others self 1)) / INR (3 - 1)
             + U_0 self x 1)%R.
Proof.
  intros self x.
  split; [simpl; lia|]. split; [reflexivity|]. split; [simpl; lia|].
  apply (@feta_score_is_sigmoid_of_pairwise_mean self x 1);
    [simpl; lia | reflexivity | simpl; lia].
Defined.




(** ** Shapes of numpy operations *)

Module NpProofs.
Import Np.

Lemma zip_with_length {A B C : Type} (f : A -> B -> C) (a : list A) (b : list B) :
  length (zip_with f a b) = Nat.min (length a) (length b).
Proof. unfold zip_with. now rewrite length_map, length_combine. Qed.

Lemma Forall_zip_with {A B C : Type} (f : A -> B -> C) (P : A -> Prop)
      (Q : B -> Prop) (S : C -> Prop) (a : list A) (b : list B) :
  (forall x y, P x -> Q y -> S (f x y)) ->
  Forall P a -> Forall Q b -> Forall S (zip_with f a b).
Proof.
  intros Hf Ha. revert b. induction Ha as [|x a Hx Ha IH]; intros b Hb.
  - constructor.
  - destruct Hb as [|y b Hy Hb]; [constructor|].
    unfold zip_with; simpl. constructor; [now apply Hf|].
    now apply IH.
Qed.

Lemma dot_3_2_shape (n m d h : nat) (X : Array3) (W : Array2) :
  has_shape3 n m d X -> shape2 W = (d, h) ->
  exists r, dot_3_2 X W = Ok r /\ has_shape3 n m h r.
Proof.
  intros (HsX & Hlen & Hrows) HsW. unfold dot_3_2.
  rewrite HsX, HsW, Nat.eqb_refl.
  eexists; split; [reflexivity|].
  split; [reflexivity|]. simpl. split; [now rewrite length_map|].
  apply Forall_map. eapply Forall_impl; [|exact Hrows].
  intros q [Hq _]. split; [now rewrite length_map|].
  apply Forall_map, Forall_forall. intros v _.
  unfold has_shape1. now rewrite length_map, length_seq.
Qed.

Lemma dot_3_2_mismatch (n m d d' h : nat) (X : Array3) (W : Array2) :
  shape3 X = (n, m, d) -> shape2 W = (d', h) -> d <> d' ->
  dot_3_2 X W = Raise ValueError.
Proof.
  intros HsX HsW Hne. unfold dot_3_2. rewrite HsX, HsW.
  apply Nat.eqb_neq in Hne. now rewrite Hne.
Qed.

Lemma dot_3_1_shape (n m d : nat) (X : Array3) (w : Array1) :
  has_shape3 n m d X -> has_shape1 d w ->
  exists r, dot_3_1 X w = Ok r /\ has_shape2 n m r.
Proof.
  intros (HsX & Hlen & Hrows) Hw. unfold dot_3_1, has_shape1 in *.
  rewrite HsX, Hw, Nat.eqb_refl.
  eexists; split; [reflexivity|].
  split; [reflexivity|]. simpl. split; [now rewrite length_map|].
  apply Forall_map. eapply Forall_impl; [|exact Hrows].
  intros q [Hq _]. unfold has_shape1. now rewrite length_map.
Qed.

Lemma dot_3_1_mismatch (n m d : nat) (X : Array3) (w : Array1) :
  shape3 X = (n, m, d) -> d <> length w -> dot_3_1 X w = Raise ValueError.
Proof.
  intros HsX Hne. unfold dot_3_1. rewrite HsX.
  apply Nat.eqb_neq in Hne. now rewrite Hne.
Qed.

Lemma mean_axis1_shape (n m h : nat) (A : Array3) :
  has_shape3 n m h A -> has_shape2 n h (mean_axis1 A).
Proof.
  intros (Hs & Hlen & _). unfold mean_axis1. rewrite Hs.
  split; [reflexivity|]. simpl. split; [now rewrite length_map|].
  apply Forall_map, Forall_forall. intros q _.
  unfold has_shape1. now rewrite length_map, length_seq.
Qed.

Lemma add_2_1_shape (n h : nat) (A : Array2) (b : Array1) :
  has_shape2 n h A -> has_shape1 h b ->
  exists r, add_2_1 A b = Ok r /\ has_shape2 n h r.
Proof.
  intros (Hs & Hlen & Hrows) Hb. unfold add_2_1, has_shape1 in *.
  rewrite Hs, Hb, Nat.eqb_refl. simpl.
  eexists; split; [reflexivity|].
  split; [reflexivity|]. simpl. split; [now rewrite length_map|].
  apply Forall_map. eapply Forall_impl; [|exact Hrows].
  intros row Hrow. unfold has_shape1, broadcast_row in *. rewrite Nat.eqb_refl.
  rewrite zip_with_length, Hrow, Hb. apply Nat.min_id.
Qed.

Lemma add_2_1_scalar_shape (n h : nat) (A : Array2) (b : Array1) :
  has_shape2 n h A -> has_shape1 1 b ->
  exists r, add_2_1 A b = Ok r /\ has_shape2 n h r.
Proof.
  intros HA Hb. destruct (Nat.eq_dec h 1) as [->|Hh].
  - now apply add_2_1_shape.
  - destruct HA as (Hs & Hlen & Hrows). unfold add_2_1, has_shape1 in *.
    rewrite Hs, Hb. apply Nat.eqb_neq in Hh. rewrite Hh. simpl.
    eexists; split; [reflexivity|].
    split; [reflexivity|]. simpl. split; [now rewrite length_map|].
    apply Forall_map. eapply Forall_impl; [|exact Hrows].
    intros row Hrow. unfold has_shape1, broadcast_row in *. rewrite Hh. simpl.
    now rewrite length_map.
Qed.

Lemma tile_axis1_shape (n m h : nat) (rep : Array2) :
  has_shape2 n h rep -> has_shape3 n m h (tile_axis1 m rep).
Proof.
  intros (Hs & Hlen & Hrows). unfold tile_axis1. rewrite Hs.
  split; [reflexivity|]. simpl. split; [now rewrite length_map|].
  apply Forall_map. eapply Forall_impl; [|exact Hrows].
  intros r Hr. split; [apply repeat_length|].
  apply Forall_forall. intros v Hv. apply repeat_spec in Hv. now subst.
Qed.

Lemma concatenate_axis2_shape (n m d h : nat) (X Y : Array3) :
  has_shape3 n m d X -> has_shape3 n m h Y ->
  exists r, concatenate_axis2 X Y = Ok r /\ has_shape3 n m (d + h) r.
Proof.
  intros (HsX & HlX & HrX) (HsY & HlY & HrY). unfold concatenate_axis2.
  unfold Array1 in *.
  rewrite HsX, HsY, !Nat.eqb_refl. simpl.
  eexists; split; [reflexivity|].
  split; [reflexivity|]. simpl.
  split; [rewrite zip_with_length, HlX, HlY; apply Nat.min_id|].
  eapply Forall_zip_with; [|exact HrX|exact HrY].
  intros q q' [Hq Hqv] [Hq' Hqv'].
  split; [rewrite zip_with_length, Hq, Hq'; apply Nat.min_id|].
  eapply Forall_zip_with; [|exact Hqv|exact Hqv'].
  intros v v' Hv Hv'. unfold has_shape1 in *. rewrite length_app. congruence.
Qed.

Lemma sigmoid2_shape (n m : nat) (A : Array2) :
  has_shape2 n m A -> has_shape2 n m (sigmoid2 A).
Proof.
  intros (Hs & Hlen & Hrows). unfold sigmoid2.
  split; [exact Hs|]. simpl. split; [now rewrite length_map|].
  apply Forall_map. eapply Forall_impl; [|exact Hrows].
  intros row Hrow. unfold has_shape1 in *. now rewrite length_map.
Qed.

Lemma sigmoid2_in_unit_interval (A : Array2) :
  Forall2d in_unit_interval (sigmoid2 A).
Proof.
  unfold Forall2d, sigmoid2. simpl. apply Forall_map, Forall_forall.
  intros row _. apply Forall_map_sigmoid.
Qed.

Lemma reshape2_shape (n m : nat) (l : list R) :
  length l = n * m -> has_shape2 n m (reshape2 n m l).
Proof.
  intros Hl. unfold reshape2.
  split; [reflexivity|]. simpl.
  split; [now rewrite length_map, length_seq|].
  apply Forall_map, Forall_forall. intros i Hi. apply in_seq in Hi.
  unfold has_shape1. rewrite length_firstn, length_skipn, Hl. nia.
Qed.

End NpProofs.

(** ** Score prediction: FATELinearCore *)

Module FATELinearProofs.
Import Np NpProofs FATELinear.

Lemma fate_predict_scores_mismatch (self : FATELinearCore) (X : Array3)
      (n m d : nat) :
  shape3 X = (n, m, d) -> d <> n_object_features_fit_ self ->
  _predict_scores_fixed X self = (Raise AssertionError, self).
Proof.
  intros Hs Hne. unfold _predict_scores_fixed, Py.bind, Py.get.
  rewrite Hs. apply Nat.eqb_neq in Hne. rewrite Hne. reflexivity.
Qed.

Lemma fate_predict_scores_keeps_self (self : FATELinearCore) (X : Array3) :
  snd (_predict_scores_fixed X self) = self.
Proof.
  unfold _predict_scores_fixed, Py.bind, Py.get, Py.assert, Py.lift.
  destruct (shape3 X) as [[n m] d].
  destruct (d =? n_object_features_fit_ self); reflexivity.
Qed.

Lemma fate_predict_scores_ok (self : FATELinearCore) (X : Array3) (n m : nat) :
  fitted self ->
  has_shape3 n m (n_object_features_fit_ self) X ->
  exists scores,
    _predict_scores_fixed X self = (Ok scores, self) /\
    has_shape2 n m scores /\
    Forall2d in_unit_interval scores.
Proof.
  intros (HW1 & Hb1 & HW2 & Hb2) HX.
  set (d := n_object_features_fit_ self) in *.
  set (h := n_hidden_set_units self) in *.
  destruct (@dot_3_2_shape n m d h X (weight1_ self) HX (proj1 HW1))
    as (XW & EXW & HXW).
  destruct (@add_2_1_shape n h _ (bias1_ self) (mean_axis1_shape HXW) Hb1)
    as (rep & Erep & Hrep).
  destruct (@concatenate_axis2_shape n m d h X _ HX (tile_axis1_shape m Hrep))
    as (X_n & EXn & HXn).
  destruct (@dot_3_1_shape n m (d + h) X_n (weight2_ self) HXn HW2)
    as (s & Es & Hs).
  destruct (@add_2_1_scalar_shape n m s (bias2_ self) Hs Hb2)
    as (s' & Es' & Hs').
  exists (sigmoid2 s'). split; [|split].
  - unfold _predict_scores_fixed, Py.bind, Py.get, Py.assert, Py.lift.
    destruct HX as (HsX & _). rewrite HsX. fold d. rewrite Nat.eqb_refl.
    unfold Py.ret. rewrite EXW. simpl. rewrite Erep. simpl.
    rewrite EXn. simpl. rewrite Es. simpl. rewrite Es'. reflexivity.
  - now apply sigmoid2_shape.
  - apply sigmoid2_in_unit_interval.
Qed.

(** Whatever the outcome, a returned score array went through the sigmoid. *)
Lemma fate_predict_scores_in_unit_interval (self : FATELinearCore) (X : Array3)
      (scores : Array2) :
  fst (_predict_scores_fixed X self) = Ok scores ->
  Forall2d in_unit_interval scores.
Proof.
  unfold _predict_scores_fixed, Py.bind, Py.get, Py.assert, Py.lift, Py.ret.
  destruct (shape3 X) as [[n m] d].
  destruct (d =? n_object_features_fit_ self); simpl; [|discriminate].
  destruct (dot_3_2 X (weight1_ self)) as [XW|]; simpl; [|discriminate].
  destruct (add_2_1 (mean_axis1 XW) (bias1_ self)) as [rep|]; simpl;
    [|discriminate].
  destruct (concatenate_axis2 X (tile_axis1 m rep)) as [X_n|]; simpl;
    [|discriminate].
  destruct (dot_3_1 X_n (weight2_ self)) as [s|]; simpl; [|discriminate].
  destruct (add_2_1 s (bias2_ self)) as [s'|]; simpl; [|discriminate].
  intros [= <-]. apply sigmoid2_in_unit_interval.
Qed.

End FATELinearProofs.

(** ** Score prediction: PairwiseSVM *)

Module PairwiseSVMProofs.
Import Np NpProofs PairwiseSVM.

Lemma svm_predict_scores_mismatch (self : PairwiseSVM) (X : Array3) (n m d : nat) :
  shape3 X = (n, m, d) -> d <> n_object_features_fit_ self ->
  _predict_scores_fixed X self = (Raise AssertionError, self).
Proof.
  intros Hs Hne. unfold _predict_scores_fixed, Py.bind, Py.get.
  rewrite Hs. apply Nat.eqb_neq in Hne. rewrite Hne. reflexivity.
Qed.

Lemma removelast_length {A : Type} (l : list A) (k : nat) :
  length l = k + 1 -> length (removelast l) = k.
Proof.
  intros Hl. rewrite removelast_firstn_len, length_firstn. lia.
Qed.

Lemma svm_predict_scores_ok (self : PairwiseSVM) (X : Array3) (n m : nat) :
  fitted self ->
  has_shape3 n m (n_object_features_fit_ self) X ->
  exists scores,
    _predict_scores_fixed X self
    = (Ok scores, after_predict self n m (n_object_features_fit_ self)) /\
    has_shape2 n m scores.
Proof.
  intros Hfit HX. unfold fitted in Hfit.
  set (d := n_object_features_fit_ self) in *.
  assert (Hdot : exists scores,
             (if fit_intercept self
              then dot_3_1 X (removelast (weights self))
              else dot_3_1 X (weights self)) = Ok scores /\
             has_shape2 n m scores).
  { destruct (fit_intercept self).
    - apply (@dot_3_1_shape n m d); [exact HX|].
      now apply removelast_length.
    - apply (@dot_3_1_shape n m d); [exact HX|].
      unfold has_shape1. lia. }
  destruct Hdot as (scores & Edot & Hscores).
  exists scores. split; [|exact Hscores].
  unfold _predict_scores_fixed, Py.bind, Py.get, Py.assert, Py.lift.
  destruct HX as (HsX & _). rewrite HsX. fold d. rewrite Nat.eqb_refl.
  unfold Py.ret, logger_info, Py.modify. simpl. rewrite Edot. reflexivity.
Qed.

Lemma svm_predict_scores_same_model (a b : PairwiseSVM) (X : Array3) :
  same_model a b ->
  fst (_predict_scores_fixed X a) = fst (_predict_scores_fixed X b).
Proof.
  intros (Hf & Hd & Hw).
  unfold _predict_scores_fixed, Py.bind, Py.get, Py.assert, Py.lift, Py.ret,
    logger_info, Py.modify.
  destruct (shape3 X) as [[n m] d]. rewrite <- Hd.
  destruct (d =? n_object_features_fit_ a); simpl; [|reflexivity].
  rewrite <- Hf, <- Hw.
  destruct (if fit_intercept a
            then dot_3_1 X (removelast (weights a))
            else dot_3_1 X (weights a)); reflexivity.
Qed.

Lemma svm_predict_scores_keeps_model (self : PairwiseSVM) (X : Array3) :
  same_model self (snd (_predict_scores_fixed X self)).
Proof.
  unfold _predict_scores_fixed, Py.bind, Py.get, Py.assert, Py.lift, Py.ret,
    logger_info, Py.modify, same_model.
  destruct (shape3 X) as [[n m] d].
  destruct (d =? n_object_features_fit_ self); simpl; [|auto].
  destruct (if fit_intercept self
            then dot_3_1 X (removelast (weights self))
            else dot_3_1 X (weights self)); simpl; auto.
Qed.

End PairwiseSVMProofs.

(** ** Score prediction: RandomBaselineDC *)

Module RandomBaselineDCProofs.
Import Np NpProofs RandomBaselineDC.

Section WithGenerator.
Context {G : Type} `{RandomState G}.

Lemma random_samples_length (count : nat) (g : G) :
  length (fst (random_samples count g)) = count.
Proof.
  revert g; induction count as [|c IH]; intros g; simpl; [reflexivity|].
  destruct (random_sample g) as [x g1].
  specialize (IH g1). destruct (random_samples c g1) as [xs g2].
  simpl in *. now rewrite IH.
Qed.

Lemma baseline_predict_scores_ok (self : RandomBaselineDC G) (X : Array3) (n m d : nat) :
  shape3 X = (n, m, d) ->
  exists scores self',
    _predict_scores_fixed X self = (Ok scores, self') /\
    has_shape2 n m scores.
Proof.
  intros Hs. unfold _predict_scores_fixed, rand. rewrite Hs.
  pose proof (random_samples_length (n * m) (random_state_ self)) as Hlen.
  destruct (random_samples (n * m) (random_state_ self)) as [xs g'].
  simpl in Hlen.
  eexists; eexists; split; [reflexivity|].
  now apply reshape2_shape.
Qed.

(** Each call returns the next block of draws and leaves the generator
    behind them. *)
Lemma baseline_predict_scores_draws (self : RandomBaselineDC G) (X : Array3)
      (n m d : nat) :
  shape3 X = (n, m, d) ->
  _predict_scores_fixed X self
  = (Ok (reshape2 n m (fst (random_samples (n * m) (random_state_ self)))),
     {| random_state_ := snd (random_samples (n * m) (random_state_ self)) |}).
Proof.
  intros Hs. unfold _predict_scores_fixed, rand. rewrite Hs.
  destruct (random_samples (n * m) (random_state_ self)) as [xs g'].
  reflexivity.
Qed.

End WithGenerator.

End RandomBaselineDCProofs.

(** ** Training of the FATE linear core under an interrupt *)

Module FATELinearFitProofs.
Import Np FATELinearFit.

Section Training.
Variables (learning_rate drop : R) (batch_size epochs_drop : nat).
Variable minimize : R -> TFVariables -> Array3 -> Array2 -> TFVariables.
Variable loss_ : TFVariables -> Array3 -> Array2 -> list R.
Variable initial_variables : TFVariables.
Variable _pre_fit : Py.M Fitting unit.

Let loop := training_loop learning_rate drop batch_size epochs_drop minimize loss_.
Let handler := interrupted loss_.

Lemma checkpoint_quiet (s : Fitting) :
  sigint s = None -> checkpoint s = (Ok tt, s).
Proof. intros Hs. unfold checkpoint. now rewrite Hs. Qed.

Lemma interrupted_spec (X : Array3) (Y : Array2) (s : Fitting) (e : nat) :
  sigint s = None -> epoch s = Some e ->
  handler X Y s
  = (Ok tt, add_log (LogEpochCost (e + 1) (Rmean (loss_ (session s) X Y)))
                    (add_log LogInterrupted s)).
Proof.
  intros Hsig He. unfold handler, interrupted, Py.bind.
  rewrite (checkpoint_quiet s Hsig).
  unfold logger_info, Py.modify.
  rewrite (checkpoint_quiet (add_log LogInterrupted s)) by exact Hsig.
  unfold run_loss, Py.bind, Py.get, Py.ret.
  rewrite (checkpoint_quiet (add_log LogInterrupted s)) by exact Hsig.
  simpl. rewrite He. reflexivity.
Qed.

Lemma fit_epilogue_spec (X : Array3) (Y : Array2) (epochs : nat) (s : Fitting) :
  sigint s = None ->
  fit_epilogue loss_ X Y epochs s
  = (Ok tt,
     set_fitted_weights (session s)
       (add_log (LogFittingCompleted epochs (Rmean (loss_ (session s) X Y))) s)).
Proof.
  intros Hsig. unfold fit_epilogue, Py.bind.
  rewrite (checkpoint_quiet s Hsig).
  unfold run_loss, Py.bind, Py.get, Py.ret.
  rewrite (checkpoint_quiet s Hsig).
  unfold logger_info, Py.modify.
  rewrite checkpoint_quiet by exact Hsig.
  reflexivity.
Qed.

Lemma delivers_once_checkpoint : delivers_once checkpoint.
Proof.
  intros s s'. unfold checkpoint.
  destruct (sigint s) as [[|k]|]; intros [= <-] || intros [=]; reflexivity.
Qed.

Lemma delivers_once_bind {A B : Type} (c : Py.M Fitting A)
      (k : A -> Py.M Fitting B) :
  delivers_once c -> (forall a, delivers_once (k a)) ->
  delivers_once (Py.bind c k).
Proof.
  intros Hc Hk s s'. unfold Py.bind.
  destruct (c s) as [[a|e] s1] eqn:Ec.
  - apply Hk.
  - intros [= -> ->]. now apply (Hc s).
Qed.

Lemma delivers_once_modify (f : Fitting -> Fitting) :
  delivers_once (Py.modify f).
Proof. intros s s' [=]. Qed.

Lemma delivers_once_ret {A : Type} (a : A) : delivers_once (Py.ret a).
Proof. intros s s' [=]. Qed.

Lemma delivers_once_when (b : bool) (c : Py.M Fitting unit) :
  delivers_once c -> delivers_once (Py.when b c).
Proof. destruct b; [auto|]. intros _. apply delivers_once_ret. Qed.

Lemma delivers_once_for_each {A : Type} (l : list A)
      (body : A -> Py.M Fitting unit) :
  (forall a, delivers_once (body a)) -> delivers_once (Py.for_each l body).
Proof.
  intros Hb. induction l as [|a l IH]; simpl.
  - apply delivers_once_ret.
  - apply delivers_once_bind; auto.
Qed.

Lemma delivers_once_run_loss (X : Array3) (Y : Array2) (k : list R -> Py.M Fitting unit) :
  (forall c, delivers_once (k c)) ->
  delivers_once (Py.bind (run_loss loss_ X Y) k).
Proof.
  intros Hk. apply delivers_once_bind; [|exact Hk].
  intros s s' [=].
Qed.

Lemma delivers_once_step_decay (e : nat) :
  delivers_once (step_decay learning_rate drop epochs_drop e).
Proof.
  unfold step_decay. destruct (epochs_drop =? 0).
  - intros s s' [=].
  - apply delivers_once_modify.
Qed.

Lemma delivers_once_train_batch (X : Array3) (Y : Array2) (n v start : nat) :
  delivers_once (train_batch batch_size minimize X Y n v start).
Proof.
  unfold train_batch.
  repeat (apply delivers_once_bind; [|intros ?]);
    try apply delivers_once_checkpoint;
    try apply delivers_once_modify.
  apply delivers_once_when, delivers_once_modify.
Qed.

Lemma delivers_once_train_epoch (X : Array3) (Y : Array2) (n v e : nat) :
  delivers_once (train_epoch learning_rate drop batch_size epochs_drop
                             minimize loss_ X Y n v e).
Proof.
  unfold train_epoch.
  apply delivers_once_bind; [apply delivers_once_checkpoint|intros _].
  apply delivers_once_bind; [apply delivers_once_modify|intros _].
  apply delivers_once_bind.
  { unfold Py.lift, range_step. intros s s'.
    destruct (batch_size =? 0); intros [=]. }
  intros starts.
  apply delivers_once_bind.
  { apply delivers_once_for_each. intros a. apply delivers_once_train_batch. }
  intros _.
  apply delivers_once_bind; [apply delivers_once_checkpoint|intros _].
  apply delivers_once_bind.
  { apply delivers_once_when, delivers_once_run_loss. intros c.
    apply delivers_once_bind; [apply delivers_once_checkpoint|intros _].
    apply delivers_once_modify. }
  intros _.
  apply delivers_once_bind; [apply delivers_once_checkpoint|intros _].
  apply delivers_once_bind.
  { apply delivers_once_when, delivers_once_run_loss. intros c.
    apply delivers_once_bind; [apply delivers_once_checkpoint|intros _].
    apply delivers_once_modify. }
  intros _.
  apply delivers_once_bind; [apply delivers_once_checkpoint|intros _].
  apply delivers_once_step_decay.
Qed.

Lemma delivers_once_training_loop (X : Array3) (Y : Array2) (epochs n v : nat) :
  delivers_once (loop X Y epochs n v).
Proof.
  apply delivers_once_for_each. intros e. apply delivers_once_train_epoch.
Qed.

End Training.

End FATELinearFitProofs.

Import Np FATELinearFit FATELinearFitProofs.

(** X24.  A KeyboardInterrupt that is raised in the epoch loop of [_fit_]
    once the first iteration has bound [epoch] is survived: [_fit_]
    catches it, logs "Interrupted", computes the loss of the current
    variables, logs it with the epoch number, and returns normally; [fit]
    then goes on, and stores the variables as they were when the interrupt
    arrived as the fitted weights.  Nothing is raised to the caller of
    [fit]. *)
Theorem fate_linear_fit_survives_interrupt
        (learning_rate drop : R) (batch_size epochs_drop : nat)
        (minimize : R -> TFVariables -> Array3 -> Array2 -> TFVariables)
        (loss_ : TFVariables -> Array3 -> Array2 -> list R)
        (initial_variables : TFVariables) (_pre_fit : Py.M Fitting unit)
        (X : Array3) (Y : Array2) (epochs verbose : nat)
        (s0 s s1 : Fitting) (e : nat) :
  fit_prologue learning_rate initial_variables _pre_fit X s0 = (Ok tt, s) ->
  training_loop learning_rate drop batch_size epochs_drop minimize loss_
                X Y epochs (fst (fst (shape3 X))) verbose (clear_epoch s)
  = (Raise KeyboardInterrupt, s1) ->
  epoch s1 = Some e ->
  let c := Rmean (loss_ (session s1) X Y) in
  _fit_ learning_rate drop batch_size epochs_drop minimize loss_
        X Y epochs (fst (fst (shape3 X))) verbose s
  = (Ok tt, add_log (LogEpochCost (e + 1) c) (add_log LogInterrupted s1)) /\
  exists s',
    fit learning_rate drop batch_size epochs_drop minimize loss_
        initial_variables _pre_fit X Y epochs verbose s0 = (Ok tt, s') /\
    fitted_weights s' = Some (session s1) /\
    logger s' = logger s1 ++ [LogInterrupted; LogEpochCost (e + 1) c;
                              LogFittingCompleted epochs c].
Proof.
  intros Hpro Hloop He c.
  assert (Hsig : sigint s1 = None).
  { eapply delivers_once_training_loop. exact Hloop. }
  assert (Hfit_ :
    _fit_ learning_rate drop batch_size epochs_drop minimize loss_
          X Y epochs (fst (fst (shape3 X))) verbose s
    = (Ok tt, add_log (LogEpochCost (e + 1) c) (add_log LogInterrupted s1))).
  { unfold _fit_, Py.bind, Py.modify, Py.try_except.
    rewrite Hloop. simpl. now apply interrupted_spec. }
  split; [exact Hfit_|].
  eexists. split; [|split].
  - unfold fit, Py.bind. rewrite Hpro, Hfit_.
    apply fit_epilogue_spec. exact Hsig.
  - reflexivity.
  - simpl. rewrite <- !app_assoc. reflexivity.
Qed.


Lemma fate_linear_fit_survives_interrupt_witness :
  let fit_ := fit 1%R 1%R 1 300 Examples.shift_bias Examples.bias_loss
                  Examples.variables0 (Py.ret tt) in
  let s0 := Examples.unfit (Some 8) in
  let s := snd (fit_prologue 1%R Examples.variables0 (Py.ret tt)
                             Examples.X221 s0) in
  let s1 := snd (training_loop 1%R 1%R 1 300 Examples.shift_bias
                               Examples.bias_loss Examples.X221 Examples.Y22
                               3 2 0 (clear_epoch s)) in
  epoch s1 = Some 0 /\
  session s1 = Examples.shift_bias 1%R Examples.variables0
                                   Examples.X221 Examples.Y22 /\
  exists s',
    fit_ Examples.X221 Examples.Y22 3 0 s0 = (Ok tt, s') /\
    fitted_weights s' = Some (session s1).
Proof.
  intros fit_ s0 s s1.
  assert (Hpro : fit_prologue 1%R Examples.variables0 (Py.ret tt)
                              Examples.X221 s0 = (Ok tt, s)) by reflexivity.
  assert (Hloop : training_loop 1%R 1%R 1 300 Examples.shift_bias
                    Examples.bias_loss Examples.X221 Examples.Y22
                    3 (fst (fst (shape3 Examples.X221))) 0 (clear_epoch s)
                  = (Raise KeyboardInterrupt, s1)) by reflexivity.
  assert (He : epoch s1 = Some 0) by reflexivity.
  split; [exact He|]. split; [reflexivity|].
  destruct (@fate_linear_fit_survives_interrupt
              1%R 1%R 1 300 Examples.shift_bias Examples.bias_loss
              Examples.variables0 (Py.ret tt) Examples.X221 Examples.Y22 3 0
              s0 s s1 0 Hpro Hloop He) as (_ & s' & Hfit & Hw & _).
  exists s'. split; [exact Hfit | exact Hw].
Defined.

(** C7.  An interruption during the epoch loop is not always survived.
    [fit] is run for three epochs on a batch of two queries, and the
    KeyboardInterrupt is delivered inside the [try] of [_fit_] before the
    first iteration has bound [epoch]: the epoch loop raises
    KeyboardInterrupt, the handler logs "Interrupted" and computes the
    loss, and then fails on [epoch + 1] with UnboundLocalError, which
    leaves [_fit_] and [fit]; no fitted weights are stored. *)
Theorem fate_linear_fit_interrupt_before_first_epoch_escapes :
  let s0 := Examples.unfit (Some 4) in
  let s := snd (fit_prologue 1%R Examples.variables0 (Py.ret tt)
                             Examples.X221 s0) in
  fit_prologue 1%R Examples.variables0 (Py.ret tt) Examples.X221 s0
  = (Ok tt, s) /\
  fst (training_loop 1%R 1%R 1 300 Examples.shift_bias Examples.bias_loss
                     Examples.X221 Examples.Y22 3 2 0 (clear_epoch s))
  = Raise KeyboardInterrupt /\
  fst (_fit_ 1%R 1%R 1 300 Examples.shift_bias Examples.bias_loss
             Examples.X221 Examples.Y22 3 2 0 s)
  = Raise UnboundLocalError /\
  exists s',
    fit 1%R 1%R 1 300 Examples.shift_bias Examples.bias_loss
        Examples.variables0 (Py.ret tt) Examples.X221 Examples.Y22 3 0 s0
    = (Raise UnboundLocalError, s') /\
    fitted_weights s' = None /\
    logger s' = [LogInterrupted].
Proof.
  intros s0 s.
  split; [reflexivity|]. split; [reflexivity|]. split; [reflexivity|].
  eexists. split; [reflexivity|]. split; reflexivity.
Qed.

(** ** Fitting the FETA choice function *)

Import FETAFit.

(** C10.  In [FETAChoiceFunction.fit] with [tune_size > 0], the threshold
    is tuned after the attempt to fit the network whatever its outcome:
    when the attempt returns or raises ([outcome]), the tuning runs on the
    held-out split, its result is assigned to [threshold_], and only then
    does the outcome of the attempt, its exception included, reach the
    caller. *)
Theorem feta_fit_tunes_threshold_in_finally
        (W Callbacks Kwd : Type)
        (_pre_fit : Py.M (Instance W) unit)
        (train_test_split :
           Array3 -> Array2 -> R ->
           Py.M (Instance W) (Array3 * Array3 * Array2 * Array2))
        (super_fit : Array3 -> Array2 -> nat -> Callbacks -> R -> nat -> Kwd ->
                     Py.M (Instance W) unit)
        (_tune_threshold : Array3 -> Array2 -> nat -> nat -> Py.M (Instance W) R)
        (X : Array3) (Y : Array2) (epochs : nat) (callbacks : Callbacks)
        (validation_split tune_size : R) (thin_thresholds verbose : nat)
        (kwd : Kwd)
        (X_train X_val : Array3) (Y_train Y_val : Array2)
        (outcome : Result unit) (t : R) (s0 s1 s2 s3 s4 : Instance W) :
  (0 < tune_size)%R ->
  _pre_fit s0 = (Ok tt, s1) ->
  train_test_split X Y tune_size s1 = (Ok (X_train, X_val, Y_train, Y_val), s2) ->
  super_fit X_train Y_train epochs callbacks validation_split verbose kwd s2
  = (outcome, s3) ->
  _tune_threshold X_val Y_val thin_thresholds verbose
                  (add_log LogStartTuningThreshold s3) = (Ok t, s4) ->
  fit _pre_fit train_test_split super_fit _tune_threshold
      X Y epochs callbacks validation_split tune_size thin_thresholds verbose kwd
      s0
  = (outcome, set_threshold t s4) /\
  threshold_ (set_threshold t s4) = Some t.
Proof.
  intros Hpos Hpre Hsplit Hfit Htune.
  split; [|reflexivity].
  unfold fit, Py.bind. rewrite Hpre.
  destruct (Rlt_dec 0 tune_size) as [_|Hn]; [|contradiction].
  rewrite Hsplit. unfold Py.try_finally. rewrite Hfit.
  unfold tune, Py.bind, Py.modify. rewrite Htune. reflexivity.
Qed.

Lemma feta_fit_tunes_threshold_in_finally_witness :
  (0 < 1 / 10)%R /\
  fit (Py.ret tt) Examples.split_half Examples.failing_fit
      Examples.constant_threshold
      Examples.X221 Examples.Y22 10 tt (1 / 10)%R (1 / 10)%R 1 0 tt
      Examples.feta_unfit
  = (Raise ValueError,
     mkInstance (Some (3 / 10)%R) [LogStartTuningThreshold] tt).
Proof.
  assert (Hpos : (0 < 1 / 10)%R) by lra.
  split; [exact Hpos|].
  apply (@feta_fit_tunes_threshold_in_finally
           unit unit unit (Py.ret tt) Examples.split_half Examples.failing_fit
           Examples.constant_threshold
           Examples.X221 Examples.Y22 10 tt (1 / 10)%R (1 / 10)%R 1 0 tt
           (FATELinearFit.slice3 0 1 Examples.X221)
           (FATELinearFit.slice3 1 2 Examples.X221)
           (FATELinearFit.slice2 0 1 Examples.Y22)
           (FATELinearFit.slice2 1 2 Examples.Y22)
           (Raise ValueError) (3 / 10)%R
           Examples.feta_unfit Examples.feta_unfit Examples.feta_unfit
           Examples.feta_unfit
           (add_log LogStartTuningThreshold Examples.feta_unfit)
           Hpos eq_refl eq_refl eq_refl eq_refl).
Defined.

(** ** Sub-sampling of large queries *)

Module SubSamplingProofs.
Import Np SubSampling.

Local Open Scope Q_scope.

Lemma Qsum_repeat (q : Q) (k : nat) :
  Qsum (repeat q k) == inject_Z (Z.of_nat k) * q.
Proof.
  induction k as [|k IH].
  - simpl. ring.
  - cbn [repeat Qsum fold_right]. fold (Qsum (repeat q k)). rewrite IH.
    rewrite Nat2Z.inj_succ. unfold Z.succ. rewrite inject_Z_plus. ring.
Qed.

Lemma Qsum_positive (p : list Q) :
  Forall (fun q => 0 < q) p -> p <> [] -> 0 < Qsum p.
Proof.
  intros Hp Hne. destruct Hp as [|q p Hq Hp]; [contradiction|]. clear Hne.
  simpl. induction Hp as [|q' p Hq' Hp IH]; simpl.
  - now rewrite Qplus_0_r.
  - apply Qlt_trans with (q + Qsum p); [exact IH|].
    setoid_replace (q + (q' + Qsum p)) with (q' + (q + Qsum p)) by ring.
    rewrite <- (Qplus_0_l (q + Qsum p)) at 1.
    apply Qplus_lt_le_compat; [exact Hq'|apply Qle_refl].
Qed.

Lemma Qsum_map_div (s : Q) (p : list Q) :
  Qsum (map (fun q => q / s) p) == Qsum p / s.
Proof.
  induction p as [|q p IH]; simpl.
  - unfold Qdiv. ring.
  - rewrite IH. unfold Qdiv. ring.
Qed.

Lemma uniform_positive (k : nat) :
  (1 <= k)%nat ->
  exists p, uniform k = Ok p /\ positive_distribution k p.
Proof.
  intros Hk. unfold uniform.
  destruct (Nat.eqb_spec k 0) as [->|_]; [lia|].
  eexists; split; [reflexivity|].
  assert (Hpos : 0 < inject_Z (Z.of_nat k)).
  { rewrite <- (Zlt_Qlt 0). lia. }
  split; [apply repeat_length|]. split.
  - apply Forall_forall. intros q Hq. apply repeat_spec in Hq. subst q.
    rewrite Qplus_0_l. apply Qlt_shift_div_l; [exact Hpos|].
    rewrite Qmult_0_l. reflexivity.
  - rewrite Qsum_repeat. field. intros H0. rewrite H0 in Hpos.
    now apply Qlt_irrefl in Hpos.
Qed.

Lemma scale_at_length (idx : list nat) (p : list Q) :
  length (scale_at idx p) = length p.
Proof.
  unfold scale_at. rewrite length_map, length_combine, length_seq.
  apply Nat.min_id.
Qed.

Lemma scale_at_positive (idx : list nat) (p : list Q) :
  Forall (fun q => 0 < q) p -> Forall (fun q => 0 < q) (scale_at idx p).
Proof.
  intros Hp. unfold scale_at. apply Forall_map, Forall_forall.
  intros [i q] Hin. apply in_combine_r in Hin.
  rewrite Forall_forall in Hp. specialize (Hp q Hin). simpl.
  destruct (existsb (Nat.eqb i) idx); [|exact Hp].
  apply Qmult_lt_0_compat; [reflexivity|exact Hp].
Qed.

Lemma normalise_positive (k : nat) (p : list Q) :
  (1 <= k)%nat -> length p = k -> Forall (fun q => 0 < q) p ->
  positive_distribution k (normalise p).
Proof.
  intros Hk Hlen Hp.
  assert (Hs : 0 < Qsum p).
  { apply Qsum_positive; [exact Hp|]. intros ->. simpl in Hlen. lia. }
  unfold normalise. split; [now rewrite length_map|]. split.
  - apply Forall_map. eapply Forall_impl; [|exact Hp].
    intros q Hq. simpl. apply Qlt_shift_div_l; [exact Hs|].
    now rewrite Qmult_0_l.
  - rewrite Qsum_map_div. field. intros H0. rewrite H0 in Hs.
    now apply Qlt_irrefl in Hs.
Qed.

(** One update of a probability vector: scale the drawn positions, then
    normalise. *)
Lemma update_positive (k : nat) (idx : list nat) (p : list Q) :
  (1 <= k)%nat -> positive_distribution k p ->
  positive_distribution k (normalise (scale_at idx p)).
Proof.
  intros Hk (Hlen & Hp & _). apply normalise_positive; [exact Hk| |].
  - now rewrite scale_at_length.
  - now apply scale_at_positive.
Qed.

Lemma count_nonzero_positive (p : list Q) :
  Forall (fun q => 0 < q) p -> count_nonzero p = length p.
Proof.
  intros Hp. unfold count_nonzero. f_equal.
  apply forallb_filter_id, forallb_forall. intros q Hq.
  rewrite Forall_forall in Hp. specialize (Hp q Hq).
  apply negb_true_iff. destruct (Qeq_bool q 0) eqn:E; [|reflexivity].
  apply Qeq_bool_eq in E. rewrite E in Hp. now apply Qlt_irrefl in Hp.
Qed.

Lemma valid_choice_weighted (a size : nat) (replace : bool) (p : list Q) :
  (1 <= a)%nat -> positive_distribution a p ->
  replace = true \/ (size <= a)%nat ->
  valid_choice a size replace (Some p) = true.
Proof.
  intros Ha (Hlen & Hp & Hsum) Hsize. unfold valid_choice.
  destruct (Nat.eqb_spec a 0) as [->|_]; [lia|]. simpl.
  rewrite Hlen, Nat.eqb_refl. simpl.
  assert (Hnn : forallb (fun q => Qle_bool 0 q) p = true).
  { apply forallb_forall. intros q Hq. rewrite Forall_forall in Hp.
    apply Qle_bool_iff, Qlt_le_weak, Hp, Hq. }
  rewrite Hnn. simpl.
  assert (Hs1 : Qeq_bool (Qsum p) 1 = true) by now apply Qeq_bool_iff.
  rewrite Hs1. simpl.
  destruct replace; [reflexivity|]. simpl.
  destruct Hsize as [|Hsize]; [discriminate|].
  rewrite count_nonzero_positive, Hlen by exact Hp.
  apply Nat.leb_le in Hsize. now rewrite Hsize.
Qed.

Lemma valid_choice_uniform (a size : nat) (replace : bool) :
  (1 <= a)%nat -> replace = true \/ (size <= a)%nat ->
  valid_choice a size replace None = true.
Proof.
  intros Ha Hsize. unfold valid_choice.
  destruct (Nat.eqb_spec a 0) as [->|_]; [lia|]. simpl.
  destruct replace; [reflexivity|]. simpl.
  destruct Hsize as [|Hsize]; [discriminate|].
  apply Nat.leb_le in Hsize. now rewrite Hsize.
Qed.

Close Scope Q_scope.

(** *** Indexing *)

Lemma take_ok {A : Type} (d : A) (a : list A) (idx : list nat) :
  Forall (fun i => i < length a) idx ->
  take a idx = Ok (map (fun i => nth i a d) idx).
Proof.
  induction 1 as [|i idx Hi _ IH]; simpl; [reflexivity|].
  destruct (nth_error a i) as [v|] eqn:E.
  - rewrite IH. simpl. now rewrite (nth_error_nth _ _ d E).
  - apply nth_error_None in E. lia.
Qed.

Lemma take2_ok {A : Type} (d : A) (a : list A) (idx : list (list nat)) :
  Forall (Forall (fun i => i < length a)) idx ->
  take2 a idx = Ok (map (map (fun i => nth i a d)) idx).
Proof.
  induction 1 as [|row idx Hrow _ IH]; simpl; [reflexivity|].
  rewrite (@take_ok _ d a row Hrow), IH. reflexivity.
Qed.

Lemma where_eq_spec (v : Z) (y : list Z) (i : nat) :
  In i (where_eq v y) <-> i < length y /\ nth i y 0%Z = v.
Proof.
  unfold where_eq. rewrite filter_In, in_seq, Z.eqb_eq. lia.
Qed.

Lemma where_eq_length (v : Z) (y : list Z) :
  length (where_eq v y) = count_eq v y.
Proof.
  unfold where_eq, count_eq.
  induction y as [|l y IH]; [reflexivity|].
  cbn [length seq filter nth].
  assert (Hshift :
    length (filter (fun i => Z.eqb (nth i (l :: y) 0%Z) v) (seq 1 (length y)))
    = length (filter (fun l => Z.eqb l v) y)).
  { rewrite <- seq_shift, filter_map_swap, length_map. exact IH. }
  destruct (Z.eqb l v); cbn [length]; now rewrite <- Hshift.
Qed.

Lemma binary_counts (y : list Z) :
  binary y -> count_eq 1 y + count_eq 0 y = length y.
Proof.
  unfold count_eq. induction 1 as [|l y [-> | ->] _ IH]; simpl; lia.
Qed.

Lemma has_chosen_count (y : list Z) : has_chosen y -> 1 <= count_eq 1 y.
Proof.
  unfold has_chosen, count_eq. induction y as [|l y IH]; [contradiction|].
  intros [->|Hin]; simpl.
  - lia.
  - specialize (IH Hin). destruct (Z.eqb l 1); simpl; lia.
Qed.

Lemma In_firstn {A : Type} (n : nat) (l : list A) (x : A) :
  In x (firstn n l) -> In x l.
Proof.
  intros Hx. rewrite <- (firstn_skipn n l). apply in_or_app. now left.
Qed.

Lemma In_skipn {A : Type} (n : nat) (l : list A) (x : A) :
  In x (skipn n l) -> In x l.
Proof.
  intros Hx. rewrite <- (firstn_skipn n l). apply in_or_app. now right.
Qed.

Lemma reshape_rows_spec {A : Type} (P : A -> Prop) (rows cols : nat)
      (l : list A) :
  length l = rows * cols -> Forall P l ->
  length (reshape_rows rows cols l) = rows /\
  Forall (fun r => length r = cols /\ Forall P r) (reshape_rows rows cols l).
Proof.
  intros Hl HP. unfold reshape_rows.
  split; [now rewrite length_map, length_seq|].
  apply Forall_map, Forall_forall. intros r Hr. apply in_seq in Hr. split.
  - rewrite length_firstn, length_skipn, Hl. nia.
  - apply Forall_forall. intros x Hx.
    apply In_firstn, In_skipn in Hx.
    rewrite Forall_forall in HP. now apply HP.
Qed.

(** *** Draws *)

Lemma bind_ok {St A B : Type} (c : Py.M St A) (k : A -> Py.M St B)
      (s s' : St) (a : A) :
  c s = (Ok a, s') -> Py.bind c k s = k a s'.
Proof. intros Hc. unfold Py.bind. now rewrite Hc. Qed.

Section WithGenerator.
Context {G : Type} {RS : RandomState G} {RSL : @RandomStateLaws G RS}.

Lemma choice_ok (a size : nat) (replace : bool) (p : option (list Q)) (g : G) :
  valid_choice a size replace p = true ->
  1 <= a -> replace = true \/ size <= a ->
  exists r g',
    choice a size replace p g = (Ok r, g') /\
    length r = size /\ Forall (fun i => i < a) r.
Proof.
  intros Hvalid Ha Hsize. unfold choice. rewrite Hvalid.
  pose proof (choice_raw_length a size replace p g) as Hlen.
  pose proof (@choice_raw_range _ _ _ a size replace p g Ha Hsize) as Hrange.
  destruct (choice_raw a size replace p g) as [r g']. simpl in *.
  now exists r, g'.
Qed.

Lemma shuffle_ok (i : list nat) (g : G) :
  exists r g', shuffle i g = (Ok r, g') /\ Permutation i r.
Proof.
  unfold shuffle. pose proof (shuffle_raw_permutation i g) as Hperm.
  destruct (shuffle_raw i g) as [r g']. simpl in *. now exists r, g'.
Qed.

Lemma sample_row_ok (n_objects : nat) (y : list Z) (ind_1 ind_0 : list nat)
      (c : nat) (p_0 p_1 : list Q) (g : G) :
  Forall (fun j => j < length y /\ nth j y 0%Z = 1%Z) ind_1 ->
  Forall (fun j => j < length y) ind_0 ->
  positive_distribution (length ind_1) p_1 ->
  positive_distribution (length ind_0) p_0 ->
  1 <= c -> c <= length ind_1 -> c < n_objects -> 1 <= length ind_0 ->
  exists i p_0' p_1' g',
    sample_row n_objects ind_1 ind_0 c p_0 p_1 g = (Ok (i, (p_0', p_1')), g') /\
    good_row n_objects y i /\
    positive_distribution (length ind_1) p_1' /\
    positive_distribution (length ind_0) p_0'.
Proof.
  intros Hind1 Hind0 Hp1 Hp0 Hc1 Hck HcM Hk0.
  destruct (@choice_ok (length ind_1) c false (Some p_1) g)
    as (pos & g1 & Epos & Lpos & Rpos);
    [apply valid_choice_weighted; auto; lia | lia | auto |].
  assert (Eneg : exists neg g2,
            (if length ind_0 <? n_objects - c
             then choice (length ind_0) (n_objects - c) true (Some p_0)
             else choice (length ind_0) (n_objects - c) false (Some p_0)) g1
            = (Ok neg, g2) /\
            length neg = n_objects - c /\
            Forall (fun i => i < length ind_0) neg).
  { destruct (Nat.ltb_spec (length ind_0) (n_objects - c)).
    - apply choice_ok; [apply valid_choice_weighted; auto| |]; auto.
    - apply choice_ok; [apply valid_choice_weighted; auto| |]; auto. }
  destruct Eneg as (neg & g2 & Eneg & Lneg & Rneg).
  destruct (shuffle_ok (map (fun i => nth i ind_1 0) pos
                        ++ map (fun i => nth i ind_0 0) neg) g2)
    as (i & g3 & Eshuf & Hperm).
  exists i, (normalise (scale_at neg (normalise (scale_at neg p_0)))),
    (normalise (scale_at pos p_1)), g3.
  split; [|split; [|split]].
  - unfold sample_row.
    erewrite bind_ok by exact Epos.
    erewrite bind_ok by exact Eneg.
    erewrite bind_ok
      by (unfold Py.lift; now rewrite (@take_ok _ 0 ind_1 pos Rpos)).
    erewrite bind_ok
      by (unfold Py.lift; now rewrite (@take_ok _ 0 ind_0 neg Rneg)).
    erewrite bind_ok by exact Eshuf. reflexivity.
  - assert (Hin1 : forall j, In j (map (fun i => nth i ind_1 0) pos) ->
                             j < length y /\ nth j y 0%Z = 1%Z).
    { intros j Hj. apply in_map_iff in Hj as (q & <- & Hq).
      rewrite Forall_forall in Hind1, Rpos. apply Hind1, nth_In, Rpos, Hq. }
    assert (Hin0 : forall j, In j (map (fun i => nth i ind_0 0) neg) ->
                             j < length y).
    { intros j Hj. apply in_map_iff in Hj as (q & <- & Hq).
      rewrite Forall_forall in Hind0, Rneg. apply Hind0, nth_In, Rneg, Hq. }
    split; [|split].
    + rewrite <- (Permutation_length Hperm), length_app, !length_map. lia.
    + apply Forall_forall. intros j Hj.
      apply (Permutation_in _ (Permutation_sym Hperm)), in_app_or in Hj.
      destruct Hj as [Hj|Hj]; [now apply Hin1 | now apply Hin0].
    + destruct pos as [|q pos]; [simpl in Lpos; lia|].
      exists (nth q ind_1 0). split.
      * apply (Permutation_in _ Hperm), in_or_app. left. now left.
      * apply Hin1. now left.
  - apply update_positive; [lia | exact Hp1].
  - apply update_positive; [exact Hk0|].
    apply update_positive; [exact Hk0 | exact Hp0].
Qed.

Lemma sample_rows_ok (n_objects : nat) (y : list Z) (ind_1 ind_0 : list nat)
      (cp : list nat) :
  Forall (fun j => j < length y /\ nth j y 0%Z = 1%Z) ind_1 ->
  Forall (fun j => j < length y) ind_0 ->
  1 <= length ind_0 ->
  Forall (fun c => 1 <= c /\ c <= length ind_1 /\ c < n_objects) cp ->
  forall (p_0 p_1 : list Q) (idx : list (list nat)) (g : G),
    positive_distribution (length ind_1) p_1 ->
    positive_distribution (length ind_0) p_0 ->
    exists rows g',
      sample_rows n_objects ind_1 ind_0 cp p_0 p_1 idx g = (Ok (idx ++ rows), g') /\
      length rows = length cp /\
      Forall (good_row n_objects y) rows.
Proof.
  intros Hind1 Hind0 Hk0 Hcp.
  induction Hcp as [|c cp (Hc1 & Hck & HcM) _ IH]; intros p_0 p_1 idx g Hp1 Hp0.
  - exists [], g. simpl. rewrite app_nil_r. repeat split. constructor.
  - destruct (@sample_row_ok n_objects y ind_1 ind_0 c p_0 p_1 g)
      as (i & p_0' & p_1' & g1 & Erow & Hrow & Hp1' & Hp0'); auto.
    destruct (IH p_0' p_1' (idx ++ [i]) g1 Hp1' Hp0')
      as (rows & g2 & Erows & Hlen & Hrows).
    exists (i :: rows), g2. split; [|split].
    + cbn [sample_rows]. erewrite bind_ok by exact Erow.
      cbv beta iota zeta. rewrite Erows, <- app_assoc. reflexivity.
    + simpl. now rewrite Hlen.
    + now constructor.
Qed.

Lemma sample_query_ok (n_objects bucket_size : nat) (y : list Z) (g : G) :
  binary y -> has_chosen y -> 1 <= n_objects -> n_objects <= length y ->
  exists idx g',
    sample_query n_objects bucket_size y g = (Ok idx, g') /\
    length idx = bucket_size /\
    Forall (good_row n_objects y) idx.
Proof.
  intros Hbin Hchosen HM HN.
  pose proof (@has_chosen_count y Hchosen) as Hk1.
  pose proof (@binary_counts y Hbin) as Hcount.
  assert (Hind1 : Forall (fun j => j < length y /\ nth j y 0%Z = 1%Z)
                         (where_eq 1 y)).
  { apply Forall_forall. intros j Hj. now apply where_eq_spec in Hj. }
  assert (Hind0 : Forall (fun j => j < length y) (where_eq 0 y)).
  { apply Forall_forall. intros j Hj. now apply where_eq_spec in Hj. }
  destruct (@uniform_positive (length (where_eq 1 y)))
    as (p_1 & Ep1 & Hp1); [rewrite where_eq_length; exact Hk1|].
  unfold sample_query.
  erewrite bind_ok by (unfold Py.lift; now rewrite Ep1).
  destruct (Nat.ltb_spec (count_eq 1 y) n_objects) as [Hlt|Hge].
  - assert (Hk0 : 1 <= length (where_eq 0 y))
      by (rewrite where_eq_length; lia).
    destruct (@uniform_positive (length (where_eq 0 y)) Hk0)
      as (p_0 & Ep0 & Hp0).
    erewrite bind_ok by (unfold Py.lift; now rewrite Ep0).
    assert (Ecp : exists cp g1,
              (if bucket_size <? count_eq 1 y
               then choice (count_eq 1 y) bucket_size false None
               else choice (count_eq 1 y) bucket_size true None) g
              = (Ok cp, g1) /\
              length cp = bucket_size /\
              Forall (fun i => i < count_eq 1 y) cp).
    { destruct (Nat.ltb_spec bucket_size (count_eq 1 y)).
      - apply choice_ok; [apply valid_choice_uniform| |]; auto; right; lia.
      - apply choice_ok; [apply valid_choice_uniform| |]; auto. }
    destruct Ecp as (cp & g1 & Ecp & Lcp & Rcp).
    erewrite bind_ok by exact Ecp.
    destruct (@sample_rows_ok n_objects y (where_eq 1 y) (where_eq 0 y)
                (map (fun c => c + 1) cp) Hind1 Hind0 Hk0)
      with (p_0 := p_0) (p_1 := p_1) (idx := @nil (list nat)) (g := g1)
      as (rows & g2 & Erows & Lrows & Hrows); auto.
    { apply Forall_map. eapply Forall_impl; [|exact Rcp].
      intros c Hc. simpl in Hc. rewrite where_eq_length. lia. }
    exists rows, g2. split; [exact Erows|]. split; [|exact Hrows].
    now rewrite Lrows, length_map.
  - assert (Ha : 1 <= length (where_eq 1 y))
      by (rewrite where_eq_length; lia).
    destruct (@choice_ok (length (where_eq 1 y)) (bucket_size * n_objects)
                true None g)
      as (r & g1 & Er & Lr & Rr);
      [apply valid_choice_uniform; auto | exact Ha | auto |].
    erewrite bind_ok by exact Er.
    erewrite bind_ok
      by (unfold Py.lift; now rewrite (@take_ok _ 0 (where_eq 1 y) r Rr)).
    unfold Py.ret.
    destruct (@reshape_rows_spec _
                (fun j => j < length y /\ nth j y 0%Z = 1%Z)
                bucket_size n_objects
                (map (fun i => nth i (where_eq 1 y) 0) r))
      as (Hrows_len & Hrows).
    { now rewrite length_map. }
    { apply Forall_map. eapply Forall_impl; [|exact Rr].
      intros i Hi. simpl. rewrite Forall_forall in Hind1.
      now apply Hind1, nth_In. }
    eexists; eexists; split; [reflexivity|]. split; [exact Hrows_len|].
    eapply Forall_impl; [|exact Hrows].
    intros row (Hlen & Hall). split; [exact Hlen|]. split.
    + eapply Forall_impl; [|exact Hall]. now intros j [Hj _].
    + destruct row as [|j row]; [simpl in Hlen; lia|].
      exists j. split; [now left|]. now inversion Hall as [|? ? [_ Hj] _].
Qed.

Lemma good_rows_in_range (n_objects N : nat) (y : list Z)
      (idx : list (list nat)) :
  length y = N -> Forall (good_row n_objects y) idx ->
  Forall (Forall (fun i => i < N)) idx.
Proof.
  intros <- Hidx. eapply Forall_impl; [|exact Hidx].
  now intros row (_ & Hrange & _).
Qed.

Lemma gather_length {A : Type} (d : A) (a : list A) (idx : list (list nat)) :
  length (gather d a idx) = length idx.
Proof. unfold gather. apply length_map. Qed.

Lemma sample_batch_ok (n_objects bucket_size N : nat)
      (XY : list (list (list R) * list Z)) :
  1 <= n_objects -> n_objects <= N ->
  Forall (fun xy => length (fst xy) = N /\ length (snd xy) = N /\
                    binary (snd xy) /\ has_chosen (snd xy)) XY ->
  forall (X_train : list (list (list R))) (Y_train : list (list Z)) (g : G),
    length X_train = length Y_train ->
    exists idxs g',
      sample_batch n_objects bucket_size XY X_train Y_train g
      = (Ok (X_train
             ++ concat (zip_with (fun xy idx => gather [] (fst xy) idx) XY idxs),
             Y_train
             ++ concat (zip_with (fun xy idx => gather 0%Z (snd xy) idx) XY idxs)),
         g') /\
      Forall2 (fun xy idx => length idx = bucket_size /\
                             Forall (good_row n_objects (snd xy)) idx)
              XY idxs.
Proof.
  intros HM HN HXY.
  induction HXY as [|[x y] XY (Hx & Hy & Hbin & Hch) _ IH];
    intros X_train Y_train g Hlen; simpl in *.
  - exists [], g. unfold zip_with. simpl. rewrite !app_nil_r.
    split; [reflexivity|constructor].
  - destruct (@sample_query_ok n_objects bucket_size y g Hbin Hch HM)
      as (idx & g1 & Eidx & Lidx & Hidx); [lia|].
    pose proof (@good_rows_in_range n_objects N y idx Hy Hidx) as Hrange.
    assert (Ex : take2 x idx = Ok (gather [] x idx)).
    { apply take2_ok. now rewrite Hx. }
    assert (Ey : take2 y idx = Ok (gather 0%Z y idx)).
    { apply take2_ok. now rewrite Hy. }
    erewrite bind_ok by exact Eidx.
    destruct (Nat.eqb_spec (length X_train) 0) as [H0|Hne].
    + assert (X_train = []) by (now apply length_zero_iff_nil).
      assert (Y_train = [])
        by (apply length_zero_iff_nil; now rewrite <- Hlen).
      subst X_train Y_train.
      erewrite bind_ok by (unfold Py.lift; now rewrite Ex).
      erewrite bind_ok by (unfold Py.lift; now rewrite Ey).
      destruct (IH (gather [] x idx) (gather 0%Z y idx) g1)
        as (idxs & g2 & Erest & Hrest); [now rewrite !gather_length|].
      exists (idx :: idxs), g2. split.
      * rewrite Erest. unfold zip_with. reflexivity.
      * constructor; [now split | exact Hrest].
    + erewrite bind_ok by (unfold Py.lift; now rewrite Ey).
      erewrite bind_ok by (unfold Py.lift; now rewrite Ex).
      destruct (IH (X_train ++ gather [] x idx) (Y_train ++ gather 0%Z y idx) g1)
        as (idxs & g2 & Erest & Hrest);
        [now rewrite !length_app, !gather_length, Hlen|].
      exists (idx :: idxs), g2. split.
      * rewrite Erest, <- !app_assoc. unfold zip_with. reflexivity.
      * constructor; [now split | exact Hrest].
Qed.

End WithGenerator.

Lemma counting_generator_laws : @RandomStateLaws nat Examples.counting_generator.
Proof.
  split.
  - intros a size replace p g. simpl.
    destruct replace; [now rewrite length_map, length_seq | apply length_seq].
  - intros a size replace p g Ha Hsize. simpl.
    apply Forall_forall. intros i Hi. destruct replace.
    + apply in_map_iff in Hi as (k & <- & _).
      apply Nat.mod_upper_bound. lia.
    + destruct Hsize as [|Hsize]; [discriminate|].
      apply in_seq in Hi.
      assert (g mod (a - size + 1) < a - size + 1)
        by (apply Nat.mod_upper_bound; lia).
      lia.
  - intros a size p g _. simpl. apply seq_NoDup.
  - intros l g. simpl. apply Permutation_rev.
Qed.

End SubSamplingProofs.

Import SubSampling SubSamplingProofs.

Lemma concat_uniform_blocks {A : Type} (P : list A -> Prop) (b : nat)
      (blocks : list (list (list A))) :
  Forall (fun blk => length blk = b /\ Forall P blk) blocks ->
  length (concat blocks) = length blocks * b /\ Forall P (concat blocks).
Proof.
  induction 1 as [|blk blocks (Hlen & HP) _ (IHlen & IHP)]; simpl.
  - split; [reflexivity|constructor].
  - split.
    + rewrite length_app, IHlen, Hlen. reflexivity.
    + apply Forall_app. now split.
Qed.

Lemma gather_blocks {A B : Type} (d : B) (P : list B -> Prop) (b : nat)
      (proj : A -> list B) (Q : A -> list (list nat) -> Prop)
      (XY : list A) (idxs : list (list (list nat))) :
  Forall2 Q XY idxs ->
  (forall xy idx, In xy XY -> Q xy idx ->
                  length idx = b /\ Forall P (gather d (proj xy) idx)) ->
  Forall (fun blk => length blk = b /\ Forall P blk)
         (zip_with (fun xy idx => gather d (proj xy) idx) XY idxs) /\
  length (zip_with (fun xy idx => gather d (proj xy) idx) XY idxs) = length XY.
Proof.
  intros HQ. induction HQ as [|xy idx XY idxs Hxy _ IH]; intros Hstep.
  - split; [constructor|reflexivity].
  - destruct IH as [IH1 IH2].
    { intros xy' idx' Hin. apply Hstep. now right. }
    destruct (Hstep xy idx (or_introl eq_refl) Hxy) as [Hlen HP].
    unfold zip_with in *. simpl. split.
    + constructor; [|exact IH1]. split; [|exact HP].
      now rewrite gather_length.
    + now rewrite IH2.
Qed.

(** C4.  For a batch of queries with more objects than
    [max_number_of_objects] (at least 1), whose label rows are binary and
    each hold a chosen object, [sub_sampling] returns, for every query of
    the batch and in their order, [bucket_size] = floor(object count /
    max_number_of_objects) rows gathered from that query by index rows
    ([idxs]); every returned row has exactly [max_number_of_objects]
    objects, and its labels include one chosen object at least. *)
Theorem sub_sampling_keeps_size_and_chosen
        (G : Type) (RS : RandomState G) (RSL : @RandomStateLaws G RS)
        (self : FETA.FETAChoiceFunction) (X : Array3) (Y : list (list Z))
        (g : G) (n N d : nat) :
  has_shape3 n N d X ->
  length Y = n ->
  Forall (fun y => length y = N /\ binary y /\ has_chosen y) Y ->
  1 <= n ->
  FETA.n_objects_fit_ self = N ->
  1 <= FETA.max_number_of_objects self ->
  FETA.max_number_of_objects self < N ->
  let n_objects := FETA.max_number_of_objects self in
  let bucket_size := N / n_objects in
  exists (X_train : Array3) (Y_train : list (list Z)) (g' : G)
         (idxs : list (list (list nat))),
    sub_sampling self X Y g = (Ok (X_train, Y_train), g') /\
    has_shape3 (n * bucket_size) n_objects d X_train /\
    length Y_train = n * bucket_size /\
    Forall (fun row => length row = n_objects /\ has_chosen row) Y_train /\
    length idxs = n /\
    Forall (fun idx => length idx = bucket_size) idxs /\
    data3 X_train = concat (zip_with (gather []) (data3 X) idxs) /\
    Y_train = concat (zip_with (gather 0%Z) Y idxs).
Proof.
  intros (HsX & HlX & HrX) HlY HY Hn Hfit HM HMN n_objects bucket_size.
  set (XY := combine (data3 X) Y).
  assert (HXY : Forall (fun xy => length (fst xy) = N /\ length (snd xy) = N /\
                                  binary (snd xy) /\ has_chosen (snd xy)) XY).
  { apply Forall_forall. intros [x y] Hin. simpl.
    pose proof (in_combine_l _ _ _ _ Hin) as Hx.
    pose proof (in_combine_r _ _ _ _ Hin) as Hy.
    rewrite Forall_forall in HrX, HY.
    destruct (HrX x Hx) as [Hxl _]. destruct (HY y Hy) as (Hyl & Hb & Hc).
    auto. }
  destruct (@sample_batch_ok G RS RSL n_objects bucket_size N XY HM
              (Nat.lt_le_incl _ _ HMN) HXY [] [] g eq_refl)
    as (idxs & g' & Ebatch & Hidxs).
  simpl in Ebatch.
  assert (HXYlen : length XY = n).
  { unfold XY. rewrite length_combine, HlX, HlY. apply Nat.min_id. }
  assert (Hlen_idxs : length idxs = n).
  { rewrite <- (Forall2_length Hidxs). exact HXYlen. }
  assert (Hfst : map fst XY = data3 X).
  { unfold XY. clear -HlX HlY. subst n. revert Y HlY.
    induction (data3 X) as [|x xs IH]; intros [|y Y] HlY; simpl in *;
      try discriminate; [reflexivity|]. f_equal. apply IH. lia. }
  assert (Hsnd : map snd XY = Y).
  { unfold XY. clear -HlX HlY. subst n. revert Y HlY.
    induction (data3 X) as [|x xs IH]; intros [|y Y] HlY; simpl in *;
      try discriminate; [reflexivity|]. f_equal. apply IH. lia. }
  assert (HzipX : zip_with (fun xy idx => gather [] (fst xy) idx) XY idxs
                  = zip_with (gather []) (data3 X) idxs).
  { rewrite <- Hfst. clear. revert idxs.
    induction XY as [|xy XY IH]; intros [|idx idxs]; try reflexivity.
    unfold zip_with in *. simpl. f_equal. apply IH. }
  assert (HzipY : zip_with (fun xy idx => gather 0%Z (snd xy) idx) XY idxs
                  = zip_with (gather 0%Z) Y idxs).
  { rewrite <- Hsnd. clear. revert idxs.
    induction XY as [|xy XY IH]; intros [|idx idxs]; try reflexivity.
    unfold zip_with in *. simpl. f_equal. apply IH. }
  assert (HinXY : forall x y, In (x, y) XY ->
            length x = N /\ Forall (has_shape1 d) x /\ length y = N).
  { intros x y Hin.
    pose proof (in_combine_l _ _ _ _ Hin) as Hx.
    pose proof (in_combine_r _ _ _ _ Hin) as Hy.
    rewrite Forall_forall in HrX, HY.
    destruct (HrX x Hx) as [Hxl Hxd]. destruct (HY y Hy) as (Hyl & _).
    auto. }
  destruct (@gather_blocks _ _ (@nil R)
              (fun row => length row = n_objects /\ Forall (has_shape1 d) row)
              bucket_size fst
              (fun xy idx => length idx = bucket_size /\
                             Forall (good_row n_objects (snd xy)) idx)
              XY idxs Hidxs) as [HbX HbXlen].
  { intros [x y] idx Hin (Hlen & Hrows). simpl in *. split; [exact Hlen|].
    destruct (HinXY x y Hin) as (Hxl & Hxd & Hyl).
    unfold gather. apply Forall_map. eapply Forall_impl; [|exact Hrows].
    intros row (Hrl & Hrange & _). split; [now rewrite length_map|].
    apply Forall_map. eapply Forall_impl; [|exact Hrange].
    intros i Hi. simpl in Hi. rewrite Forall_forall in Hxd.
    apply Hxd, nth_In. lia. }
  destruct (@gather_blocks _ _ 0%Z
              (fun row => length row = n_objects /\ has_chosen row)
              bucket_size snd
              (fun xy idx => length idx = bucket_size /\
                             Forall (good_row n_objects (snd xy)) idx)
              XY idxs Hidxs) as [HbY HbYlen].
  { intros [x y] idx Hin (Hlen & Hrows). simpl in *. split; [exact Hlen|].
    unfold gather. apply Forall_map. eapply Forall_impl; [|exact Hrows].
    intros row (Hrl & _ & j & Hj & Hlabel). split; [now rewrite length_map|].
    unfold has_chosen. rewrite <- Hlabel.
    apply (in_map (fun i => nth i y 0%Z)), Hj. }
  destruct (concat_uniform_blocks HbX) as [HXlen HXrows].
  destruct (concat_uniform_blocks HbY) as [HYlen HYrows].
  rewrite HbXlen, HXYlen in HXlen. rewrite HbYlen, HXYlen in HYlen.
  rewrite HzipX in *. rewrite HzipY in *.
  exists (mkArray3 (length (concat (zip_with (gather []) (data3 X) idxs)),
                    n_objects, d)
                   (concat (zip_with (gather []) (data3 X) idxs))),
    (concat (zip_with (gather 0%Z) Y idxs)), g', idxs.
  split; [|split; [|split; [|split; [|split; [|split; [|split]]]]]].
  - unfold sub_sampling. rewrite Hfit.
    destruct (Nat.leb_spec N (FETA.max_number_of_objects self)) as [Hle|_];
      [lia|].
    rewrite HsX. fold n_objects.
    destruct (Nat.eqb_spec n_objects 0) as [H0|_]; [unfold n_objects in H0; lia|].
    fold bucket_size. fold XY.
    erewrite bind_ok by exact Ebatch.
    destruct XY as [|xy XY']; [simpl in HXYlen; lia|]. reflexivity.
  - split; [simpl; now rewrite HXlen|]. simpl. split; [exact HXlen|].
    exact HXrows.
  - exact HYlen.
  - exact HYrows.
  - exact Hlen_idxs.
  - clear -Hidxs. induction Hidxs as [|xy idx XY idxs [Hl _] _ IH];
      constructor; assumption.
  - reflexivity.
  - reflexivity.
Qed.

Lemma sub_sampling_keeps_size_and_chosen_witness :
  has_shape3 2 4 1 Examples.X241 /\
  Forall (fun y => length y = 4 /\ binary y /\ has_chosen y) Examples.Y24 /\
  exists X_train Y_train g',
    @sub_sampling nat Examples.counting_generator
                  Examples.feta_large Examples.X241 Examples.Y24 0
    = (Ok (X_train, Y_train), g') /\
    has_shape3 4 2 1 X_train /\
    Forall (fun row => length row = 2 /\ has_chosen row) Y_train.
Proof.
  assert (HX : has_shape3 2 4 1 Examples.X241).
  { split; [reflexivity|]. split; [reflexivity|].
    repeat constructor. }
  assert (HY : Forall (fun y => length y = 4 /\ binary y /\ has_chosen y)
                      Examples.Y24).
  { unfold binary, has_chosen, Examples.Y24.
    repeat (apply Forall_cons || apply Forall_nil || split);
      simpl; auto 6. }
  split; [exact HX|]. split; [exact HY|].
  destruct (@sub_sampling_keeps_size_and_chosen
              nat Examples.counting_generator counting_generator_laws
              Examples.feta_large Examples.X241 Examples.Y24 0 2 4 1
              HX eq_refl HY ltac:(lia) eq_refl ltac:(simpl; lia)
              ltac:(simpl; lia))
    as (X_train & Y_train & g' & idxs & Hrun & HXt & _ & HYt & _).
  exists X_train, Y_train, g'. split; [exact Hrun|]. split; [exact HXt|exact HYt].
Defined.

(** ** Claims about score prediction *)

(** C8.  For a rank-3 input of shape (n_instances, n_objects, n_features)
    with the fitted number of features, the three score predictors return
    an array of shape (n_instances, n_objects): RandomBaselineDC whatever
    the features, PairwiseSVM and FATELinearCore on a fitted instance. *)
Theorem predicted_scores_have_query_shape :
  (forall (G : Type) (RS : RandomState G)
          (self : RandomBaselineDC.RandomBaselineDC G) (X : Array3)
          (n m d : nat),
      has_shape3 n m d X ->
      exists scores self',
        RandomBaselineDC._predict_scores_fixed X self = (Ok scores, self') /\
        has_shape2 n m scores) /\
  (forall (self : PairwiseSVM.PairwiseSVM) (X : Array3) (n m : nat),
      PairwiseSVM.fitted self ->
      has_shape3 n m (PairwiseSVM.n_object_features_fit_ self) X ->
      exists scores self',
        PairwiseSVM._predict_scores_fixed X self = (Ok scores, self') /\
        has_shape2 n m scores) /\
  (forall (self : FATELinear.FATELinearCore) (X : Array3) (n m : nat),
      FATELinear.fitted self ->
      has_shape3 n m (FATELinear.n_object_features_fit_ self) X ->
      exists scores self',
        FATELinear._predict_scores_fixed X self = (Ok scores, self') /\
        has_shape2 n m scores).
Proof.
  split; [|split].
  - intros G RS self X n m d (Hs & _).
    now apply (@RandomBaselineDCProofs.baseline_predict_scores_ok G RS self X n m d).
  - intros self X n m Hfit HX.
    destruct (@PairwiseSVMProofs.svm_predict_scores_ok self X n m Hfit HX)
      as (scores & Hrun & Hshape).
    now exists scores, (PairwiseSVM.after_predict
                          self n m (PairwiseSVM.n_object_features_fit_ self)).
  - intros self X n m Hfit HX.
    destruct (@FATELinearProofs.fate_predict_scores_ok self X n m Hfit HX)
      as (scores & Hrun & Hshape & _).
    now exists scores, self.
Qed.

Lemma X221_shape : has_shape3 2 2 1 Examples.X221.
Proof. split; [reflexivity|]. split; [reflexivity|]. repeat constructor. Qed.

Lemma fate_fitted_is_fitted : FATELinear.fitted Examples.fate_fitted.
Proof.
  unfold FATELinear.fitted, has_shape2, has_shape1. simpl.
  repeat split; repeat constructor.
Qed.

Lemma predicted_scores_have_query_shape_witness :
  has_shape3 2 2 1 Examples.X221 /\
  PairwiseSVM.fitted Examples.svm_fitted /\
  FATELinear.fitted Examples.fate_fitted /\
  (exists scores self',
     @RandomBaselineDC._predict_scores_fixed nat Examples.counting_generator
       Examples.X221 Examples.baseline_fitted = (Ok scores, self') /\
     has_shape2 2 2 scores) /\
  (exists scores self',
     PairwiseSVM._predict_scores_fixed Examples.X221 Examples.svm_fitted
     = (Ok scores, self') /\
     has_shape2 2 2 scores) /\
  (exists scores self',
     FATELinear._predict_scores_fixed Examples.X221 Examples.fate_fitted
     = (Ok scores, self') /\
     has_shape2 2 2 scores).
Proof.
  destruct predicted_scores_have_query_shape as (Hbase & Hsvm & Hfate).
  split; [exact X221_shape|].
  split; [reflexivity|].
  split; [exact fate_fitted_is_fitted|].
  split; [|split].
  - apply (Hbase nat Examples.counting_generator Examples.baseline_fitted
                 Examples.X221 2 2 1 X221_shape).
  - apply (Hsvm Examples.svm_fitted Examples.X221 2 2 eq_refl X221_shape).
  - apply (Hfate Examples.fate_fitted Examples.X221 2 2
                 fate_fitted_is_fitted X221_shape).
Defined.

(** C9.  When the last axis of the input differs from the number of
    features recorded by [fit], score prediction of the FATE linear core
    and of the pairwise SVM raises AssertionError at once: nothing has been
    logged or computed, whatever the stored weights are, and the instance
    is as it was. *)
Theorem feature_mismatch_fails_fast :
  (forall (self : FATELinear.FATELinearCore) (X : Array3) (n m d : nat),
      shape3 X = (n, m, d) ->
      d <> FATELinear.n_object_features_fit_ self ->
      FATELinear._predict_scores_fixed X self = (Raise AssertionError, self)) /\
  (forall (self : PairwiseSVM.PairwiseSVM) (X : Array3) (n m d : nat),
      shape3 X = (n, m, d) ->
      d <> PairwiseSVM.n_object_features_fit_ self ->
      PairwiseSVM._predict_scores_fixed X self = (Raise AssertionError, self)).
Proof.
  split.
  - intros self X n m d. apply FATELinearProofs.fate_predict_scores_mismatch.
  - intros self X n m d. apply PairwiseSVMProofs.svm_predict_scores_mismatch.
Qed.

Lemma feature_mismatch_fails_fast_witness :
  shape3 Examples.X113 = (1, 1, 3) /\
  3 <> FATELinear.n_object_features_fit_ Examples.fate_fitted /\
  3 <> PairwiseSVM.n_object_features_fit_ Examples.svm_fitted /\
  FATELinear._predict_scores_fixed Examples.X113 Examples.fate_fitted
  = (Raise AssertionError, Examples.fate_fitted) /\
  PairwiseSVM._predict_scores_fixed Examples.X113 Examples.svm_fitted
  = (Raise AssertionError, Examples.svm_fitted).
Proof.
  destruct feature_mismatch_fails_fast as (Hfate & Hsvm).
  assert (H1 : 3 <> FATELinear.n_object_features_fit_ Examples.fate_fitted)
    by (simpl; lia).
  assert (H2 : 3 <> PairwiseSVM.n_object_features_fit_ Examples.svm_fitted)
    by (simpl; lia).
  split; [reflexivity|]. split; [exact H1|]. split; [exact H2|].
  split.
  - apply (Hfate Examples.fate_fitted Examples.X113 1 1 3 eq_refl H1).
  - apply (Hsvm Examples.svm_fitted Examples.X113 1 1 3 eq_refl H2).
Defined.

(** C3.  Every score that leaves the logistic squashing step is strictly
    between 0 and 1: the [n_objects_fit_] outputs of the constructed FETA
    network, the scores of its prediction from pairs, and the scores the
    FATE linear core predicts, which exist for every input of the fitted
    shape. *)
Theorem squashed_scores_in_unit_interval :
  (forall (self : FETAChoiceFunction) (x : list tensor),
      length (construct_model self x) = n_objects_fit_ self /\
      Forall in_unit_interval (construct_model self x)) /\
  (forall (W Kwd : Type)
          (super_predict : Array3 -> Kwd -> Py.M (Instance W) Array2)
          (X : Array3) (kwd : Kwd) (self : Instance W) (scores : Array2),
      fst (_predict_scores_using_pairs super_predict X kwd self) = Ok scores ->
      Forall2d in_unit_interval scores) /\
  (forall (self : FATELinear.FATELinearCore) (X : Array3) (scores : Array2),
      fst (FATELinear._predict_scores_fixed X self) = Ok scores ->
      Forall2d in_unit_interval scores) /\
  (forall (self : FATELinear.FATELinearCore) (X : Array3) (n m : nat),
      FATELinear.fitted self ->
      has_shape3 n m (FATELinear.n_object_features_fit_ self) X ->
      exists scores,
        fst (FATELinear._predict_scores_fixed X self) = Ok scores /\
        Forall2d in_unit_interval scores).
Proof.
  split; [|split; [|split]].
  - intros self x. split.
    + apply construct_model_length.
    + apply construct_model_in_unit_interval.
  - intros W Kwd super_predict X kwd self scores.
    unfold _predict_scores_using_pairs, Py.bind, Py.ret.
    destruct (super_predict X kwd self) as [[raw|e] self']; simpl.
    + intros [= <-]. apply NpProofs.sigmoid2_in_unit_interval.
    + discriminate.
  - intros self X scores.
    apply FATELinearProofs.fate_predict_scores_in_unit_interval.
  - intros self X n m Hfit HX.
    destruct (@FATELinearProofs.fate_predict_scores_ok self X n m Hfit HX)
      as (scores & Hrun & _ & Hunit).
    exists scores. now rewrite Hrun.
Qed.

Lemma squashed_scores_in_unit_interval_witness :
  (exists scores,
     fst (_predict_scores_using_pairs Examples.raw_scores Examples.X121 tt
                                      Examples.feta_unfit) = Ok scores /\
     Forall2d in_unit_interval scores) /\
  (exists scores,
     fst (FATELinear._predict_scores_fixed Examples.X221 Examples.fate_fitted)
     = Ok scores /\
     Forall2d in_unit_interval scores).
Proof.
  destruct squashed_scores_in_unit_interval as (_ & Hpairs & _ & Hfate).
  split.
  - eexists. split; [reflexivity|].
    apply (Hpairs unit unit Examples.raw_scores Examples.X121 tt
                  Examples.feta_unfit _ eq_refl).
  - apply (Hfate Examples.fate_fitted Examples.X221 2 2
                 fate_fitted_is_fitted X221_shape).
Defined.

(** ** Repeated prediction and the round trip through the scores *)

Import Learner.

Lemma bind_ret_fst {St A B : Type} (c : Py.M St A) (f : A -> B) (s : St) :
  fst (Py.bind c (fun a => Py.ret (f a)) s) = Py.rmap f (fst (c s)).
Proof. unfold Py.bind, Py.ret. now destruct (c s) as [[a|e] s']. Qed.

Lemma bind_ret_snd {St A B : Type} (c : Py.M St A) (f : A -> B) (s : St) :
  snd (Py.bind c (fun a => Py.ret (f a)) s) = snd (c s).
Proof. unfold Py.bind, Py.ret. now destruct (c s) as [[a|e] s']. Qed.

Lemma fate_predict_scores_again (self : FATELinear.FATELinearCore) (X : Array3) :
  fst (predict_scores X (snd (predict_scores X self)))
  = fst (predict_scores X self).
Proof.
  unfold predict_scores. simpl.
  now rewrite FATELinearProofs.fate_predict_scores_keeps_self.
Qed.

Lemma svm_predict_scores_again (self : PairwiseSVM.PairwiseSVM) (X : Array3) :
  fst (predict_scores X (snd (predict_scores X self)))
  = fst (predict_scores X self).
Proof.
  unfold predict_scores. simpl. symmetry.
  apply PairwiseSVMProofs.svm_predict_scores_same_model,
        PairwiseSVMProofs.svm_predict_scores_keeps_model.
Qed.

(** C5, as the code has it.  Calling [predict_scores] twice on the same
    input, with no fit in between, gives the same outcome both times for
    PairwiseSVM and for FATELinearCore.  RandomBaselineDC returns at every
    call the next n_instances * n_objects draws of its generator and
    leaves the generator after them. *)
Theorem predict_scores_repeatable_unless_random :
  (forall (self : PairwiseSVM.PairwiseSVM) (X : Array3),
      fst (predict_scores X (snd (predict_scores X self)))
      = fst (predict_scores X self)) /\
  (forall (self : FATELinear.FATELinearCore) (X : Array3),
      fst (predict_scores X (snd (predict_scores X self)))
      = fst (predict_scores X self)) /\
  (forall (G : Type) (RS : RandomState G)
          (self : RandomBaselineDC.RandomBaselineDC G) (X : Array3),
      let n := fst (fst (shape3 X)) in
      let m := snd (fst (shape3 X)) in
      let draws := random_samples (n * m) (RandomBaselineDC.random_state_ self) in
      predict_scores X self
      = (Ok (reshape2 n m (fst draws)),
         {| RandomBaselineDC.random_state_ := snd draws |})).
Proof.
  split; [|split].
  - exact svm_predict_scores_again.
  - exact fate_predict_scores_again.
  - intros G RS self X n m draws.
    destruct (shape3 X) as [[n' m'] d] eqn:Hs. simpl in n, m.
    unfold predict_scores. simpl.
    now apply (@RandomBaselineDCProofs.baseline_predict_scores_draws G RS self X n' m' d).
Qed.

(** C5 as stated fails: the random baseline, called twice on one input,
    returns two different score arrays. *)
Lemma random_baseline_scores_differ_between_calls :
  exists first second,
    fst (@predict_scores_twice
           _ (@RandomBaselineDC_Learner nat Examples.counting_generator)
           Examples.X121 Examples.baseline_fitted) = Ok (first, second) /\
    first <> second.
Proof.
  eexists. eexists. split.
  - cbn. reflexivity.
  - intros H. injection H as H1 H2. lra.
Qed.

(** C6, as the code has it.  Evaluated from the same state of the
    instance, [predict(X)] is [predict_for_scores(predict_scores(X))] for
    every learner.  Evaluated one after the other on one instance, the two
    agree for PairwiseSVM and for FATELinearCore, whose score prediction
    does not depend on what an earlier call left behind. *)
Theorem predict_is_predict_for_scores_of_scores :
  (forall (Self : Type) (L : Learner Self) (P : Type)
          (predict_for_scores : Array2 -> P) (X : Array3) (self : Self),
      predict predict_for_scores X self
      = predict_for_scores_of_predict_scores predict_for_scores X self) /\
  (forall (P : Type) (predict_for_scores : Array2 -> P)
          (self : PairwiseSVM.PairwiseSVM) (X : Array3),
      fst (predict_for_scores_of_predict_scores
             predict_for_scores X (snd (predict predict_for_scores X self)))
      = fst (predict predict_for_scores X self)) /\
  (forall (P : Type) (predict_for_scores : Array2 -> P)
          (self : FATELinear.FATELinearCore) (X : Array3),
      fst (predict_for_scores_of_predict_scores
             predict_for_scores X (snd (predict predict_for_scores X self)))
      = fst (predict predict_for_scores X self)).
Proof.
  split; [|split].
  - reflexivity.
  - intros P pfs self X.
    unfold predict_for_scores_of_predict_scores, predict.
    rewrite !bind_ret_fst, bind_ret_snd.
    now rewrite svm_predict_scores_again.
  - intros P pfs self X.
    unfold predict_for_scores_of_predict_scores, predict.
    rewrite !bind_ret_fst, bind_ret_snd.
    now rewrite fate_predict_scores_again.
Qed.

(** C6 as stated fails: on one instance of the random baseline,
    [predict(X)] chooses the first object of the query and
    [predict_for_scores(predict_scores(X))] the second. *)
Lemma random_baseline_round_trip_differs :
  exists left_side right_side,
    fst (@both_sides _ (@RandomBaselineDC_Learner nat Examples.counting_generator)
           _ discrete_choice_for_scores Examples.X121 Examples.baseline_fitted)
    = Ok (left_side, right_side) /\
    left_side <> right_side.
Proof.
  exists [0], [1]. split; [|discriminate].
  cbn.
  destruct (Rlt_dec (/ (0 + 2)) (/ (1 + 2))) as [Hlt|_]; [lra|].
  destruct (Rlt_dec (/ (1 + 1 + 2)) (/ (0 + 2))) as [_|Hge]; [reflexivity|].
  exfalso. apply Hge. lra.
Qed.

(** ** FATE linear scores: one query at a time, in any order *)

Module FATELinearScoresProofs.
Import Np NpProofs FATELinear FATELinearScores.

Lemma zip_with_map_r {A B C : Type} (f : A -> B -> C) (g : A -> B) (l : list A) :
  zip_with f l (map g l) = map (fun x => f x (g x)) l.
Proof.
  unfold zip_with. induction l as [|x l IH]; simpl; [reflexivity|].
  now rewrite IH.
Qed.

Lemma zip_with_repeat_r {A B C : Type} (f : A -> B -> C) (b : B) (l : list A) :
  zip_with f l (repeat b (length l)) = map (fun x => f x b) l.
Proof.
  unfold zip_with. induction l as [|x l IH]; simpl; [reflexivity|].
  now rewrite IH.
Qed.

Lemma broadcast_scalar (m : nat) (row b : list R) :
  length row = m -> length b = 1 ->
  broadcast_row m 1 row b = map (fun x => (x + nth 0 b 0)%R) row.
Proof.
  intros Hrow Hb. unfold broadcast_row.
  destruct (Nat.eqb_spec m 1) as [->|_]; [|reflexivity].
  destruct row as [|x [|? ?]]; try discriminate.
  destruct b as [|y [|? ?]]; try discriminate.
  reflexivity.
Qed.

Lemma map_ext_Forall2 {A B : Type} (P : A -> Prop) (f g : A -> B) (l : list A) :
  Forall P l -> (forall x, P x -> f x = g x) -> map f l = map g l.
Proof.
  intros HP Hfg. apply map_ext_in. intros x Hx.
  rewrite Forall_forall in HP. auto.
Qed.

(** The scores of a batch, query by query. *)
Lemma fate_predict_scores_closed (self : FATELinearCore) (X : Array3) (n m : nat) :
  fitted self ->
  has_shape3 n m (n_object_features_fit_ self) X ->
  _predict_scores_fixed X self
  = (Ok (mkArray2 (n, m) (map (fun q => map (utility self q) q) (data3 X))),
     self).
Proof.
  intros ((HsW & _ & _) & Hb1 & HW2 & Hb2) (HsX & HlX & HrX).
  unfold has_shape1 in *.
  set (d := n_object_features_fit_ self) in *.
  set (h := n_hidden_set_units self) in *.
  unfold _predict_scores_fixed, Py.bind, Py.get, Py.assert, Py.lift, Py.ret.
  rewrite HsX. fold d. rewrite Nat.eqb_refl.
  unfold dot_3_2. rewrite HsX, HsW, Nat.eqb_refl. cbn [Py.rbind].
  unfold mean_axis1. cbn [shape3 data3].
  unfold add_2_1. cbn [shape2 data2]. rewrite Hb1, Nat.eqb_refl.
  cbn [orb Py.rbind].
  unfold tile_axis1. cbn [shape2 data2].
  unfold concatenate_axis2. rewrite HsX. cbn [shape3 data3].
  rewrite !Nat.eqb_refl. cbn [andb Py.rbind].
  unfold dot_3_1. cbn [shape3 data3]. rewrite HW2, Nat.eqb_refl.
  cbn [Py.rbind].
  unfold add_2_1. cbn [shape2 data2]. rewrite Hb2.
  replace ((m =? 1) || (1 =? 1) || (m =? 1)) with true
    by (now rewrite Nat.eqb_refl, orb_true_r).
  cbn [Py.rbind]. unfold sigmoid2. cbn [shape2 data2].
  f_equal. f_equal. f_equal.
  - f_equal. destruct (m =? 1); reflexivity.
  - rewrite !map_map, zip_with_map_r, !map_map.
    apply (@map_ext_Forall2 _ _ _ _ _ _ HrX).
    intros q [Hq _]. rewrite <- Hq. rewrite zip_with_repeat_r, !map_map.
    rewrite (@broadcast_scalar (length q)) by (rewrite ?length_map; auto).
    rewrite !map_map. apply map_ext. intros v.
    unfold utility, set_representation. rewrite HsW, Hb1. cbn [snd].
    reflexivity.
Qed.

Lemma Rsum_Permutation (l l' : list R) : Permutation l l' -> Rsum l = Rsum l'.
Proof.
  induction 1 as [|x l l' _ IH|x y l|l l' l'' _ IH1 _ IH2]; simpl.
  - reflexivity.
  - now rewrite IH.
  - lra.
  - congruence.
Qed.

Lemma Rmean_Permutation (l l' : list R) : Permutation l l' -> Rmean l = Rmean l'.
Proof.
  intros Hp. unfold Rmean.
  now rewrite (@Rsum_Permutation l l' Hp), (Permutation_length Hp).
Qed.

Lemma set_representation_Permutation (self : FATELinearCore)
      (q q' : list (list R)) :
  Permutation q q' -> set_representation self q = set_representation self q'.
Proof.
  intros Hp. unfold set_representation. f_equal.
  apply map_ext. intros k. apply Rmean_Permutation.
  unfold column. now apply Permutation_map, Permutation_map.
Qed.

Lemma reorder_Permutation {A : Type} (d : A) (q : list A) (pi : list nat) :
  Permutation pi (seq 0 (length q)) ->
  Permutation (map (fun k => nth k q d) pi) q.
Proof.
  intros Hp.
  apply Permutation_trans with (map (fun k => nth k q d) (seq 0 (length q))).
  - now apply Permutation_map.
  - rewrite <- list_eq_map_nth. apply Permutation_refl.
Qed.

Lemma reorder_in_range (m : nat) (pi : list nat) :
  Permutation pi (seq 0 m) -> Forall (fun k => k < m) pi.
Proof.
  intros Hp. apply Forall_forall. intros k Hk.
  apply (Permutation_in _ Hp), in_seq in Hk. lia.
Qed.

Lemma take_objects_shape (n m d : nat) (pi : list nat) (X : Array3) :
  has_shape3 n m d X -> Permutation pi (seq 0 m) ->
  take_objects pi X
  = Ok (mkArray3 (n, length pi, d)
          (map (fun q => map (fun k => nth k q []) pi) (data3 X))) /\
  has_shape3 n m d
    (mkArray3 (n, length pi, d)
       (map (fun q => map (fun k => nth k q []) pi) (data3 X))).
Proof.
  intros (HsX & HlX & HrX) Hp.
  pose proof (@reorder_in_range m pi Hp) as Hrange.
  assert (Hlen : length pi = m)
    by (rewrite (Permutation_length Hp); apply length_seq).
  split.
  - unfold take_objects. rewrite HsX.
    replace (forallb (fun k => k <? m) pi) with true; [reflexivity|].
    symmetry. apply forallb_forall. intros k Hk.
    rewrite Forall_forall in Hrange. apply Nat.ltb_lt. auto.
  - split; [now rewrite Hlen|]. cbn [data3].
    split; [now rewrite length_map|].
    apply Forall_map. eapply Forall_impl; [|exact HrX].
    intros q [Hq Hqd]. split; [now rewrite length_map|].
    apply Forall_map. eapply Forall_impl; [|exact Hrange].
    intros k Hk. cbv beta in Hk. rewrite Forall_forall in Hqd.
    apply Hqd. apply nth_In. unfold Array1 in *. lia.
Qed.

End FATELinearScoresProofs.

Import FATELinearScores FATELinearScoresProofs.

(** X1.  The FATE linear core scores every query on its own: the scores
    of query [i] of a batch are those the same instance gives to that
    query presented alone. *)
Theorem fate_linear_scores_ignore_the_rest_of_the_batch
        (self : FATELinear.FATELinearCore) (X : Array3) (n m i : nat) :
  FATELinear.fitted self ->
  has_shape3 n m (FATELinear.n_object_features_fit_ self) X ->
  i < n ->
  exists scores row,
    fst (FATELinear._predict_scores_fixed X self) = Ok scores /\
    nth i (data2 scores) [] = row /\
    fst (FATELinear._predict_scores_fixed
           (mkArray3 (1, m, FATELinear.n_object_features_fit_ self)
                     [nth i (data3 X) []]) self)
    = Ok (mkArray2 (1, m) [row]).
Proof.
  intros Hfit HX Hi.
  pose proof HX as (HsX & HlX & HrX).
  set (q := nth i (data3 X) []).
  assert (Hq : has_shape3 1 m (FATELinear.n_object_features_fit_ self)
                          (mkArray3 (1, m, FATELinear.n_object_features_fit_ self)
                                    [q])).
  { split; [reflexivity|]. split; [reflexivity|]. constructor; [|constructor].
    rewrite Forall_forall in HrX. apply HrX, nth_In. now rewrite HlX. }
  exists (mkArray2 (n, m)
            (map (fun q => map (utility self q) q) (data3 X))),
    (map (utility self q) q).
  split; [|split].
  - now rewrite (@fate_predict_scores_closed self X n m Hfit HX).
  - cbn [data2].
    rewrite (nth_indep _ [] ((fun q => map (utility self q) q) []))
      by (now rewrite length_map, HlX).
    now rewrite (map_nth (fun q => map (utility self q) q)).
  - now rewrite (@fate_predict_scores_closed self _ 1 m Hfit Hq).
Qed.

Lemma fate_linear_scores_ignore_the_rest_of_the_batch_witness :
  exists scores row,
    fst (FATELinear._predict_scores_fixed Examples.X221 Examples.fate_fitted)
    = Ok scores /\
    nth 1 (data2 scores) [] = row /\
    fst (FATELinear._predict_scores_fixed
           (mkArray3 (1, 2, 1) [[[3%R]; [4%R]]]) Examples.fate_fitted)
    = Ok (mkArray2 (1, 2) [row]).
Proof.
  apply (@fate_linear_scores_ignore_the_rest_of_the_batch
           Examples.fate_fitted Examples.X221 2 2 1
           fate_fitted_is_fitted X221_shape).
  lia.
Defined.

(** X2.  Over exact reals, the FATE linear core is equivariant under a
    reordering of the objects: predicting on [X[:, pi]], for a permutation
    [pi] of the object positions, gives the scores of [X] reordered by
    [pi].  (The mean over the objects of a query is a sum in object order;
    in floating point a reordering may change its rounding, which the
    reals of this development do not have.) *)
Theorem fate_linear_scores_follow_the_objects
        (self : FATELinear.FATELinearCore) (X : Array3) (n m : nat)
        (pi : list nat) :
  FATELinear.fitted self ->
  has_shape3 n m (FATELinear.n_object_features_fit_ self) X ->
  Permutation pi (seq 0 m) ->
  exists X' scores scores',
    take_objects pi X = Ok X' /\
    fst (FATELinear._predict_scores_fixed X self) = Ok scores /\
    fst (FATELinear._predict_scores_fixed X' self) = Ok scores' /\
    take_scores pi scores = Ok scores'.
Proof.
  intros Hfit HX Hp.
  destruct (@take_objects_shape n m _ pi X HX Hp) as [Etake HX'].
  pose proof HX as (HsX & HlX & HrX).
  pose proof (@reorder_in_range m pi Hp) as Hrange.
  assert (Hlen : length pi = m)
    by (rewrite (Permutation_length Hp); apply length_seq).
  eexists. eexists. eexists.
  split; [exact Etake|]. split; [|split].
  - now rewrite (@fate_predict_scores_closed self X n m Hfit HX).
  - now rewrite (@fate_predict_scores_closed self _ n m Hfit HX').
  - unfold take_scores. cbn [shape2 data2 data3].
    replace (forallb (fun k => k <? m) pi) with true.
    2:{ symmetry. apply forallb_forall. intros k Hk.
        rewrite Forall_forall in Hrange. apply Nat.ltb_lt. auto. }
    rewrite Hlen. f_equal. f_equal. rewrite !map_map.
    apply (@map_ext_Forall2 _ _ _ _ _ _ HrX).
    intros q [Hq _]. rewrite map_map.
    assert (Hperm : Permutation (map (fun k => nth k q []) pi) q).
    { apply reorder_Permutation. now rewrite Hq. }
    apply (@map_ext_Forall2 _ _ _ _ _ _ Hrange).
    intros k Hk. cbv beta in Hk.
    rewrite (nth_indep _ 0%R (utility self q []))
      by (rewrite length_map; unfold Array1 in *; lia).
    rewrite (map_nth (utility self q)).
    unfold utility.
    now rewrite (@set_representation_Permutation self _ _ (Permutation_sym Hperm)).
Qed.

Lemma fate_linear_scores_follow_the_objects_witness :
  exists X' scores scores',
    take_objects [1; 0] Examples.X221 = Ok X' /\
    fst (FATELinear._predict_scores_fixed Examples.X221 Examples.fate_fitted)
    = Ok scores /\
    fst (FATELinear._predict_scores_fixed X' Examples.fate_fitted)
    = Ok scores' /\
    take_scores [1; 0] scores = Ok scores'.
Proof.
  apply (@fate_linear_scores_follow_the_objects
           Examples.fate_fitted Examples.X221 2 2 [1; 0]
           fate_fitted_is_fitted X221_shape).
  apply perm_swap.
Defined.


(** ** FETA scores under a reordering of the objects *)

Module FETAEquivarianceProofs.
Import Keras FETA FETAProofs.

Section Reordering.
Variable self : FETAChoiceFunction.
Variable x : list tensor.
Variable pi : list nat.

Let n := n_objects_fit_ self.
Let sigma (k : nat) : nat := nth k pi 0.
Let x' : list tensor := map (fun k => nth k x []) pi.

Hypothesis pi_permutation : Permutation pi (seq 0 n).

Lemma pi_length : length pi = n.
Proof. rewrite (Permutation_length pi_permutation). apply length_seq. Qed.

Lemma sigma_range (k : nat) : k < n -> sigma k < n.
Proof.
  intros Hk. unfold sigma.
  assert (Hin : In (nth k pi 0) pi) by (apply nth_In; now rewrite pi_length).
  apply (Permutation_in _ pi_permutation), in_seq in Hin. lia.
Qed.

Lemma sigma_injective (j k : nat) :
  j < n -> k < n -> sigma j = sigma k -> j = k.
Proof.
  intros Hj Hk Heq. unfold sigma in Heq.
  assert (Hnd : NoDup pi).
  { apply (Permutation_NoDup (Permutation_sym pi_permutation)), seq_NoDup. }
  apply (proj1 (NoDup_nth pi 0) Hnd);
    [now rewrite pi_length | now rewrite pi_length | exact Heq].
Qed.

Lemma sigma_surjective (y : nat) : y < n -> exists j, j < n /\ sigma j = y.
Proof.
  intros Hy.
  assert (Hin : In y pi).
  { apply (Permutation_in _ (Permutation_sym pi_permutation)), in_seq. lia. }
  destruct (In_nth _ _ 0 Hin) as (j & Hj & Hnth).
  exists j. rewrite pi_length in Hj. now split.
Qed.

Lemma reordered_object (k : nat) : k < n -> nth k x' [] = nth (sigma k) x [].
Proof.
  intros Hk. unfold x', sigma.
  rewrite (nth_indep _ [] ((fun k => nth k x []) 0))
    by (rewrite length_map, pi_length; exact Hk).
  now rewrite (map_nth (fun k => nth k x [])).
Qed.

Lemma reordered_U_1 (i j : nat) :
  i < n -> j < n -> U_1 self x' i j = U_1 self x (sigma i) (sigma j).
Proof.
  intros Hi Hj. unfold U_1. now rewrite !reordered_object.
Qed.

Lemma reordered_U_0 (i : nat) : i < n -> U_0 self x' i = U_0 self x (sigma i).
Proof. intros Hi. unfold U_0. now rewrite reordered_object. Qed.

Lemma reordered_others (i : nat) :
  i < n -> Permutation (map sigma (others self i)) (others self (sigma i)).
Proof.
  intros Hi. apply NoDup_Permutation.
  - apply Finite.Injective_map_NoDup_in.
    + intros j k Hj Hk. apply others_spec in Hj, Hk.
      apply sigma_injective; tauto.
    + unfold others. apply NoDup_filter, seq_NoDup.
  - unfold others. apply NoDup_filter, seq_NoDup.
  - intros y. rewrite in_map_iff, others_spec. fold n. split.
    + intros (j & <- & Hj). apply others_spec in Hj. fold n in Hj.
      destruct Hj as [Hj Hne]. split; [now apply sigma_range|].
      intros Heq. apply Hne. now apply sigma_injective.
    + intros [Hy Hne]. destruct (sigma_surjective Hy) as (j & Hj & <-).
      exists j. split; [reflexivity|]. apply others_spec. fold n.
      split; [exact Hj|]. intros ->. now apply Hne.
Qed.

Lemma reordered_mean (i : nat) :
  i < n ->
  Rmean (map (U_1 self x' i) (others self i))
  = Rmean (map (U_1 self x (sigma i)) (others self (sigma i))).
Proof.
  intros Hi.
  rewrite (map_ext_in (U_1 self x' i)
                      (fun j => U_1 self x (sigma i) (sigma j))).
  - rewrite <- (map_map sigma (U_1 self x (sigma i))).
    apply FATELinearScoresProofs.Rmean_Permutation, Permutation_map.
    now apply reordered_others.
  - intros j Hj. apply others_spec in Hj. apply reordered_U_1; tauto.
Qed.

End Reordering.

End FETAEquivarianceProofs.

(** X3.  Over exact reals, the FETA network is equivariant under a
    reordering of the objects of a query: on the query reordered by a
    permutation [pi] of the positions it outputs the scores of the
    original query, reordered by [pi].  (The mean over a row of pairwise
    scores is a sum in the order of the row; in floating point a
    reordering may change its rounding, which the reals of this
    development do not have.) *)
Theorem feta_scores_follow_the_objects
        (self : FETAChoiceFunction) (x : list tensor) (pi : list nat) :
  Permutation pi (seq 0 (n_objects_fit_ self)) ->
  construct_model self (map (fun k => nth k x []) pi)
  = map (fun k => nth k (construct_model self x) 0%R) pi.
Proof.
  intros Hperm.
  pose proof (@FETAEquivarianceProofs.pi_length self pi Hperm) as Hlen.
  rewrite !construct_model_spec. unfold range.
  rewrite (list_eq_map_nth 0 pi) at 1. rewrite Hlen, map_map.
  apply map_ext_in. intros i Hi. apply in_seq in Hi.
  assert (Hsigma : nth i pi 0 < n_objects_fit_ self)
    by (apply (@FETAEquivarianceProofs.sigma_range self pi Hperm); lia).
  set (score := fun k =>
         let m := Rmean (map (U_1 self x k) (others self k)) in
         sigmoid (if add_zeroth_order_model self
                  then (m + U_0 self x k)%R else m)).
  rewrite (nth_indep _ 0%R (score 0))
    by (rewrite length_map, length_seq; exact Hsigma).
  rewrite (map_nth score), seq_nth by exact Hsigma.
  unfold score. cbv zeta.
  rewrite (@FETAEquivarianceProofs.reordered_mean self x pi Hperm),
          (@FETAEquivarianceProofs.reordered_U_0 self x pi Hperm) by lia.
  reflexivity.
Qed.

Lemma feta_scores_follow_the_objects_witness :
  construct_model Examples.feta3 [[3%R]; [1%R]; [2%R]]
  = map (fun k => nth k (construct_model Examples.feta3 Examples.query3) 0%R)
        [2; 0; 1].
Proof.
  apply (@feta_scores_follow_the_objects Examples.feta3 Examples.query3 [2; 0; 1]).
  simpl.
  apply Permutation_trans with [0; 2; 1]; [apply perm_swap|].
  apply perm_skip, perm_swap.
Defined.

(** ** Sub-sampling: the rows, one query after the other *)

Module SubSamplingRowsProofs.
Import Np SubSampling SubSamplingProofs SubSamplingRows.

Section WithGenerator.
Context {G : Type} {RS : RandomState G} {RSL : @RandomStateLaws G RS}.

Lemma choice_distinct (a size : nat) (p : option (list Q)) (g : G) :
  valid_choice a size false p = true -> 1 <= a -> size <= a ->
  exists r g',
    choice a size false p g = (Ok r, g') /\
    length r = size /\ Forall (fun i => i < a) r /\ NoDup r.
Proof.
  intros Hvalid Ha Hsize. unfold choice. rewrite Hvalid.
  pose proof (choice_raw_length a size false p g) as Hlen.
  pose proof (@choice_raw_range _ _ _ a size false p g Ha (or_intror Hsize))
    as Hrange.
  pose proof (@choice_raw_distinct _ _ _ a size p g Hsize) as Hnd.
  destruct (choice_raw a size false p g) as [r g']. simpl in *.
  now exists r, g'.
Qed.

Lemma where_eq_NoDup (v : Z) (y : list Z) : NoDup (where_eq v y).
Proof. unfold where_eq. apply NoDup_filter, seq_NoDup. Qed.

Lemma picked_NoDup (ind pos : list nat) :
  NoDup ind -> NoDup pos -> Forall (fun i => i < length ind) pos ->
  NoDup (map (fun i => nth i ind 0) pos).
Proof.
  intros Hind Hpos Hrange.
  apply Finite.Injective_map_NoDup_in; [|exact Hpos].
  intros i j Hi Hj Heq. rewrite Forall_forall in Hrange.
  apply (proj1 (NoDup_nth ind 0) Hind); auto.
Qed.

Lemma picked_labelled (v : Z) (y : list Z) (idx : list nat) :
  Forall (fun i => i < length (where_eq v y)) idx ->
  Forall (labelled v y) (map (fun i => nth i (where_eq v y) 0) idx).
Proof.
  intros Hrange. apply Forall_map. eapply Forall_impl; [|exact Hrange].
  intros i Hi. cbv beta in Hi. apply where_eq_spec, nth_In, Hi.
Qed.

(** One pass of the loop body, for a query with fewer chosen objects than
    [n_objects]. *)
Lemma sample_row_mixed (n_objects : nat) (y : list Z) (c : nat)
      (p_0 p_1 : list Q) (g : G) :
  positive_distribution (length (where_eq 1 y)) p_1 ->
  positive_distribution (length (where_eq 0 y)) p_0 ->
  1 <= c -> c <= length (where_eq 1 y) -> c < n_objects ->
  1 <= length (where_eq 0 y) ->
  exists i p_0' p_1' g',
    sample_row n_objects (where_eq 1 y) (where_eq 0 y) c p_0 p_1 g
    = (Ok (i, (p_0', p_1')), g') /\
    length i = n_objects /\
    mixed_row y i /\
    positive_distribution (length (where_eq 1 y)) p_1' /\
    positive_distribution (length (where_eq 0 y)) p_0'.
Proof.
  intros Hp1 Hp0 Hc1 Hck HcM Hk0.
  destruct (@choice_distinct (length (where_eq 1 y)) c (Some p_1) g)
    as (pos & g1 & Epos & Lpos & Rpos & Dpos);
    [apply valid_choice_weighted; auto; lia | lia | exact Hck |].
  assert (Eneg : exists neg g2,
            (if length (where_eq 0 y) <? n_objects - c
             then choice (length (where_eq 0 y)) (n_objects - c) true (Some p_0)
             else choice (length (where_eq 0 y)) (n_objects - c) false (Some p_0))
              g1
            = (Ok neg, g2) /\
            length neg = n_objects - c /\
            Forall (fun i => i < length (where_eq 0 y)) neg).
  { destruct (Nat.ltb_spec (length (where_eq 0 y)) (n_objects - c)).
    - apply choice_ok; [apply valid_choice_weighted; auto| |]; auto.
    - apply choice_ok; [apply valid_choice_weighted; auto| |]; auto. }
  destruct Eneg as (neg & g2 & Eneg & Lneg & Rneg).
  set (chosen := map (fun i => nth i (where_eq 1 y) 0) pos).
  set (rest := map (fun i => nth i (where_eq 0 y) 0) neg).
  destruct (@shuffle_ok G RS RSL (chosen ++ rest) g2)
    as (i & g3 & Eshuf & Hperm).
  exists i, (normalise (scale_at neg (normalise (scale_at neg p_0)))),
    (normalise (scale_at pos p_1)), g3.
  split; [|split; [|split; [|split]]].
  - unfold sample_row.
    erewrite bind_ok by exact Epos.
    erewrite bind_ok by exact Eneg.
    erewrite bind_ok
      by (unfold Py.lift; now rewrite (@take_ok _ 0 (where_eq 1 y) pos Rpos)).
    erewrite bind_ok
      by (unfold Py.lift; now rewrite (@take_ok _ 0 (where_eq 0 y) neg Rneg)).
    erewrite bind_ok by exact Eshuf. reflexivity.
  - rewrite <- (Permutation_length Hperm). unfold chosen, rest.
    rewrite length_app, !length_map. lia.
  - exists chosen, rest. unfold chosen, rest.
    split; [exact Hperm|]. split.
    { apply picked_NoDup; [apply where_eq_NoDup | exact Dpos | exact Rpos]. }
    split; [rewrite length_map; lia|].
    split; [now apply picked_labelled|].
    split; [rewrite length_map; lia|].
    now apply picked_labelled.
  - apply update_positive; [lia | exact Hp1].
  - apply update_positive; [exact Hk0|].
    apply update_positive; [exact Hk0 | exact Hp0].
Qed.

Lemma sample_rows_mixed (n_objects : nat) (y : list Z) (cp : list nat) :
  1 <= length (where_eq 0 y) ->
  Forall (fun c => 1 <= c /\ c <= length (where_eq 1 y) /\ c < n_objects) cp ->
  forall (p_0 p_1 : list Q) (idx : list (list nat)) (g : G),
    positive_distribution (length (where_eq 1 y)) p_1 ->
    positive_distribution (length (where_eq 0 y)) p_0 ->
    exists rows g',
      sample_rows n_objects (where_eq 1 y) (where_eq 0 y) cp p_0 p_1 idx g
      = (Ok (idx ++ rows), g') /\
      length rows = length cp /\
      Forall (fun i => length i = n_objects /\ mixed_row y i) rows.
Proof.
  intros Hk0 Hcp.
  induction Hcp as [|c cp (Hc1 & Hck & HcM) _ IH]; intros p_0 p_1 idx g Hp1 Hp0.
  - exists [], g. simpl. rewrite app_nil_r. repeat split. constructor.
  - destruct (@sample_row_mixed n_objects y c p_0 p_1 g)
      as (i & p_0' & p_1' & g1 & Erow & Hlen & Hrow & Hp1' & Hp0'); auto.
    destruct (IH p_0' p_1' (idx ++ [i]) g1 Hp1' Hp0')
      as (rows & g2 & Erows & Hlens & Hrows).
    exists (i :: rows), g2. split; [|split].
    + cbn [sample_rows]. erewrite bind_ok by exact Erow.
      cbv beta iota zeta. rewrite Erows, <- app_assoc. reflexivity.
    + simpl. now rewrite Hlens.
    + constructor; [now split | exact Hrows].
Qed.

Lemma mixed_row_in_range (y : list Z) (i : list nat) :
  mixed_row y i -> Forall (fun j => j < length y) i.
Proof.
  intros (chosen & rest & Hperm & _ & _ & Hc & _ & Hr).
  apply Forall_forall. intros j Hj.
  apply (Permutation_in _ (Permutation_sym Hperm)), in_app_or in Hj.
  rewrite Forall_forall in Hc, Hr.
  destruct Hj as [Hj|Hj]; [now apply Hc | now apply Hr].
Qed.

(** The rows drawn for one query. *)
Lemma sample_query_rows (n_objects bucket_size : nat) (y : list Z) (g : G) :
  binary y -> has_chosen y -> 1 <= n_objects -> n_objects <= length y ->
  exists idx g',
    sample_query n_objects bucket_size y g = (Ok idx, g') /\
    drawn_rows n_objects bucket_size y idx.
Proof.
  intros Hbin Hchosen HM HN.
  pose proof (@has_chosen_count y Hchosen) as Hk1.
  pose proof (@binary_counts y Hbin) as Hcount.
  destruct (@uniform_positive (length (where_eq 1 y)))
    as (p_1 & Ep1 & Hp1); [rewrite where_eq_length; exact Hk1|].
  unfold sample_query, drawn_rows.
  erewrite bind_ok by (unfold Py.lift; now rewrite Ep1).
  destruct (Nat.ltb_spec (count_eq 1 y) n_objects) as [Hlt|Hge].
  - assert (Hk0 : 1 <= length (where_eq 0 y))
      by (rewrite where_eq_length; lia).
    destruct (@uniform_positive (length (where_eq 0 y)) Hk0)
      as (p_0 & Ep0 & Hp0).
    erewrite bind_ok by (unfold Py.lift; now rewrite Ep0).
    assert (Ecp : exists cp g1,
              (if bucket_size <? count_eq 1 y
               then choice (count_eq 1 y) bucket_size false None
               else choice (count_eq 1 y) bucket_size true None) g
              = (Ok cp, g1) /\
              length cp = bucket_size /\
              Forall (fun i => i < count_eq 1 y) cp).
    { destruct (Nat.ltb_spec bucket_size (count_eq 1 y)).
      - apply choice_ok; [apply valid_choice_uniform| |]; auto; right; lia.
      - apply choice_ok; [apply valid_choice_uniform| |]; auto. }
    destruct Ecp as (cp & g1 & Ecp & Lcp & Rcp).
    erewrite bind_ok by exact Ecp.
    destruct (@sample_rows_mixed n_objects y (map (fun c => c + 1) cp) Hk0)
      with (p_0 := p_0) (p_1 := p_1) (idx := @nil (list nat)) (g := g1)
      as (rows & g2 & Erows & Lrows & Hrows); auto.
    { apply Forall_map. eapply Forall_impl; [|exact Rcp].
      intros c Hc. simpl in Hc. rewrite where_eq_length. lia. }
    exists rows, g2. split; [exact Erows|].
    split; [now rewrite Lrows, length_map|].
    eapply Forall_impl; [|exact Hrows].
    intros i [Hlen Hrow]. split; [exact Hlen|].
    split; [now apply mixed_row_in_range | exact Hrow].
  - assert (Ha : 1 <= length (where_eq 1 y))
      by (rewrite where_eq_length; lia).
    destruct (@choice_ok G RS RSL (length (where_eq 1 y))
                (bucket_size * n_objects) true None g)
      as (r & g1 & Er & Lr & Rr);
      [apply valid_choice_uniform; auto | exact Ha | auto |].
    erewrite bind_ok by exact Er.
    erewrite bind_ok
      by (unfold Py.lift; now rewrite (@take_ok _ 0 (where_eq 1 y) r Rr)).
    unfold Py.ret.
    destruct (@reshape_rows_spec _ (labelled 1 y) bucket_size n_objects
                (map (fun i => nth i (where_eq 1 y) 0) r))
      as (Hrows_len & Hrows).
    { now rewrite length_map. }
    { now apply picked_labelled. }
    eexists; eexists; split; [reflexivity|]. split; [exact Hrows_len|].
    eapply Forall_impl; [|exact Hrows].
    intros row (Hlen & Hall). split; [exact Hlen|]. split.
    + eapply Forall_impl; [|exact Hall]. now intros j [Hj _].
    + exact Hall.
Qed.

End WithGenerator.

End SubSamplingRowsProofs.

(** ** Sub-sampling: the whole batch *)

Module SubSamplingBatchProofs.
Import Np SubSampling SubSamplingProofs SubSamplingRows SubSamplingRowsProofs.

Lemma zip_with_combine_fst {A B C D : Type} (f : A -> C -> D)
      (a : list A) (b : list B) (c : list C) :
  length a = length b ->
  zip_with (fun ab x => f (fst ab) x) (combine a b) c = zip_with f a c.
Proof.
  revert b c. induction a as [|x a IH]; intros [|y b] c Hlen;
    try discriminate; [reflexivity|].
  destruct c as [|z c]; [reflexivity|].
  unfold zip_with in *. simpl. f_equal. apply IH. simpl in Hlen. lia.
Qed.

Lemma zip_with_combine_snd {A B C D : Type} (f : B -> C -> D)
      (a : list A) (b : list B) (c : list C) :
  length a = length b ->
  zip_with (fun ab x => f (snd ab) x) (combine a b) c = zip_with f b c.
Proof.
  revert b c. induction a as [|x a IH]; intros [|y b] c Hlen;
    try discriminate; [reflexivity|].
  destruct c as [|z c]; [reflexivity|].
  unfold zip_with in *. simpl. f_equal. apply IH. simpl in Hlen. lia.
Qed.

Lemma Forall2_combine_snd {A B C : Type} (P : B -> C -> Prop)
      (a : list A) (b : list B) (c : list C) :
  length a = length b ->
  Forall2 (fun ab x => P (snd ab) x) (combine a b) c -> Forall2 P b c.
Proof.
  revert b c. induction a as [|x a IH]; intros [|y b] c Hlen H;
    try discriminate.
  - inversion H. constructor.
  - simpl in H. inversion H as [|? ? ? ? Hhead Htail]; subst.
    constructor; [exact Hhead|]. apply IH; [simpl in Hlen; lia | exact Htail].
Qed.

Lemma drawn_rows_in_range (n_objects bucket_size N : nat) (y : list Z)
      (idx : list (list nat)) :
  length y = N -> drawn_rows n_objects bucket_size y idx ->
  Forall (Forall (fun i => i < N)) idx.
Proof.
  intros <- [_ Hrows]. eapply Forall_impl; [|exact Hrows].
  now intros row (_ & Hrange & _).
Qed.

Section WithGenerator.
Context {G : Type} {RS : RandomState G} {RSL : @RandomStateLaws G RS}.

Lemma sample_batch_rows (n_objects bucket_size N : nat)
      (XY : list (list (list R) * list Z)) :
  1 <= n_objects -> n_objects <= N ->
  Forall (fun xy => length (fst xy) = N /\ length (snd xy) = N /\
                    binary (snd xy) /\ has_chosen (snd xy)) XY ->
  forall (X_train : list (list (list R))) (Y_train : list (list Z)) (g : G),
    length X_train = length Y_train ->
    exists idxs g',
      sample_batch n_objects bucket_size XY X_train Y_train g
      = (Ok (X_train
             ++ concat (zip_with (fun xy idx => gather [] (fst xy) idx) XY idxs),
             Y_train
             ++ concat (zip_with (fun xy idx => gather 0%Z (snd xy) idx) XY idxs)),
         g') /\
      Forall2 (fun xy idx => drawn_rows n_objects bucket_size (snd xy) idx)
              XY idxs.
Proof.
  intros HM HN HXY.
  induction HXY as [|[x y] XY (Hx & Hy & Hbin & Hch) _ IH];
    intros X_train Y_train g Hlen; simpl in *.
  - exists [], g. unfold zip_with. simpl. rewrite !app_nil_r.
    split; [reflexivity|constructor].
  - destruct (@sample_query_rows G RS RSL n_objects bucket_size y g Hbin Hch HM)
      as (idx & g1 & Eidx & Hidx); [lia|].
    pose proof (@drawn_rows_in_range n_objects bucket_size N y idx Hy Hidx)
      as Hrange.
    assert (Ex : take2 x idx = Ok (gather [] x idx)).
    { apply take2_ok. now rewrite Hx. }
    assert (Ey : take2 y idx = Ok (gather 0%Z y idx)).
    { apply take2_ok. now rewrite Hy. }
    erewrite bind_ok by exact Eidx.
    destruct (Nat.eqb_spec (length X_train) 0) as [H0|Hne].
    + assert (X_train = []) by (now apply length_zero_iff_nil).
      assert (Y_train = [])
        by (apply length_zero_iff_nil; now rewrite <- Hlen).
      subst X_train Y_train.
      erewrite bind_ok by (unfold Py.lift; now rewrite Ex).
      erewrite bind_ok by (unfold Py.lift; now rewrite Ey).
      destruct (IH (gather [] x idx) (gather 0%Z y idx) g1)
        as (idxs & g2 & Erest & Hrest); [now rewrite !gather_length|].
      exists (idx :: idxs), g2. split.
      * rewrite Erest. unfold zip_with. reflexivity.
      * constructor; [exact Hidx | exact Hrest].
    + erewrite bind_ok by (unfold Py.lift; now rewrite Ey).
      erewrite bind_ok by (unfold Py.lift; now rewrite Ex).
      destruct (IH (X_train ++ gather [] x idx) (Y_train ++ gather 0%Z y idx) g1)
        as (idxs & g2 & Erest & Hrest);
        [now rewrite !length_app, !gather_length, Hlen|].
      exists (idx :: idxs), g2. split.
      * rewrite Erest, <- !app_assoc. unfold zip_with. reflexivity.
      * constructor; [exact Hidx | exact Hrest].
Qed.

(** The outcome of [sub_sampling] on a batch of large queries, in terms
    of the index rows drawn for every query. *)
Lemma sub_sampling_rows (self : FETA.FETAChoiceFunction) (X : Array3)
      (Y : list (list Z)) (g : G) (n N d : nat) :
  has_shape3 n N d X ->
  length Y = n ->
  Forall (fun y => length y = N /\ binary y /\ has_chosen y) Y ->
  1 <= n ->
  FETA.n_objects_fit_ self = N ->
  1 <= FETA.max_number_of_objects self ->
  FETA.max_number_of_objects self < N ->
  exists (idxs : list (list (list nat))) (g' : G),
    sub_sampling self X Y g
    = (Ok (mkArray3 (length (concat (zip_with (gather []) (data3 X) idxs)),
                     FETA.max_number_of_objects self, d)
                    (concat (zip_with (gather []) (data3 X) idxs)),
           concat (zip_with (gather 0%Z) Y idxs)),
       g') /\
    Forall2 (drawn_rows (FETA.max_number_of_objects self)
                        (N / FETA.max_number_of_objects self)) Y idxs.
Proof.
  intros (HsX & HlX & HrX) HlY HY Hn Hfit HM HMN.
  set (n_objects := FETA.max_number_of_objects self) in *.
  set (XY := combine (data3 X) Y).
  assert (Hlens : length (data3 X) = length Y) by congruence.
  assert (HXY : Forall (fun xy => length (fst xy) = N /\ length (snd xy) = N /\
                                  binary (snd xy) /\ has_chosen (snd xy)) XY).
  { apply Forall_forall. intros [x y] Hin. simpl.
    pose proof (in_combine_l _ _ _ _ Hin) as Hx.
    pose proof (in_combine_r _ _ _ _ Hin) as Hy.
    rewrite Forall_forall in HrX, HY.
    destruct (HrX x Hx) as [Hxl _]. destruct (HY y Hy) as (Hyl & Hb & Hc).
    auto. }
  destruct (@sample_batch_rows n_objects (N / n_objects) N XY HM
              (Nat.lt_le_incl _ _ HMN) HXY [] [] g eq_refl)
    as (idxs & g' & Ebatch & Hidxs).
  simpl in Ebatch. unfold XY in Ebatch.
  rewrite (@zip_with_combine_fst _ _ _ _ (gather []) _ _ idxs Hlens) in Ebatch.
  rewrite (@zip_with_combine_snd _ _ _ _ (gather 0%Z) _ _ idxs Hlens) in Ebatch.
  exists idxs, g'. split.
  - unfold sub_sampling. rewrite Hfit.
    destruct (Nat.leb_spec N (FETA.max_number_of_objects self)) as [Hle|_];
      [unfold n_objects in *; lia|].
    rewrite HsX. fold n_objects.
    destruct (Nat.eqb_spec n_objects 0) as [H0|_]; [lia|].
    erewrite bind_ok by exact Ebatch.
    destruct (combine (data3 X) Y) as [|xy XY'] eqn:Ecomb; [|reflexivity].
    exfalso. apply (f_equal (@length _)) in Ecomb.
    rewrite length_combine, HlX, HlY, Nat.min_id in Ecomb. simpl in Ecomb. lia.
  - apply (@Forall2_combine_snd _ _ _ _ (data3 X) Y idxs Hlens). exact Hidxs.
Qed.

End WithGenerator.

End SubSamplingBatchProofs.

Import SubSamplingRows SubSamplingRowsProofs SubSamplingBatchProofs.

Lemma concat_gather_Forall {A : Type} (d : A) (P : list A -> Prop)
      (Q : list A -> list (list nat) -> Prop)
      (Y : list (list A)) (idxs : list (list (list nat))) :
  Forall2 Q Y idxs ->
  (forall y idx, In y Y -> Q y idx -> Forall P (gather d y idx)) ->
  Forall P (concat (zip_with (gather d) Y idxs)).
Proof.
  intros HQ. induction HQ as [|y idx Y idxs Hy _ IH]; intros Hstep.
  - constructor.
  - unfold zip_with in *. simpl. apply Forall_app. split.
    + apply Hstep; [now left | exact Hy].
    + apply IH. intros y' idx' Hin. apply Hstep. now right.
Qed.

Lemma Forall2_impl_In {A B : Type} (P Q : A -> B -> Prop)
      (l : list A) (l' : list B) :
  Forall2 P l l' -> (forall x y, In x l -> P x y -> Q x y) -> Forall2 Q l l'.
Proof.
  intros HP. induction HP as [|x y l l' Hxy _ IH]; intros Himp.
  - constructor.
  - constructor; [apply Himp; [now left | exact Hxy]|].
    apply IH. intros x' y' Hin. apply Himp. now right.
Qed.

(** X4.  When every query of the batch has at least [max_number_of_objects]
    chosen objects, the sub-sample holds chosen objects only: every label
    [sub_sampling] returns is 1. *)
Theorem sub_sampling_of_many_chosen_returns_only_chosen
        (G : Type) (RS : RandomState G) (RSL : @RandomStateLaws G RS)
        (self : FETA.FETAChoiceFunction) (X : Array3) (Y : list (list Z))
        (g : G) (n N d : nat) :
  has_shape3 n N d X ->
  length Y = n ->
  Forall (fun y => length y = N /\ binary y /\ has_chosen y) Y ->
  1 <= n ->
  FETA.n_objects_fit_ self = N ->
  1 <= FETA.max_number_of_objects self ->
  FETA.max_number_of_objects self < N ->
  Forall (fun y => FETA.max_number_of_objects self <= count_eq 1 y) Y ->
  exists X_train Y_train g',
    sub_sampling self X Y g = (Ok (X_train, Y_train), g') /\
    Forall (Forall (fun label => label = 1%Z)) Y_train.
Proof.
  intros HX HlY HY Hn Hfit HM HMN Hmany.
  destruct (@sub_sampling_rows G RS RSL self X Y g n N d
              HX HlY HY Hn Hfit HM HMN) as (idxs & g' & Hrun & Hrows).
  eexists. eexists. exists g'. split; [exact Hrun|].
  apply (@concat_gather_Forall _ 0%Z _ _ Y idxs Hrows).
  intros y idx Hin [_ Hidx].
  rewrite Forall_forall in Hmany. specialize (Hmany y Hin).
  unfold gather. apply Forall_map. eapply Forall_impl; [|exact Hidx].
  intros i (_ & _ & Hkind).
  destruct (Nat.ltb_spec (count_eq 1 y) (FETA.max_number_of_objects self));
    [lia|].
  apply Forall_map. eapply Forall_impl; [|exact Hkind].
  now intros j [_ Hj].
Qed.

Lemma sub_sampling_of_many_chosen_returns_only_chosen_witness :
  exists X_train Y_train g',
    @sub_sampling nat Examples.counting_generator
                  Examples.feta_large Examples.X241
                  [[1; 1; 0; 1]%Z; [1; 1; 1; 1]%Z] 0
    = (Ok (X_train, Y_train), g') /\
    Forall (Forall (fun label => label = 1%Z)) Y_train.
Proof.
  apply (@sub_sampling_of_many_chosen_returns_only_chosen
           nat Examples.counting_generator counting_generator_laws
           Examples.feta_large Examples.X241 [[1; 1; 0; 1]%Z; [1; 1; 1; 1]%Z]
           0 2 4 1).
  - split; [reflexivity|]. split; [reflexivity|]. repeat constructor.
  - reflexivity.
  - unfold binary, has_chosen.
    repeat (apply Forall_cons || apply Forall_nil || split); simpl; auto 6.
  - lia.
  - reflexivity.
  - simpl; lia.
  - simpl; lia.
  - repeat constructor.
Defined.

(** X5.  When every query of the batch has fewer chosen objects than
    [max_number_of_objects], every row [sub_sampling] returns mixes the
    two kinds: it is drawn ([idxs]) as some chosen objects of its query,
    none of them twice, and some objects that were not chosen, so that its
    labels hold a 1 and a 0. *)
Theorem sub_sampling_of_few_chosen_mixes_rows
        (G : Type) (RS : RandomState G) (RSL : @RandomStateLaws G RS)
        (self : FETA.FETAChoiceFunction) (X : Array3) (Y : list (list Z))
        (g : G) (n N d : nat) :
  has_shape3 n N d X ->
  length Y = n ->
  Forall (fun y => length y = N /\ binary y /\ has_chosen y) Y ->
  1 <= n ->
  FETA.n_objects_fit_ self = N ->
  1 <= FETA.max_number_of_objects self ->
  FETA.max_number_of_objects self < N ->
  Forall (fun y => count_eq 1 y < FETA.max_number_of_objects self) Y ->
  exists X_train Y_train g' idxs,
    sub_sampling self X Y g = (Ok (X_train, Y_train), g') /\
    data3 X_train = concat (zip_with (gather []) (data3 X) idxs) /\
    Y_train = concat (zip_with (gather 0%Z) Y idxs) /\
    Forall2 (fun y idx => Forall (mixed_row y) idx) Y idxs /\
    Forall (fun row => In 1%Z row /\ In 0%Z row) Y_train.
Proof.
  intros HX HlY HY Hn Hfit HM HMN Hfew.
  destruct (@sub_sampling_rows G RS RSL self X Y g n N d
              HX HlY HY Hn Hfit HM HMN) as (idxs & g' & Hrun & Hrows).
  assert (Hmixed : Forall2 (fun y idx => Forall (mixed_row y) idx) Y idxs).
  { apply (@Forall2_impl_In _ _ _ _ Y idxs Hrows).
    intros y idx Hin [_ Hidx].
    rewrite Forall_forall in Hfew. specialize (Hfew y Hin).
    eapply Forall_impl; [|exact Hidx]. intros i (_ & _ & Hkind).
    destruct (Nat.ltb_spec (count_eq 1 y) (FETA.max_number_of_objects self));
      [exact Hkind | lia]. }
  eexists. eexists. exists g', idxs.
  split; [exact Hrun|]. split; [reflexivity|]. split; [reflexivity|].
  split; [exact Hmixed|].
  apply (@concat_gather_Forall _ 0%Z _ _ Y idxs Hmixed).
  intros y idx _ Hidx. unfold gather. apply Forall_map.
  eapply Forall_impl; [|exact Hidx].
  intros i (chosen & rest & Hperm & _ & Hc1 & Hc & Hr1 & Hr).
  split.
  - destruct chosen as [|j chosen]; [simpl in Hc1; lia|].
    inversion Hc as [|? ? [_ Hj] _]; subst.
    assert (Hin : In (nth j y 0%Z) (map (fun j => nth j y 0%Z) i)).
    { apply (in_map (fun j => nth j y 0%Z)), (Permutation_in _ Hperm).
      now left. }
    now rewrite Hj in Hin.
  - destruct rest as [|j rest]; [simpl in Hr1; lia|].
    inversion Hr as [|? ? [_ Hj] _]; subst.
    assert (Hin : In (nth j y 0%Z) (map (fun j => nth j y 0%Z) i)).
    { apply (in_map (fun j => nth j y 0%Z)), (Permutation_in _ Hperm).
      apply in_or_app. right. now left. }
    now rewrite Hj in Hin.
Qed.

Lemma sub_sampling_of_few_chosen_mixes_rows_witness :
  exists X_train Y_train g',
    @sub_sampling nat Examples.counting_generator
                  Examples.feta_large Examples.X241
                  [[0; 1; 0; 0]%Z; [0; 0; 0; 1]%Z] 0
    = (Ok (X_train, Y_train), g') /\
    Forall (fun row => In 1%Z row /\ In 0%Z row) Y_train.
Proof.
  destruct (@sub_sampling_of_few_chosen_mixes_rows
              nat Examples.counting_generator counting_generator_laws
              Examples.feta_large Examples.X241
              [[0; 1; 0; 0]%Z; [0; 0; 0; 1]%Z] 0 2 4 1)
    as (X_train & Y_train & g' & idxs & Hrun & _ & _ & _ & Hrows).
  - split; [reflexivity|]. split; [reflexivity|]. repeat constructor.
  - reflexivity.
  - unfold binary, has_chosen.
    repeat (apply Forall_cons || apply Forall_nil || split); simpl; auto 6.
  - lia.
  - reflexivity.
  - simpl; lia.
  - simpl; lia.
  - repeat constructor.
  - exists X_train, Y_train, g'. now split.
Defined.

Lemma nth_concat_uniform {A : Type} (d : A) (b : nat)
      (blocks : list (list A)) (r : nat) :
  Forall (fun blk => length blk = b) blocks ->
  r < length blocks * b ->
  nth r (concat blocks) d = nth (r mod b) (nth (r / b) blocks []) d.
Proof.
  intros Hb. revert r. induction Hb as [|blk blocks Hlen _ IH]; intros r Hr.
  - simpl in Hr. lia.
  - assert (Hbpos : 0 < b) by (simpl in Hr; destruct b; [|lia]; lia).
    simpl concat. destruct (Nat.lt_ge_cases r b) as [Hlt|Hge].
    + rewrite app_nth1 by lia.
      rewrite Nat.div_small, Nat.mod_small by exact Hlt. reflexivity.
    + rewrite app_nth2 by lia. rewrite Hlen.
      rewrite IH by (simpl in Hr; lia).
      replace r with ((r - b) + 1 * b) at 3 4 by lia.
      rewrite Nat.div_add, Nat.Div0.mod_add by lia.
      replace ((r - b) / b + 1) with (S ((r - b) / b)) by lia.
      reflexivity.
Qed.

Lemma nth_zip_with_gather {A : Type} (d : A) (Y : list (list A))
      (idxs : list (list (list nat))) (q : nat) :
  q < length Y -> length idxs = length Y ->
  nth q (zip_with (gather d) Y idxs) []
  = gather d (nth q Y []) (nth q idxs []).
Proof.
  revert idxs q. induction Y as [|y Y IH]; intros [|idx idxs] q Hq Hlen;
    simpl in *; try lia; try discriminate.
  destruct q as [|q]; [reflexivity|].
  unfold zip_with in *. simpl. apply IH; lia.
Qed.

Lemma Forall2_nth {A B : Type} (P : A -> B -> Prop) (da : A) (db : B)
      (l : list A) (l' : list B) (q : nat) :
  Forall2 P l l' -> q < length l -> P (nth q l da) (nth q l' db).
Proof.
  intros HP. revert q. induction HP as [|x y l l' Hxy _ IH]; intros q Hq.
  - simpl in Hq. lia.
  - destruct q as [|q]; [exact Hxy|]. simpl. apply IH. simpl in Hq. lia.
Qed.

(** X6.  Every row [sub_sampling] returns is gathered from one query of
    the batch, row [r] from query [r / bucket_size], and an object keeps
    its label: there is a list [i] of [max_number_of_objects] positions of
    that query such that the row of objects and the row of labels are the
    objects and the labels of the query at these positions. *)
Theorem sub_sampling_keeps_objects_with_their_labels
        (G : Type) (RS : RandomState G) (RSL : @RandomStateLaws G RS)
        (self : FETA.FETAChoiceFunction) (X : Array3) (Y : list (list Z))
        (g : G) (n N d : nat) :
  has_shape3 n N d X ->
  length Y = n ->
  Forall (fun y => length y = N /\ binary y /\ has_chosen y) Y ->
  1 <= n ->
  FETA.n_objects_fit_ self = N ->
  1 <= FETA.max_number_of_objects self ->
  FETA.max_number_of_objects self < N ->
  let n_objects := FETA.max_number_of_objects self in
  let bucket_size := N / n_objects in
  exists X_train Y_train g',
    sub_sampling self X Y g = (Ok (X_train, Y_train), g') /\
    forall r, r < n * bucket_size ->
      exists i,
        length i = n_objects /\
        Forall (fun j => j < N) i /\
        nth r (data3 X_train) []
        = map (fun j => nth j (nth (r / bucket_size) (data3 X) []) []) i /\
        nth r Y_train []
        = map (fun j => nth j (nth (r / bucket_size) Y []) 0%Z) i.
Proof.
  intros HX HlY HY Hn Hfit HM HMN n_objects bucket_size.
  destruct (@sub_sampling_rows G RS RSL self X Y g n N d
              HX HlY HY Hn Hfit HM HMN) as (idxs & g' & Hrun & Hrows).
  fold n_objects bucket_size in Hrows.
  destruct HX as (HsX & HlX & HrX).
  assert (Hlen_idxs : length idxs = n)
    by (rewrite <- (Forall2_length Hrows); exact HlY).
  assert (Hbpos : 0 < bucket_size).
  { unfold bucket_size. apply Nat.div_str_pos. unfold n_objects. lia. }
  assert (Hblocks : forall (A : Type) (dflt : A) (L : list (list A)),
             length L = n ->
             Forall (fun blk => length blk = bucket_size)
                    (zip_with (gather dflt) L idxs) /\
             length (zip_with (gather dflt) L idxs) = n).
  { intros A dflt L HL. split.
    - apply Forall_forall. intros blk Hblk.
      apply (In_nth _ _ []) in Hblk as (q & Hq & <-).
      rewrite NpProofs.zip_with_length, HL, Hlen_idxs, Nat.min_id in Hq.
      rewrite nth_zip_with_gather by lia. rewrite gather_length.
      assert (Hq' : q < length Y) by lia.
      now destruct (@Forall2_nth _ _ _ [] [] Y idxs q Hrows Hq') as [Hb _].
    - rewrite NpProofs.zip_with_length, HL, Hlen_idxs. apply Nat.min_id. }
  eexists. eexists. exists g'. split; [exact Hrun|].
  intros r Hr. cbn [data3].
  assert (Hq : r / bucket_size < n).
  { apply Nat.Div0.div_lt_upper_bound. lia. }
  set (q := r / bucket_size) in *.
  assert (Hq' : q < length Y) by lia.
  destruct (@Forall2_nth _ _ _ [] [] Y idxs q Hrows Hq') as [Hb Hidx].
  assert (Hrow : In (nth (r mod bucket_size) (nth q idxs []) [])
                    (nth q idxs [])).
  { apply nth_In. rewrite Hb. apply Nat.mod_upper_bound. lia. }
  rewrite Forall_forall in Hidx.
  destruct (Hidx _ Hrow) as (Hli & Hrange & _).
  assert (HyN : length (nth q Y []) = N).
  { rewrite Forall_forall in HY. apply HY, nth_In. lia. }
  exists (nth (r mod bucket_size) (nth q idxs []) []).
  split; [exact Hli|]. split; [now rewrite <- HyN|].
  destruct (Hblocks _ (@nil R) (data3 X) HlX) as [HbX HlXb].
  destruct (Hblocks _ 0%Z Y HlY) as [HbY HlYb].
  split.
  - rewrite (@nth_concat_uniform _ [] bucket_size) by (rewrite ?HlXb; auto).
    fold q. rewrite nth_zip_with_gather by lia. unfold gather.
    rewrite (nth_indep _ [] (map (fun j => nth j (nth q (data3 X) []) []) []))
      by (rewrite length_map, Hb; apply Nat.mod_upper_bound; lia).
    now rewrite (map_nth (map (fun j => nth j (nth q (data3 X) []) []))).
  - rewrite (@nth_concat_uniform _ [] bucket_size) by (rewrite ?HlYb; auto).
    fold q. rewrite nth_zip_with_gather by lia. unfold gather.
    rewrite (nth_indep _ [] (map (fun j => nth j (nth q Y []) 0%Z) []))
      by (rewrite length_map, Hb; apply Nat.mod_upper_bound; lia).
    now rewrite (map_nth (map (fun j => nth j (nth q Y []) 0%Z))).
Qed.

Lemma sub_sampling_keeps_objects_with_their_labels_witness :
  exists X_train Y_train g',
    @sub_sampling nat Examples.counting_generator
                  Examples.feta_large Examples.X241 Examples.Y24 0
    = (Ok (X_train, Y_train), g') /\
    exists i,
      length i = 2 /\
      nth 3 (data3 X_train) []
      = map (fun j => nth j (nth 1 (data3 Examples.X241) []) []) i /\
      nth 3 Y_train [] = map (fun j => nth j (nth 1 Examples.Y24 []) 0%Z) i.
Proof.
  destruct (@sub_sampling_keeps_objects_with_their_labels
              nat Examples.counting_generator counting_generator_laws
              Examples.feta_large Examples.X241 Examples.Y24 0 2 4 1)
    as (X_train & Y_train & g' & Hrun & Hrows).
  - split; [reflexivity|]. split; [reflexivity|]. repeat constructor.
  - reflexivity.
  - unfold binary, has_chosen, Examples.Y24.
    repeat (apply Forall_cons || apply Forall_nil || split); simpl; auto 6.
  - lia.
  - reflexivity.
  - simpl; lia.
  - simpl; lia.
  - exists X_train, Y_train, g'. split; [exact Hrun|].
    destruct (Hrows 3) as (i & Hlen & _ & HXrow & HYrow); [simpl; lia|].
    exists i. split; [exact Hlen|]. split; [exact HXrow | exact HYrow].
Defined.

(** *** A query without a chosen object *)

Lemma count_eq_absent (v : Z) (y : list Z) : ~ In v y -> count_eq v y = 0.
Proof.
  unfold count_eq. induction y as [|l y IH]; intros Hnin; [reflexivity|].
  simpl. destruct (Z.eqb_spec l v) as [->|_].
  - exfalso. apply Hnin. now left.
  - apply IH. intros H. apply Hnin. now right.
Qed.

Lemma sample_query_without_chosen
      (G : Type) (RS : RandomState G) (n_objects bucket_size : nat)
      (y : list Z) (g : G) :
  ~ In 1%Z y ->
  sample_query n_objects bucket_size y g = (Raise ZeroDivisionError, g).
Proof.
  intros Hnone. unfold sample_query, Py.bind, Py.lift, uniform.
  rewrite where_eq_length, (@count_eq_absent 1%Z y Hnone). reflexivity.
Qed.

Lemma sample_batch_without_chosen
      (G : Type) (RS : RandomState G) (RSL : @RandomStateLaws G RS)
      (n_objects bucket_size N : nat)
      (before after : list (list (list R) * list Z))
      (x : list (list R)) (y : list Z) :
  1 <= n_objects -> n_objects <= N ->
  Forall (fun xy => length (fst xy) = N /\ length (snd xy) = N /\
                    binary (snd xy) /\ has_chosen (snd xy)) before ->
  ~ In 1%Z y ->
  forall (X_train : list (list (list R))) (Y_train : list (list Z)) (g : G),
    fst (sample_batch n_objects bucket_size (before ++ (x, y) :: after)
                      X_train Y_train g)
    = Raise ZeroDivisionError.
Proof.
  intros HM HN Hbefore Hnone.
  induction Hbefore as [|[x0 y0] before (Hx & Hy & Hbin & Hch) _ IH];
    intros X_train Y_train g; simpl in *.
  - unfold Py.bind.
    now rewrite (@sample_query_without_chosen G RS n_objects bucket_size y g Hnone).
  - destruct (@sample_query_rows G RS RSL n_objects bucket_size y0 g Hbin Hch HM)
      as (idx & g1 & Eidx & Hidx); [lia|].
    pose proof (@drawn_rows_in_range n_objects bucket_size N y0 idx Hy Hidx)
      as Hrange.
    assert (Ex : take2 x0 idx = Ok (gather [] x0 idx)).
    { apply take2_ok. now rewrite Hx. }
    assert (Ey : take2 y0 idx = Ok (gather 0%Z y0 idx)).
    { apply take2_ok. now rewrite Hy. }
    erewrite bind_ok by exact Eidx.
    destruct (length X_train =? 0).
    + erewrite bind_ok by (unfold Py.lift; now rewrite Ex).
      erewrite bind_ok by (unfold Py.lift; now rewrite Ey).
      apply IH.
    + erewrite bind_ok by (unfold Py.lift; now rewrite Ey).
      erewrite bind_ok by (unfold Py.lift; now rewrite Ex).
      apply IH.
Qed.

Lemma combine_split_at {A B : Type} (X : list A) (before : list B) (y : B)
      (after : list B) (d : A) :
  length before < length X ->
  combine X (before ++ y :: after)
  = combine (firstn (length before) X) before
    ++ (nth (length before) X d, y)
    :: combine (skipn (S (length before)) X) after.
Proof.
  revert X. induction before as [|b before IH]; intros [|x X] Hlen;
    simpl in *; try lia; [reflexivity|].
  f_equal. apply IH. lia.
Qed.

(** X7.  One query without a chosen object makes [sub_sampling] fail for
    the whole batch: when the queries before it are well labelled, the call
    raises ZeroDivisionError (from [1 / len(ind_1)]), whatever follows. *)
Theorem sub_sampling_fails_without_a_chosen_object
        (G : Type) (RS : RandomState G) (RSL : @RandomStateLaws G RS)
        (self : FETA.FETAChoiceFunction) (X : Array3)
        (Y_before Y_after : list (list Z)) (y : list Z)
        (g : G) (n N d : nat) :
  has_shape3 n N d X ->
  length Y_before < n ->
  Forall (fun y => length y = N /\ binary y /\ has_chosen y) Y_before ->
  ~ In 1%Z y ->
  FETA.n_objects_fit_ self = N ->
  1 <= FETA.max_number_of_objects self ->
  FETA.max_number_of_objects self < N ->
  fst (sub_sampling self X (Y_before ++ y :: Y_after) g)
  = Raise ZeroDivisionError.
Proof.
  intros (HsX & HlX & HrX) Hlen HY Hnone Hfit HM HMN.
  unfold sub_sampling. rewrite Hfit.
  destruct (Nat.leb_spec N (FETA.max_number_of_objects self)) as [Hle|_]; [lia|].
  rewrite HsX.
  destruct (Nat.eqb_spec (FETA.max_number_of_objects self) 0) as [H0|_]; [lia|].
  rewrite (@combine_split_at _ _ (data3 X) Y_before y Y_after [])
    by (rewrite HlX; exact Hlen).
  assert (Hbefore : Forall (fun xy => length (fst xy) = N /\
                                      length (snd xy) = N /\
                                      binary (snd xy) /\ has_chosen (snd xy))
                           (combine (firstn (length Y_before) (data3 X)) Y_before)).
  { apply Forall_forall. intros [x0 y0] Hin. simpl.
    pose proof (in_combine_l _ _ _ _ Hin) as Hx.
    pose proof (in_combine_r _ _ _ _ Hin) as Hy0.
    apply In_firstn in Hx.
    rewrite Forall_forall in HrX, HY.
    destruct (HrX x0 Hx) as [Hxl _]. destruct (HY y0 Hy0) as (Hyl & Hb & Hc).
    auto. }
  pose proof (@sample_batch_without_chosen G RS RSL
                (FETA.max_number_of_objects self)
                (N / FETA.max_number_of_objects self) N _
                (combine (skipn (S (length Y_before)) (data3 X)) Y_after)
                (nth (length Y_before) (data3 X) []) y
                HM (Nat.lt_le_incl _ _ HMN) Hbefore Hnone [] [] g) as Hfail.
  unfold Py.bind.
  match type of Hfail with
  | fst ?run = _ => destruct run as [[r|e] g']
  end; simpl in Hfail; [discriminate|].
  simpl. injection Hfail as ->. reflexivity.
Qed.

Lemma sub_sampling_fails_without_a_chosen_object_witness :
  fst (@sub_sampling nat Examples.counting_generator
                     Examples.feta_large Examples.X241
                     ([[0; 1; 0; 0]%Z] ++ [0; 0; 0; 0]%Z :: []) 0)
  = Raise ZeroDivisionError.
Proof.
  apply (@sub_sampling_fails_without_a_chosen_object
           nat Examples.counting_generator counting_generator_laws
           Examples.feta_large Examples.X241
           [[0; 1; 0; 0]%Z] [] [0; 0; 0; 0]%Z 0 2 4 1).
  - split; [reflexivity|]. split; [reflexivity|]. repeat constructor.
  - simpl; lia.
  - unfold binary, has_chosen.
    repeat (apply Forall_cons || apply Forall_nil || split); simpl; auto 6.
  - simpl. intuition discriminate.
  - reflexivity.
  - simpl; lia.
  - simpl; lia.
Defined.

(** ** FATELinearCore: an uninterrupted fit, and fits that fail *)

Module FATELinearScheduleProofs.
Import Np FATELinearFit FATELinearFitProofs FATELinearSchedule.

Lemma chunks_concat {A : Type} (b c : nat) (l : list A) :
  length l <= c * b ->
  concat (map (fun start => firstn b (skipn start l))
              (map (fun k => k * b) (seq 0 c))) = l.
Proof.
  revert l. induction c as [|c IH]; intros l Hl.
  - destruct l; [reflexivity|simpl in Hl; lia].
  - simpl seq. rewrite <- seq_shift. rewrite !map_map. simpl.
    transitivity (firstn b l ++ skipn b l); [|apply firstn_skipn].
    f_equal.
    assert (Hrest : length (skipn b l) <= c * b)
      by (rewrite length_skipn; lia).
    specialize (IH (skipn b l) Hrest). rewrite map_map in IH.
    etransitivity; [|exact IH].
    rewrite !map_map. f_equal. apply map_ext. intros k.
    rewrite skipn_skipn. f_equal. f_equal. lia.
Qed.

Lemma ceil_covers (n b : nat) : 0 < b -> n <= (n + b - 1) / b * b.
Proof.
  intros Hb.
  pose proof (Nat.div_mod_eq (n + b - 1) b) as E.
  pose proof (Nat.mod_upper_bound (n + b - 1) b ltac:(lia)) as U.
  nia.
Qed.

Lemma start_below (n b k : nat) :
  0 < b -> k < (n + b - 1) / b -> k * b < n.
Proof.
  intros Hb Hk.
  pose proof (Nat.div_mod_eq (n + b - 1) b) as E.
  pose proof (Nat.mod_upper_bound (n + b - 1) b ltac:(lia)) as U.
  nia.
Qed.

Lemma slice_data {A : Type} (b n start : nat) (l : list A) :
  length l = n ->
  firstn (Nat.min (start + b) n - start) (skipn start l)
  = firstn b (skipn start l).
Proof.
  intros Hl.
  destruct (Nat.le_ge_cases (start + b) n) as [H|H].
  - rewrite Nat.min_l by exact H. f_equal. lia.
  - rewrite Nat.min_r by exact H.
    rewrite !firstn_all2; try reflexivity; rewrite length_skipn; lia.
Qed.


Lemma Forall_slice {A : Type} (P : A -> Prop) (k start : nat) (l : list A) :
  Forall P l -> Forall P (firstn k (skipn start l)).
Proof.
  rewrite !Forall_forall. intros H x Hx.
  apply H. eapply SubSamplingProofs.In_skipn, SubSamplingProofs.In_firstn, Hx.
Qed.

Section Training.
Variables (learning_rate drop : R) (batch_size epochs_drop : nat).
Variable minimize : R -> TFVariables -> Array3 -> Array2 -> TFVariables.
Variable loss_ : TFVariables -> Array3 -> Array2 -> list R.
Variable initial_variables : TFVariables.
Variable _pre_fit : Py.M Fitting unit.

Let rate := rate_of_epoch learning_rate drop epochs_drop.

Lemma range_step_starts (n : nat) :
  0 < batch_size -> range_step n batch_size = Ok (starts batch_size n).
Proof.
  intros Hb. unfold range_step, starts.
  destruct (Nat.eqb_spec batch_size 0); [lia|reflexivity].
Qed.

(** What the statements of the loops leave alone. *)
Lemma train_batch_quiet (X : Array3) (Y : Array2) (n v start : nat)
      (s : Fitting) :
  sigint s = None ->
  exists s',
    train_batch batch_size minimize X Y n v start s = (Ok tt, s') /\
    session s' = descend batch_size minimize (optimizer_lr s) X Y n
                         (session s) start /\
    optimizer_lr s' = optimizer_lr s /\
    current_lr_ s' = current_lr_ s /\
    fitted_weights s' = fitted_weights s /\
    logger s' = logger s /\
    epoch s' = epoch s /\
    sigint s' = None.
Proof.
  intros Hs. unfold train_batch, Py.bind.
  rewrite (checkpoint_quiet s Hs), (checkpoint_quiet s Hs).
  unfold run_optimizer, Py.modify.
  rewrite checkpoint_quiet by exact Hs.
  unfold Py.when, print, Py.modify, Py.ret.
  destruct (v =? 1); eexists; (split; [reflexivity|]);
    repeat split; try reflexivity; exact Hs.
Qed.

Lemma train_batches_quiet (X : Array3) (Y : Array2) (n v : nat)
      (l : list nat) (s : Fitting) :
  sigint s = None ->
  exists s',
    Py.for_each l (train_batch batch_size minimize X Y n v) s = (Ok tt, s') /\
    session s' = fold_left (descend batch_size minimize (optimizer_lr s) X Y n)
                           l (session s) /\
    optimizer_lr s' = optimizer_lr s /\
    current_lr_ s' = current_lr_ s /\
    fitted_weights s' = fitted_weights s /\
    logger s' = logger s /\
    epoch s' = epoch s /\
    sigint s' = None.
Proof.
  revert s. induction l as [|start l IH]; intros s Hs.
  - exists s. repeat split; try reflexivity; exact Hs.
  - destruct (@train_batch_quiet X Y n v start s Hs)
      as (s1 & E1 & Hse & Hlr & Hcur & Hw & Hlog & Hep & Hs1).
    destruct (IH s1 Hs1) as (s2 & E2 & Hse2 & Hlr2 & Hcur2 & Hw2 & Hlog2 & Hep2 & Hs2).
    exists s2. simpl. unfold Py.bind. rewrite E1.
    split; [exact E2|].
    rewrite Hse2, Hlr2, Hcur2, Hw2, Hlog2, Hep2, Hse, Hlr.
    repeat split; assumption.
Qed.

Lemma run_loss_then (X : Array3) (Y : Array2) (A : Type)
      (k : list R -> Py.M Fitting A) (s : Fitting) :
  Py.bind (run_loss loss_ X Y) k s = k (loss_ (session s) X Y) s.
Proof. reflexivity. Qed.

Lemma train_epoch_until_decay (X : Array3) (Y : Array2) (n v e : nat)
      (s : Fitting) :
  0 < batch_size -> sigint s = None ->
  exists s',
    train_epoch learning_rate drop batch_size epochs_drop minimize loss_
                X Y n v e s
    = step_decay learning_rate drop epochs_drop e s' /\
    session s' = sweep batch_size minimize (optimizer_lr s) X Y n (session s) /\
    optimizer_lr s' = optimizer_lr s /\
    current_lr_ s' = current_lr_ s /\
    fitted_weights s' = fitted_weights s /\
    length (logger s')
    = length (logger s) + (if (e + 1) mod 100 =? 0 then 1 else 0) /\
    sigint s' = None.
Proof.
  intros Hb Hs. unfold train_epoch.
  unfold Py.bind at 1. rewrite (checkpoint_quiet s Hs).
  unfold Py.bind at 1. unfold Py.modify at 1.
  unfold Py.bind at 1. unfold Py.lift. rewrite (@range_step_starts n Hb).
  assert (Hs0 : sigint (set_epoch e s) = None) by exact Hs.
  destruct (@train_batches_quiet X Y n v (starts batch_size n) (set_epoch e s) Hs0)
    as (s1 & E1 & Hse & Hlr & Hcur & Hw & Hlog & Hep & Hs1).
  unfold Py.bind at 1. rewrite E1.
  unfold Py.bind at 1. rewrite (checkpoint_quiet s1 Hs1).
  (* the cost printed for verbose = 1 *)
  assert (Hprint : exists s2,
    Py.when (v =? 1)
      (Py.bind (run_loss loss_ X Y) (fun c =>
         Py.bind checkpoint (fun _ =>
           print (PrintEpochCost (e + 1) (Rmean c))))) s1 = (Ok tt, s2) /\
    session s2 = session s1 /\ optimizer_lr s2 = optimizer_lr s1 /\
    current_lr_ s2 = current_lr_ s1 /\ fitted_weights s2 = fitted_weights s1 /\
    logger s2 = logger s1 /\ sigint s2 = None).
  { unfold Py.when. destruct (v =? 1).
    - rewrite run_loss_then. unfold Py.bind.
      rewrite (checkpoint_quiet s1 Hs1). unfold print, Py.modify.
      eexists. split; [reflexivity|]. repeat split; try reflexivity. exact Hs1.
    - exists s1. repeat split; try reflexivity. exact Hs1. }
  destruct Hprint as (s2 & E2 & Hse2 & Hlr2 & Hcur2 & Hw2 & Hlog2 & Hs2).
  unfold Py.bind at 1. rewrite E2.
  unfold Py.bind at 1. rewrite (checkpoint_quiet s2 Hs2).
  (* the cost logged every hundredth epoch *)
  assert (Hlogged : exists s3,
    Py.when ((e + 1) mod 100 =? 0)
      (Py.bind (run_loss loss_ X Y) (fun c =>
         Py.bind checkpoint (fun _ =>
           logger_info (LogEpochCost (e + 1) (Rmean c))))) s2 = (Ok tt, s3) /\
    session s3 = session s2 /\ optimizer_lr s3 = optimizer_lr s2 /\
    current_lr_ s3 = current_lr_ s2 /\ fitted_weights s3 = fitted_weights s2 /\
    length (logger s3)
    = length (logger s2) + (if (e + 1) mod 100 =? 0 then 1 else 0) /\
    sigint s3 = None).
  { unfold Py.when. destruct ((e + 1) mod 100 =? 0).
    - rewrite run_loss_then. unfold Py.bind.
      rewrite (checkpoint_quiet s2 Hs2). unfold logger_info, Py.modify.
      eexists. split; [reflexivity|]. repeat split; try reflexivity.
      + cbn [logger add_log]. rewrite length_app. reflexivity.
      + exact Hs2.
    - exists s2. repeat split; try reflexivity; [lia | exact Hs2]. }
  destruct Hlogged as (s3 & E3 & Hse3 & Hlr3 & Hcur3 & Hw3 & Hlog3 & Hs3).
  unfold Py.bind at 1. rewrite E3.
  unfold Py.bind at 1. rewrite (checkpoint_quiet s3 Hs3).
  exists s3. split; [reflexivity|].
  rewrite Hse3, Hse2, Hse, Hlr3, Hlr2, Hlr, Hcur3, Hcur2, Hcur,
          Hw3, Hw2, Hw, Hlog3, Hlog2, Hlog.
  repeat split; try reflexivity. exact Hs3.
Qed.

Lemma train_epoch_quiet (X : Array3) (Y : Array2) (n v e : nat) (s : Fitting) :
  0 < batch_size -> 0 < epochs_drop -> sigint s = None ->
  exists s',
    train_epoch learning_rate drop batch_size epochs_drop minimize loss_
                X Y n v e s = (Ok tt, s') /\
    session s' = sweep batch_size minimize (optimizer_lr s) X Y n (session s) /\
    optimizer_lr s' = rate (S e) /\
    current_lr_ s' = Some (rate (S e)) /\
    fitted_weights s' = fitted_weights s /\
    length (logger s')
    = length (logger s) + (if (e + 1) mod 100 =? 0 then 1 else 0) /\
    sigint s' = None.
Proof.
  intros Hb Hd Hs.
  destruct (@train_epoch_until_decay X Y n v e s Hb Hs)
    as (s3 & E & Hse & Hlr & Hcur & Hw & Hlog & Hs3).
  rewrite E. unfold step_decay.
  destruct (Nat.eqb_spec epochs_drop 0) as [Hz|_]; [lia|].
  unfold Py.modify. eexists. split; [reflexivity|].
  cbn [session optimizer_lr current_lr_ fitted_weights logger sigint
       set_optimizer].
  repeat split; try assumption; reflexivity.
Qed.

Lemma div_100_succ (e : nat) :
  (e + 1) / 100 = e / 100 + (if (e + 1) mod 100 =? 0 then 1 else 0).
Proof.
  pose proof (Nat.div_mod_eq e 100) as E.
  pose proof (Nat.mod_upper_bound e 100 ltac:(lia)) as U.
  pose proof (Nat.div_mod_eq (e + 1) 100) as E'.
  pose proof (Nat.mod_upper_bound (e + 1) 100 ltac:(lia)) as U'.
  destruct (Nat.eqb_spec ((e + 1) mod 100) 0) as [Hz|Hz]; lia.
Qed.

Lemma training_loop_quiet (X : Array3) (Y : Array2) (n v k a : nat)
      (s : Fitting) :
  0 < batch_size -> 0 < epochs_drop -> sigint s = None ->
  optimizer_lr s = rate a ->
  exists s',
    Py.for_each (seq a k)
      (train_epoch learning_rate drop batch_size epochs_drop minimize loss_
                   X Y n v) s = (Ok tt, s') /\
    session s'
    = fold_left (fun w e => sweep batch_size minimize (rate e) X Y n w)
                (seq a k) (session s) /\
    optimizer_lr s' = rate (a + k) /\
    (1 <= k -> current_lr_ s' = Some (rate (a + k))) /\
    fitted_weights s' = fitted_weights s /\
    length (logger s') + a / 100 = length (logger s) + (a + k) / 100 /\
    sigint s' = None.
Proof.
  intros Hb Hd. revert a s. induction k as [|k IH]; intros a s Hs Hlr.
  - exists s. rewrite Nat.add_0_r.
    repeat split; try reflexivity; try assumption. intros Hk. exfalso; lia.
  - destruct (@train_epoch_quiet X Y n v a s Hb Hd Hs)
      as (s1 & E1 & Hse & Hlr1 & Hcur & Hw & Hlog & Hs1).
    destruct (IH (S a) s1 Hs1 Hlr1)
      as (s2 & E2 & Hse2 & Hlr2 & Hcur2 & Hw2 & Hlog2 & Hs2).
    exists s2. cbn [seq Py.for_each fold_left]. unfold Py.bind. rewrite E1.
    split; [exact E2|].
    replace (a + S k) with (S a + k) by lia.
    rewrite Hse2, Hse, Hlr, Hw2, Hw.
    repeat split; try assumption; try reflexivity.
    + intros _. destruct k as [|k'].
      * destruct (IH (S a) s1 Hs1 Hlr1) as (s2' & E2' & _).
        cbn [seq Py.for_each] in E2. injection E2 as <-.
        rewrite Nat.add_0_r. exact Hcur.
      * apply Hcur2. lia.
    + pose proof (div_100_succ a) as Hd100.
      replace (S a) with (a + 1) in Hlog2 by lia.
      replace (S a + k) with (a + 1 + k) by lia.
      destruct ((a + 1) mod 100 =? 0); lia.
Qed.

Lemma checkpoint_keeps_rate (s s' : Fitting) (r : Result unit) :
  checkpoint s = (r, s') -> optimizer_lr s' = optimizer_lr s.
Proof.
  unfold checkpoint. destruct (sigint s) as [[|k]|]; intros [= _ <-]; reflexivity.
Qed.

Lemma fit_prologue_sets (X : Array3) (s0 s : Fitting) :
  fit_prologue learning_rate initial_variables _pre_fit X s0 = (Ok tt, s) ->
  session s = initial_variables /\ optimizer_lr s = learning_rate.
Proof.
  unfold fit_prologue, Py.bind, Py.modify.
  destruct (checkpoint s0) as [[[]|e1] s1]; [|discriminate].
  destruct (_pre_fit s1) as [[[]|e2] s2]; [|discriminate].
  destruct (checkpoint s2) as [[[]|e3] s3]; [|discriminate].
  destruct (shape3 X) as [[n m] d].
  destruct (checkpoint (set_fit_shape m d s3)) as [[[]|e4] s4]; [|discriminate].
  destruct (checkpoint _) as [[[]|e5] s5] eqn:E5; [|discriminate].
  intros [= <-]. split; [reflexivity|].
  apply checkpoint_keeps_rate in E5. exact E5.
Qed.

End Training.

End FATELinearScheduleProofs.

Import Np FATELinearFit FATELinearFitProofs.
Import FATELinearSchedule FATELinearScheduleProofs.

(** X8.  The batches of an epoch of [_fit_] partition the training set:
    with a positive [batch_size], the slices [X[start:end]] and
    [Y[start:end]] taken at the start positions
    [range(0, n_instances, batch_size)] put end to end are [X] and [Y], and
    every batch holds at least one and at most [batch_size] instances, all
    of the shape of the instances of [X] and [Y]. *)
Theorem fate_linear_batches_cover_the_training_set
        (X : Array3) (Y : Array2) (n m d batch_size : nat) :
  has_shape3 n m d X -> has_shape2 n m Y -> 0 < batch_size ->
  let end_ := fun start => Nat.min (start + batch_size) n in
  exists batch_starts,
    range_step n batch_size = Ok batch_starts /\
    concat (map (fun start => data3 (slice3 start (end_ start) X)) batch_starts)
    = data3 X /\
    concat (map (fun start => data2 (slice2 start (end_ start) Y)) batch_starts)
    = data2 Y /\
    Forall (fun start =>
              exists k, 1 <= k <= batch_size /\
                        has_shape3 k m d (slice3 start (end_ start) X) /\
                        has_shape2 k m (slice2 start (end_ start) Y))
           batch_starts.
Proof.
  intros (HsX & HlX & HrX) (HsY & HlY & HrY) Hb end_.
  exists (starts batch_size n).
  split; [apply range_step_starts; exact Hb|].
  unfold slice3, slice2, end_. rewrite HsX, HsY. cbn [data3 data2].
  split; [|split].
  - erewrite map_ext; [|intros start; apply (@slice_data _ batch_size n start _ HlX)].
    apply chunks_concat. rewrite HlX. apply ceil_covers, Hb.
  - erewrite map_ext; [|intros start; apply (@slice_data _ batch_size n start _ HlY)].
    apply chunks_concat. rewrite HlY. apply ceil_covers, Hb.
  - apply Forall_forall. intros start Hin.
    unfold starts in Hin. apply in_map_iff in Hin.
    destruct Hin as (k & <- & Hk). apply in_seq in Hk.
    assert (Hlt : k * batch_size < n)
      by (apply (@start_below n batch_size k Hb); lia).
    exists (Nat.min (k * batch_size + batch_size) n - k * batch_size).
    split; [lia|]. split.
    + split; [|split].
      * cbn [shape3]. f_equal. f_equal. lia.
      * cbn [data3]. rewrite length_firstn, length_skipn. lia.
      * cbn [data3]. apply Forall_slice, HrX.
    + split; [|split].
      * cbn [shape2]. f_equal. lia.
      * cbn [data2]. rewrite length_firstn, length_skipn. lia.
      * cbn [data2]. apply Forall_slice, HrY.
Qed.

Lemma fate_linear_batches_cover_the_training_set_witness :
  exists batch_starts,
    range_step 2 1 = Ok batch_starts /\
    concat (map (fun start =>
                   data3 (slice3 start (Nat.min (start + 1) 2) Examples.X221))
                batch_starts)
    = data3 Examples.X221.
Proof.
  assert (HY : has_shape2 2 2 Examples.Y22).
  { split; [reflexivity|]. split; [reflexivity|]. repeat constructor. }
  destruct (@fate_linear_batches_cover_the_training_set
              Examples.X221 Examples.Y22 2 2 1 1 X221_shape HY
              (Nat.lt_0_succ 0))
    as (batch_starts & Hrange & HX & _).
  exists batch_starts. split; [exact Hrange | exact HX].
Defined.

(** X9.  An uninterrupted [fit] trains by [epochs] passes over the batches
    in order, epoch [e] with the learning rate
    [learning_rate * drop ** floor(e / epochs_drop)]: the weights it stores
    are the initial variables after these passes, whatever [verbose] is;
    [current_lr_] ends as the rate [step_decay] computed after the last
    epoch; and the logger receives one record for every hundredth epoch
    and one for the completion. *)
Theorem fate_linear_fit_trains_with_decaying_rate
        (learning_rate drop : R) (batch_size epochs_drop : nat)
        (minimize : R -> TFVariables -> Array3 -> Array2 -> TFVariables)
        (loss_ : TFVariables -> Array3 -> Array2 -> list R)
        (initial_variables : TFVariables) (_pre_fit : Py.M Fitting unit)
        (X : Array3) (Y : Array2) (epochs verbose : nat)
        (s0 s : Fitting) :
  0 < batch_size -> 0 < epochs_drop ->
  fit_prologue learning_rate initial_variables _pre_fit X s0 = (Ok tt, s) ->
  sigint s = None ->
  exists s',
    fit learning_rate drop batch_size epochs_drop minimize loss_
        initial_variables _pre_fit X Y epochs verbose s0 = (Ok tt, s') /\
    fitted_weights s'
    = Some (trained learning_rate drop batch_size epochs_drop minimize
                    X Y (fst (fst (shape3 X))) epochs initial_variables) /\
    (1 <= epochs ->
     current_lr_ s'
     = Some (rate_of_epoch learning_rate drop epochs_drop epochs)) /\
    length (logger s') = length (logger s) + epochs / 100 + 1.
Proof.
  intros Hb Hd Hpro Hs.
  destruct (@fit_prologue_sets learning_rate initial_variables _pre_fit
              X s0 s Hpro) as [Hsession Hrate].
  assert (Hrate0 : optimizer_lr (clear_epoch s)
                   = rate_of_epoch learning_rate drop epochs_drop 0).
  { cbn [clear_epoch optimizer_lr]. rewrite Hrate. unfold rate_of_epoch.
    rewrite Nat.div_small by exact Hd. cbn [pow]. now rewrite Rmult_1_r. }
  destruct (@training_loop_quiet learning_rate drop batch_size epochs_drop
              minimize loss_ X Y (fst (fst (shape3 X))) verbose epochs 0
              (clear_epoch s) Hb Hd Hs Hrate0)
    as (s1 & Eloop & Hse & _ & Hcur & _ & Hlog & Hs1).
  exists (set_fitted_weights (session s1)
            (add_log (LogFittingCompleted epochs
                        (Rmean (loss_ (session s1) X Y))) s1)).
  split; [|split; [|split]].
  - unfold fit, Py.bind. rewrite Hpro.
    unfold _fit_, Py.bind, Py.modify, Py.try_except, training_loop, range.
    rewrite Eloop. apply fit_epilogue_spec. exact Hs1.
  - cbn [fitted_weights set_fitted_weights]. rewrite Hse.
    cbn [session clear_epoch]. rewrite Hsession. reflexivity.
  - intros Hepochs. cbn [current_lr_ set_fitted_weights add_log].
    apply Hcur. exact Hepochs.
  - cbn [logger set_fitted_weights add_log]. rewrite length_app.
    cbn [length]. rewrite Nat.div_small in Hlog by lia.
    cbn [logger clear_epoch Nat.add] in Hlog. lia.
Qed.

Lemma fate_linear_fit_trains_with_decaying_rate_witness :
  exists s',
    fit 1%R 1%R 1 300 Examples.shift_bias Examples.bias_loss
        Examples.variables0 (Py.ret tt) Examples.X221 Examples.Y22 3 0
        (Examples.unfit None) = (Ok tt, s') /\
    fitted_weights s'
    = Some (trained 1%R 1%R 1 300 Examples.shift_bias
                    Examples.X221 Examples.Y22 2 3 Examples.variables0).
Proof.
  destruct (@fate_linear_fit_trains_with_decaying_rate
              1%R 1%R 1 300 Examples.shift_bias Examples.bias_loss
              Examples.variables0 (Py.ret tt) Examples.X221 Examples.Y22 3 0
              (Examples.unfit None)
              (snd (fit_prologue 1%R Examples.variables0 (Py.ret tt)
                                 Examples.X221 (Examples.unfit None)))
              (Nat.lt_0_succ 0) (Nat.lt_0_succ 299) eq_refl eq_refl)
    as (s' & Hfit & Hw & _).
  exists s'. split; [exact Hfit | exact Hw].
Defined.

(** X10.  With [batch_size = 0] a [fit] of at least one epoch fails:
    [range(0, n_instances, 0)] raises ValueError in the first epoch, which
    [_fit_] does not catch; no optimizer step has run and no fitted weights
    are stored. *)
Theorem fate_linear_fit_rejects_batch_size_zero
        (learning_rate drop : R) (epochs_drop : nat)
        (minimize : R -> TFVariables -> Array3 -> Array2 -> TFVariables)
        (loss_ : TFVariables -> Array3 -> Array2 -> list R)
        (initial_variables : TFVariables) (_pre_fit : Py.M Fitting unit)
        (X : Array3) (Y : Array2) (epochs verbose : nat)
        (s0 s : Fitting) :
  1 <= epochs ->
  fit_prologue learning_rate initial_variables _pre_fit X s0 = (Ok tt, s) ->
  sigint s = None ->
  exists s',
    fit learning_rate drop 0 epochs_drop minimize loss_
        initial_variables _pre_fit X Y epochs verbose s0
    = (Raise ValueError, s') /\
    session s' = initial_variables /\
    fitted_weights s' = fitted_weights s.
Proof.
  intros Hepochs Hpro Hs.
  destruct (@fit_prologue_sets learning_rate initial_variables _pre_fit
              X s0 s Hpro) as [Hsession _].
  exists (set_epoch 0 (clear_epoch s)).
  split; [|split; [exact Hsession | reflexivity]].
  unfold fit, Py.bind. rewrite Hpro.
  unfold _fit_, Py.bind, Py.modify, Py.try_except, training_loop, range.
  destruct epochs as [|k]; [lia|].
  cbn [seq Py.for_each]. unfold Py.bind, train_epoch, Py.bind.
  rewrite (checkpoint_quiet (clear_epoch s)) by exact Hs.
  reflexivity.
Qed.

Lemma fate_linear_fit_rejects_batch_size_zero_witness :
  exists s',
    fit 1%R 1%R 0 300 Examples.shift_bias Examples.bias_loss
        Examples.variables0 (Py.ret tt) Examples.X221 Examples.Y22 3 0
        (Examples.unfit None) = (Raise ValueError, s') /\
    fitted_weights s' = None.
Proof.
  destruct (@fate_linear_fit_rejects_batch_size_zero
              1%R 1%R 300 Examples.shift_bias Examples.bias_loss
              Examples.variables0 (Py.ret tt) Examples.X221 Examples.Y22 3 0
              (Examples.unfit None)
              (snd (fit_prologue 1%R Examples.variables0 (Py.ret tt)
                                 Examples.X221 (Examples.unfit None)))
              (le_S _ _ (le_S _ _ (le_n 1)))
              eq_refl eq_refl)
    as (s' & Hfit & _ & Hw).
  exists s'. split; [exact Hfit | exact Hw].
Defined.

(** X11.  With [epochs_drop = 0] a [fit] of at least one epoch fails, but
    only after the first epoch has trained on every batch:
    [step_decay] then divides by zero, [_fit_] does not catch the
    ZeroDivisionError, and [fit] stores no fitted weights, the session
    being left one pass at [learning_rate] away from the initial
    variables. *)
Theorem fate_linear_fit_fails_when_epochs_drop_is_zero
        (learning_rate drop : R) (batch_size : nat)
        (minimize : R -> TFVariables -> Array3 -> Array2 -> TFVariables)
        (loss_ : TFVariables -> Array3 -> Array2 -> list R)
        (initial_variables : TFVariables) (_pre_fit : Py.M Fitting unit)
        (X : Array3) (Y : Array2) (epochs verbose : nat)
        (s0 s : Fitting) :
  0 < batch_size -> 1 <= epochs ->
  fit_prologue learning_rate initial_variables _pre_fit X s0 = (Ok tt, s) ->
  sigint s = None ->
  exists s',
    fit learning_rate drop batch_size 0 minimize loss_
        initial_variables _pre_fit X Y epochs verbose s0
    = (Raise ZeroDivisionError, s') /\
    session s' = sweep batch_size minimize learning_rate
                       X Y (fst (fst (shape3 X))) initial_variables /\
    fitted_weights s' = fitted_weights s /\
    current_lr_ s' = current_lr_ s.
Proof.
  intros Hb Hepochs Hpro Hs.
  destruct (@fit_prologue_sets learning_rate initial_variables _pre_fit
              X s0 s Hpro) as [Hsession Hrate].
  destruct (@train_epoch_until_decay learning_rate drop batch_size 0
              minimize loss_ X Y (fst (fst (shape3 X))) verbose 0
              (clear_epoch s) Hb Hs)
    as (s1 & E & Hse & _ & Hcur & Hw & _ & _).
  exists s1. split; [|split; [|split]].
  - unfold fit, Py.bind. rewrite Hpro.
    unfold _fit_, Py.bind, Py.modify, Py.try_except, training_loop, range.
    destruct epochs as [|k]; [lia|].
    cbn [seq Py.for_each]. unfold Py.bind. rewrite E. reflexivity.
  - rewrite Hse. cbn [optimizer_lr session clear_epoch].
    now rewrite Hrate, Hsession.
  - exact Hw.
  - exact Hcur.
Qed.

Lemma fate_linear_fit_fails_when_epochs_drop_is_zero_witness :
  exists s',
    fit 1%R 1%R 1 0 Examples.shift_bias Examples.bias_loss
        Examples.variables0 (Py.ret tt) Examples.X221 Examples.Y22 3 0
        (Examples.unfit None) = (Raise ZeroDivisionError, s') /\
    fitted_weights s' = None.
Proof.
  destruct (@fate_linear_fit_fails_when_epochs_drop_is_zero
              1%R 1%R 1 Examples.shift_bias Examples.bias_loss
              Examples.variables0 (Py.ret tt) Examples.X221 Examples.Y22 3 0
              (Examples.unfit None)
              (snd (fit_prologue 1%R Examples.variables0 (Py.ret tt)
                                 Examples.X221 (Examples.unfit None)))
              (Nat.lt_0_succ 0) (le_S _ _ (le_S _ _ (le_n 1)))
              eq_refl eq_refl)
    as (s' & Hfit & _ & Hw & _).
  exists s'. split; [exact Hfit | exact Hw].
Defined.

(** X12.  An interrupt that arrives inside the [try] of [_fit_] before the
    first epoch has bound [epoch] is not survived: the handler logs
    "Interrupted" and fails on [epoch + 1] with UnboundLocalError, which
    leaves [fit] without its weights stored. *)
Theorem fate_linear_fit_interrupted_before_first_epoch
        (learning_rate drop : R) (batch_size epochs_drop : nat)
        (minimize : R -> TFVariables -> Array3 -> Array2 -> TFVariables)
        (loss_ : TFVariables -> Array3 -> Array2 -> list R)
        (initial_variables : TFVariables) (_pre_fit : Py.M Fitting unit)
        (X : Array3) (Y : Array2) (epochs verbose : nat)
        (s0 s : Fitting) :
  1 <= epochs ->
  fit_prologue learning_rate initial_variables _pre_fit X s0 = (Ok tt, s) ->
  sigint s = Some 0 ->
  exists s',
    fit learning_rate drop batch_size epochs_drop minimize loss_
        initial_variables _pre_fit X Y epochs verbose s0
    = (Raise UnboundLocalError, s') /\
    FATELinearFit.logger s' = FATELinearFit.logger s ++ [LogInterrupted] /\
    fitted_weights s' = fitted_weights s.
Proof.
  intros Hepochs Hpro Hs.
  exists (FATELinearFit.add_log LogInterrupted (set_sigint None (clear_epoch s))).
  split; [|split; reflexivity].
  unfold fit, Py.bind. rewrite Hpro.
  unfold _fit_, Py.bind, Py.modify, Py.try_except, training_loop, range.
  destruct epochs as [|k]; [lia|].
  cbn [seq Py.for_each]. unfold Py.bind, train_epoch, Py.bind.
  unfold checkpoint at 1. cbn [sigint clear_epoch]. rewrite Hs.
  cbn [Py.is_KeyboardInterrupt].
  unfold interrupted, Py.bind.
  rewrite checkpoint_quiet by reflexivity.
  unfold FATELinearFit.logger_info, Py.modify.
  rewrite checkpoint_quiet by reflexivity.
  unfold run_loss, Py.bind, Py.get, Py.ret.
  rewrite checkpoint_quiet by reflexivity.
  reflexivity.
Qed.

Lemma fate_linear_fit_interrupted_before_first_epoch_witness :
  exists s',
    fit 1%R 1%R 1 300 Examples.shift_bias Examples.bias_loss
        Examples.variables0 (Py.ret tt) Examples.X221 Examples.Y22 3 0
        (Examples.unfit (Some 4)) = (Raise UnboundLocalError, s') /\
    FATELinearFit.logger s' = [LogInterrupted] /\
    fitted_weights s' = None.
Proof.
  destruct (@fate_linear_fit_interrupted_before_first_epoch
              1%R 1%R 1 300 Examples.shift_bias Examples.bias_loss
              Examples.variables0 (Py.ret tt) Examples.X221 Examples.Y22 3 0
              (Examples.unfit (Some 4))
              (snd (fit_prologue 1%R Examples.variables0 (Py.ret tt)
                                 Examples.X221 (Examples.unfit (Some 4))))
              (le_S _ _ (le_S _ _ (le_n 1)))
              eq_refl eq_refl)
    as (s' & Hfit & Hlog & Hw).
  exists s'. split; [exact Hfit|]. split; [exact Hlog | exact Hw].
Defined.

(** ** FETAChoiceFunction.fit: a failing threshold tuning *)

Import FETAFit.

(** X13.  In [FETAChoiceFunction.fit] with [tune_size > 0], an exception
    of [_tune_threshold] is what the caller gets, whatever the attempt to
    fit the network did: an exception of the network fit is replaced by
    it, and a network fit that returned does not make [fit] return.  [fit]
    assigns no [threshold_] then: the instance is left as the tuning left
    it. *)
Theorem feta_fit_tuning_failure_replaces_fit_outcome
        (W Callbacks Kwd : Type)
        (_pre_fit : Py.M (Instance W) unit)
        (train_test_split :
           Array3 -> Array2 -> R ->
           Py.M (Instance W) (Array3 * Array3 * Array2 * Array2))
        (super_fit : Array3 -> Array2 -> nat -> Callbacks -> R -> nat -> Kwd ->
                     Py.M (Instance W) unit)
        (_tune_threshold : Array3 -> Array2 -> nat -> nat -> Py.M (Instance W) R)
        (X : Array3) (Y : Array2) (epochs : nat) (callbacks : Callbacks)
        (validation_split tune_size : R) (thin_thresholds verbose : nat)
        (kwd : Kwd)
        (X_train X_val : Array3) (Y_train Y_val : Array2)
        (outcome : Result unit) (e : exn) (s0 s1 s2 s3 s4 : Instance W) :
  (0 < tune_size)%R ->
  _pre_fit s0 = (Ok tt, s1) ->
  train_test_split X Y tune_size s1 = (Ok (X_train, X_val, Y_train, Y_val), s2) ->
  super_fit X_train Y_train epochs callbacks validation_split verbose kwd s2
  = (outcome, s3) ->
  _tune_threshold X_val Y_val thin_thresholds verbose
                  (FETAFit.add_log LogStartTuningThreshold s3) = (Raise e, s4) ->
  FETAFit.fit _pre_fit train_test_split super_fit _tune_threshold
      X Y epochs callbacks validation_split tune_size thin_thresholds verbose kwd
      s0
  = (Raise e, s4).
Proof.
  intros Hpos Hpre Hsplit Hfit Htune.
  unfold FETAFit.fit, Py.bind. rewrite Hpre.
  destruct (Rlt_dec 0 tune_size) as [_|Hn]; [|contradiction].
  rewrite Hsplit. unfold Py.try_finally. rewrite Hfit.
  unfold tune, Py.bind, Py.modify. rewrite Htune. reflexivity.
Qed.

Lemma feta_fit_tuning_failure_replaces_fit_outcome_witness :
  (0 < 1 / 10)%R /\
  FETAFit.fit (Py.ret tt) Examples.split_half Examples.failing_fit
      (fun _ _ _ _ => Py.raise ZeroDivisionError)
      Examples.X221 Examples.Y22 10 tt (1 / 10)%R (1 / 10)%R 1 0 tt
      Examples.feta_unfit
  = (Raise ZeroDivisionError,
     FETAFit.mkInstance None [LogStartTuningThreshold] tt).
Proof.
  assert (Hpos : (0 < 1 / 10)%R) by lra.
  split; [exact Hpos|].
  apply (@feta_fit_tuning_failure_replaces_fit_outcome
           unit unit unit (Py.ret tt) Examples.split_half Examples.failing_fit
           (fun _ _ _ _ => Py.raise ZeroDivisionError)
           Examples.X221 Examples.Y22 10 tt (1 / 10)%R (1 / 10)%R 1 0 tt
           (FATELinearFit.slice3 0 1 Examples.X221)
           (FATELinearFit.slice3 1 2 Examples.X221)
           (FATELinearFit.slice2 0 1 Examples.Y22)
           (FATELinearFit.slice2 1 2 Examples.Y22)
           (Raise ValueError) ZeroDivisionError
           Examples.feta_unfit Examples.feta_unfit Examples.feta_unfit
           Examples.feta_unfit
           (FETAFit.add_log LogStartTuningThreshold Examples.feta_unfit)
           Hpos eq_refl eq_refl eq_refl eq_refl).
Defined.

(** ** PairwiseSVM: the scores and the intercept *)

Module PairwiseSVMScoresProofs.
Import Np NpProofs PairwiseSVM PairwiseSVMProofs.

Lemma coefficients (self : PairwiseSVM) :
  fitted self ->
  (if fit_intercept self then removelast (weights self) else weights self)
  = firstn (n_object_features_fit_ self) (weights self).
Proof.
  unfold fitted. intros Hfit. destruct (fit_intercept self).
  - rewrite removelast_firstn_len. f_equal. lia.
  - rewrite firstn_all2; [reflexivity|lia].
Qed.

Lemma svm_scores_closed (self : PairwiseSVM) (X : Array3) (n m : nat) :
  fitted self ->
  has_shape3 n m (n_object_features_fit_ self) X ->
  fst (_predict_scores_fixed X self)
  = Ok (mkArray2 (n, m)
          (map (map (fun v => inner v (firstn (n_object_features_fit_ self)
                                              (weights self))))
               (data3 X))).
Proof.
  intros Hfit (HsX & _ & _).
  pose proof (@coefficients self Hfit) as Hcoef.
  assert (Hlen : length (firstn (n_object_features_fit_ self) (weights self))
                 = n_object_features_fit_ self).
  { unfold fitted in Hfit. rewrite length_firstn. lia. }
  unfold _predict_scores_fixed, Py.bind, Py.get, Py.assert, Py.lift.
  rewrite HsX, Nat.eqb_refl.
  unfold Py.ret, logger_info, Py.modify.
  cbn [fit_intercept weights n_object_features_fit_ logger].
  assert (Hdot : (if fit_intercept self
                  then dot_3_1 X (removelast (weights self))
                  else dot_3_1 X (weights self))
                 = Ok (mkArray2 (n, m)
                         (map (map (fun v =>
                                      inner v (firstn (n_object_features_fit_ self)
                                                      (weights self))))
                              (data3 X)))).
  { set (c := firstn (n_object_features_fit_ self) (weights self)) in *.
    destruct (fit_intercept self); rewrite Hcoef;
      unfold dot_3_1; rewrite HsX; unfold Array1 in *;
      rewrite Hlen, Nat.eqb_refl; reflexivity. }
  rewrite Hdot. reflexivity.
Qed.

End PairwiseSVMScoresProofs.

Import PairwiseSVMScoresProofs.

(** X14.  The scores of a fitted [PairwiseSVM] are the inner products of
    the features of the objects with the coefficients, the first
    [n_object_features_fit_] weights: a fitted intercept, and whether one
    was fitted, has no influence on them, so that two fitted instances
    with the same coefficients predict the same scores. *)
Theorem svm_scores_ignore_the_intercept
        (a b : PairwiseSVM.PairwiseSVM) (X : Array3) (n m d : nat) :
  PairwiseSVM.fitted a -> PairwiseSVM.fitted b ->
  PairwiseSVM.n_object_features_fit_ a = d ->
  PairwiseSVM.n_object_features_fit_ b = d ->
  firstn d (PairwiseSVM.weights a) = firstn d (PairwiseSVM.weights b) ->
  has_shape3 n m d X ->
  exists scores,
    fst (PairwiseSVM._predict_scores_fixed X a) = Ok scores /\
    fst (PairwiseSVM._predict_scores_fixed X b) = Ok scores /\
    data2 scores
    = map (map (fun v => inner v (firstn d (PairwiseSVM.weights a)))) (data3 X).
Proof.
  intros Ha Hb Hda Hdb Hw HX.
  eexists. split; [|split].
  - rewrite (@svm_scores_closed a X n m Ha) by (now rewrite Hda).
    rewrite Hda. reflexivity.
  - rewrite (@svm_scores_closed b X n m Hb) by (now rewrite Hdb).
    rewrite Hdb, <- Hw. reflexivity.
  - reflexivity.
Qed.

Lemma svm_scores_ignore_the_intercept_witness :
  exists scores,
    fst (PairwiseSVM._predict_scores_fixed Examples.X221 Examples.svm_fitted)
    = Ok scores /\
    fst (PairwiseSVM._predict_scores_fixed Examples.X221
           {| PairwiseSVM.fit_intercept := false;
              PairwiseSVM.n_object_features_fit_ := 1;
              PairwiseSVM.weights := [2%R];
              PairwiseSVM.logger := [] |})
    = Ok scores.
Proof.
  destruct (@svm_scores_ignore_the_intercept
              Examples.svm_fitted
              {| PairwiseSVM.fit_intercept := false;
                 PairwiseSVM.n_object_features_fit_ := 1;
                 PairwiseSVM.weights := [2%R];
                 PairwiseSVM.logger := [] |}
              Examples.X221 2 2 1 eq_refl eq_refl eq_refl eq_refl eq_refl
              X221_shape)
    as (scores & Ha & Hb & _).
  exists scores. split; [exact Ha | exact Hb].
Defined.

(** ** PairwiseSVM.fit through the method resolution order *)

Import PairwiseSVMFit.

(** X15.  [PairwiseSVMDiscreteChoiceFunction.fit] cannot fit: it calls
    [PairwiseSVM.fit], which converts the instances by
    [self._convert_instances_]; the class defines its conversion under the
    name [_convert_instances], so the lookup finds the method of
    [PairwiseSVM], which raises NotImplementedError.  Whenever
    [check_random_state] accepts the seed, [fit] raises it after having
    assigned the shape attributes, with no estimator created and no
    weights assigned, whatever the classes further down the method
    resolution order define. *)
Theorem pairwise_svm_discrete_choice_fit_is_not_implemented
        (Seed G Labels : Type)
        (check_random_state : Seed -> Result G)
        (estimator_fit : Estimator -> R -> R -> bool -> G -> Array2 -> list Z ->
                         Result (Array2 * Array1))
        (fit_transform : Array2 -> Result Array2)
        (generate_complete_pairwise_dataset :
           Array3 -> Labels -> Result (Array2 * list Z))
        (others : list (ClassDict Seed G Labels))
        (X : Array3) (Y : Labels) (self : Instance Seed G) (g : G)
        (n m d : nat) :
  check_random_state (random_state self) = Ok g ->
  shape3 X = (n, m, d) ->
  exists self',
    PairwiseSVMDiscreteChoiceFunction_fit
      check_random_state estimator_fit fit_transform
      generate_complete_pairwise_dataset others X Y self
    = (Raise NotImplementedError, self') /\
    n_objects_fit_ self' = Some m /\
    n_object_features_fit_ self' = Some d /\
    model self' = model self /\
    weights self' = weights self /\
    PairwiseSVMFit.logger self' = PairwiseSVMFit.logger self.
Proof.
  intros Hseed HX.
  exists (set_fit_shape m d (set_random_state_ g self)).
  split; [|repeat split].
  unfold PairwiseSVMDiscreteChoiceFunction_fit, PairwiseSVMFit.fit.
  unfold Py.bind at 1. unfold Py.get at 1.
  unfold Py.bind at 1. unfold Py.lift at 1. rewrite Hseed.
  unfold Py.bind at 1. unfold Py.modify at 1.
  rewrite HX.
  unfold Py.bind at 1. unfold Py.modify at 1.
  unfold Py.bind at 1.
  unfold call, PairwiseSVMDiscreteChoiceFunction_mro.
  cbn [resolve lookup PairwiseSVMDiscreteChoiceFunction_dict PairwiseSVM_dict].
  reflexivity.
Qed.

Lemma pairwise_svm_discrete_choice_fit_is_not_implemented_witness :
  exists self',
    PairwiseSVMDiscreteChoiceFunction_fit
      (fun seed : nat => Ok seed)
      (fun _ _ _ _ _ _ _ => Raise ValueError)
      (fun x => Ok x)
      (fun (X : Array3) (Y : Array2) => Ok (mkArray2 (0, 1) [], []))
      [] Examples.X221 Examples.Y22
      (@mkInstance nat nat 1%R (1 / 10000)%R true true 7 (10 ^ 10)%Z (Some 1)
                  None None None None None [])
    = (Raise NotImplementedError, self') /\
    weights self' = None.
Proof.
  destruct (@pairwise_svm_discrete_choice_fit_is_not_implemented
              nat nat Array2
              (fun seed : nat => Ok seed)
              (fun _ _ _ _ _ _ _ => Raise ValueError)
              (fun x => Ok x)
              (fun (X : Array3) (Y : Array2) => Ok (mkArray2 (0, 1) [], []))
              [] Examples.X221 Examples.Y22
              (@mkInstance nat nat 1%R (1 / 10000)%R true true 7 (10 ^ 10)%Z (Some 1)
                          None None None None None [])
              7 2 2 1 eq_refl eq_refl)
    as (self' & Hfit & _ & _ & _ & Hw & _).
  exists self'. split; [exact Hfit | exact Hw].
Defined.

(** ** FATELinearCore: the training graph and the prediction agree *)

Module FATELinearGraphProofs.
Import Np NpProofs FATELinearFit FATELinearGraph.

Lemma chunks_concat_uniform {A : Type} (size : nat) (rows : list (list A)) :
  Forall (fun r => length r = size) rows ->
  chunks size (length rows) (concat rows) = rows.
Proof.
  induction 1 as [|r rows Hr _ IH]; [reflexivity|].
  cbn [length chunks concat].
  rewrite firstn_app, <- Hr, firstn_all, Nat.sub_diag, firstn_O, app_nil_r.
  rewrite skipn_app, skipn_all, Nat.sub_diag, skipn_O. cbn [app].
  rewrite Hr. f_equal. exact IH.
Qed.

Lemma concat_repeat_length {A : Type} (row : list A) (k : nat) :
  length (concat (repeat row k)) = k * length row.
Proof.
  induction k as [|k IH]; [reflexivity|].
  cbn [repeat concat]. rewrite length_app, IH. lia.
Qed.

Lemma tile_then_reshape (n m h : nat) (rep : Array2) :
  0 < m -> 0 < h -> has_shape2 n h rep ->
  tf_reshape_3 m h (tf_tile_1 m rep) = tile_axis1 m rep.
Proof.
  intros Hm Hh (Hs & Hlen & Hrows).
  unfold tf_reshape_3, tf_tile_1, tile_axis1. rewrite Hs. cbn [shape2 data2].
  assert (Hn : n * (h * m) / (m * h) = n).
  { replace (n * (h * m)) with (n * (m * h)) by lia.
    apply Nat.div_mul. nia. }
  rewrite Hn. f_equal.
  assert (Hflat : chunks (m * h) n
                    (concat (map (fun row => concat (repeat row m)) (data2 rep)))
                  = map (fun row => concat (repeat row m)) (data2 rep)).
  { rewrite <- Hlen at 1.
    rewrite <- (length_map (fun row : list R => concat (repeat row m))).
    apply chunks_concat_uniform. apply Forall_map.
    eapply Forall_impl; [|exact Hrows].
    intros row Hrow. rewrite concat_repeat_length.
    unfold has_shape1 in Hrow. now rewrite Hrow. }
  rewrite Hflat, map_map. apply map_ext_in. intros row Hin.
  rewrite Forall_forall in Hrows. specialize (Hrows row Hin).
  rewrite <- (repeat_length row m) at 1.
  apply chunks_concat_uniform.
  apply Forall_forall. intros r Hr. apply repeat_spec in Hr.
  subst r. exact Hrows.
Qed.

End FATELinearGraphProofs.

Import Np NpProofs FATELinearFit FATELinearGraph FATELinearGraphProofs.

(** X16.  Prediction replays the training graph: for variables of the
    shapes [_construct_model_] gives them, at least one object and one
    hidden unit, the scores the graph computes for a batch of the declared
    shape are the scores [_predict_scores_fixed] computes in numpy from
    the weights [fit] stores, [tf.tile] followed by [tf.reshape] placing
    the representation of a query next to each of its objects just as
    [np.tile] does. *)
Theorem fate_linear_prediction_replays_the_graph
        (v : TFVariables) (X : Array3) (n m d h : nat) :
  0 < m -> 0 < h ->
  FATELinear.fitted (stored d h v) ->
  has_shape3 n m d X ->
  exists result,
    scores m d h v X = Ok result /\
    fst (FATELinear._predict_scores_fixed X (stored d h v)) = Ok result /\
    has_shape2 n m result.
Proof.
  intros Hm Hh (HW1 & Hb1 & HW2 & Hb2) HX.
  cbn [stored FATELinear.weight1_ FATELinear.bias1_ FATELinear.weight2_
       FATELinear.bias2_ FATELinear.n_hidden_set_units
       FATELinear.n_object_features_fit_] in HW1, Hb1, HW2, Hb2.
  destruct (@dot_3_2_shape n m d h X (W1 v) HX (proj1 HW1))
    as (XW & EXW & HXW).
  destruct (@add_2_1_shape n h (mean_axis1 XW) (b1 v)
              (@mean_axis1_shape n m h XW HXW) Hb1)
    as (rep & Erep & Hrep).
  destruct (@concatenate_axis2_shape n m d h X (tile_axis1 m rep) HX
              (@tile_axis1_shape n m h rep Hrep))
    as (X_n & EXn & HXn).
  destruct (@dot_3_1_shape n m (d + h) X_n (W2 v) HXn HW2)
    as (s & Es & Hs).
  destruct (@add_2_1_scalar_shape n m s (b2 v) Hs Hb2)
    as (s' & Es' & Hs').
  exists (sigmoid2 s'). split; [|split].
  - unfold scores. destruct HX as (HsX & _). rewrite HsX, !Nat.eqb_refl.
    cbn [andb]. rewrite EXW. cbn [Py.rbind]. rewrite Erep. cbn [Py.rbind].
    rewrite (@tile_then_reshape n m h rep Hm Hh Hrep).
    rewrite EXn. cbn [Py.rbind]. rewrite Es. cbn [Py.rbind].
    rewrite Es'. reflexivity.
  - unfold FATELinear._predict_scores_fixed, Py.bind, Py.get, Py.assert, Py.lift.
    destruct HX as (HsX & _). rewrite HsX.
    cbn [stored FATELinear.weight1_ FATELinear.bias1_ FATELinear.weight2_
         FATELinear.bias2_ FATELinear.n_object_features_fit_].
    rewrite Nat.eqb_refl. unfold Py.ret.
    rewrite EXW. cbn [Py.rbind]. rewrite Erep. cbn [Py.rbind].
    rewrite EXn. cbn [Py.rbind]. rewrite Es. cbn [Py.rbind].
    rewrite Es'. reflexivity.
  - apply sigmoid2_shape, Hs'.
Qed.

Lemma fate_linear_prediction_replays_the_graph_witness :
  exists result,
    scores 2 1 1 Examples.variables0 Examples.X221 = Ok result /\
    fst (FATELinear._predict_scores_fixed Examples.X221 Examples.fate_fitted)
    = Ok result.
Proof.
  destruct (@fate_linear_prediction_replays_the_graph
              Examples.variables0 Examples.X221 2 2 1 1
              (Nat.lt_0_succ 1) (Nat.lt_0_succ 0)
              fate_fitted_is_fitted X221_shape)
    as (result & Hgraph & Hpredict & _).
  exists result. split; [exact Hgraph | exact Hpredict].
Defined.

(** ** The dictionaries of LetorDiscreteChoiceDatasetReader *)

Module PyDictProofs.
Import PyDict.

Lemma get_In_keys {V : Type} (k : nat) (d : dict V) :
  In k (keys d) <-> exists v, get k d = Some v.
Proof.
  induction d as [|[k' v'] d IH]; cbn [keys map get fst In].
  - split; [intros []|intros [v Hv]; discriminate].
  - destruct (Nat.eqb_spec k' k) as [->|Hne].
    + split; [intros _; now exists v'|now left].
    + rewrite <- IH. unfold keys. tauto.
Qed.

Lemma get_setitem_same {V : Type} (k : nat) (v : V) (d : dict V) :
  get k (setitem k v d) = Some v.
Proof.
  induction d as [|[k' v'] d IH]; cbn [setitem get].
  - now rewrite Nat.eqb_refl.
  - destruct (Nat.eqb_spec k' k) as [->|Hne]; cbn [get].
    + now rewrite Nat.eqb_refl.
    + apply Nat.eqb_neq in Hne. now rewrite Hne.
Qed.

Lemma get_setitem_other {V : Type} (k k0 : nat) (v : V) (d : dict V) :
  k0 <> k -> get k0 (setitem k v d) = get k0 d.
Proof.
  intros Hne. induction d as [|[k' v'] d IH]; cbn [setitem get].
  - destruct (Nat.eqb_spec k k0); [congruence|reflexivity].
  - destruct (Nat.eqb_spec k' k) as [->|Hne']; cbn [get].
    + destruct (Nat.eqb_spec k k0); [congruence|reflexivity].
    + destruct (k' =? k0); [reflexivity|exact IH].
Qed.

Lemma keys_setitem {V : Type} (k k0 : nat) (v : V) (d : dict V) :
  In k0 (keys (setitem k v d)) <-> k0 = k \/ In k0 (keys d).
Proof.
  rewrite !get_In_keys. destruct (Nat.eq_dec k0 k) as [->|Hne].
  - rewrite get_setitem_same. split; [now left|intros _; now exists v].
  - rewrite get_setitem_other by exact Hne. tauto.
Qed.

End PyDictProofs.

Module LetorReaderProofs.
Import PyDict PyDictProofs LetorReader.

Section Reader.
Variables Item World : Type.

#[local] Abbreviation NdArray := (NdArray Item).
#[local] Abbreviation Reader := (Reader Item World).

Lemma instances_merged (k k0 : nat) (x : NdArray) (d : dict NdArray) :
  instances k0 (merged k x d)
  = instances k0 d + (if k0 =? k then length (items x) else 0).
Proof.
  unfold instances, merged.
  destruct (Nat.eqb_spec k0 k) as [->|Hne].
  - destruct (get k d) as [old|] eqn:E; rewrite get_setitem_same;
      cbn [items]; [apply length_app | reflexivity].
  - destruct (get k d) as [old|] eqn:E;
      rewrite get_setitem_other by exact Hne; lia.
Qed.

Lemma keys_merged (k k0 : nat) (x : NdArray) (d : dict NdArray) :
  In k0 (keys (merged k x d)) <-> k0 = k \/ In k0 (keys d).
Proof.
  unfold merged. destruct (get k d); apply keys_setitem.
Qed.

Lemma get_merged_other (k k0 : nat) (x : NdArray) (d : dict NdArray) :
  k0 <> k -> get k0 (merged k x d) = get k0 d.
Proof.
  intros Hne. unfold merged.
  destruct (get k d); apply get_setitem_other, Hne.
Qed.

Lemma np_concatenate_same_shape (old x : NdArray) :
  item_shape old = item_shape x ->
  np_concatenate old x
  = Ok (mkNdArray (item_shape old) (items old ++ items x)).
Proof.
  intros Hs. unfold np_concatenate.
  destruct (list_eq_dec Nat.eq_dec (item_shape old) (item_shape x));
    [reflexivity|contradiction].
Qed.

Lemma aligned_same_keys (X Y S : dict NdArray) (k : nat) :
  aligned X Y S ->
  (get k X = None -> get k Y = None /\ get k S = None) /\
  (forall x, get k X = Some x ->
             exists y s, get k Y = Some y /\ get k S = Some s /\
                         length (items y) = length (items x) /\
                         length (items s) = length (items x)).
Proof.
  intros (HkY & HkS & HiY & HiS).
  specialize (HkY k). specialize (HkS k).
  specialize (HiY k). specialize (HiS k).
  rewrite !get_In_keys in HkY, HkS. unfold instances in HiY, HiS.
  split.
  - intros HX. rewrite HX in *.
    destruct (get k Y) as [y|]; [exfalso|].
    { destruct HkY as [HkY _]. destruct HkY as [v Hv]; [now exists y|discriminate]. }
    destruct (get k S) as [s|]; [exfalso|now split].
    destruct HkS as [HkS _]. destruct HkS as [v Hv]; [now exists s|discriminate].
  - intros x HX. rewrite HX in *.
    destruct (get k Y) as [y|].
    2:{ destruct HkY as [_ HkY]. destruct HkY as [v Hv]; [now exists x|discriminate]. }
    destruct (get k S) as [s|].
    2:{ destruct HkS as [_ HkS]. destruct HkS as [v Hv]; [now exists x|discriminate]. }
    exists y, s. repeat split; assumption.
Qed.

Lemma merge_key_spec (X Y S : dict NdArray) (k : nat) (x y s : NdArray)
      (self : Reader) :
  get k X = Some x -> get k Y = Some y -> get k S = Some s ->
  aligned (X_train self) (Y_train self) (scores_train self) ->
  (forall b, get k (X_train self) = Some b -> item_shape b = item_shape x) ->
  (forall b, get k (Y_train self) = Some b -> item_shape b = item_shape y) ->
  (forall b, get k (scores_train self) = Some b -> item_shape b = item_shape s) ->
  merge_key X Y S k self
  = (Ok tt, mkReader (n_objects self)
                     (merged k x (X_train self))
                     (merged k y (Y_train self))
                     (merged k s (scores_train self))
                     (logger self) (world self)).
Proof.
  intros HX HY HS Htrain HsX HsY HsS.
  destruct (@aligned_same_keys _ _ _ k Htrain) as [Hnone Hsome].
  unfold merge_key, Py.bind, Py.lift, Py.get, Py.modify, getitem, contains.
  rewrite HX, HY, HS. unfold merged.
  destruct (get k (X_train self)) as [oldX|] eqn:EX.
  - destruct (Hsome oldX eq_refl) as (oldY & oldS & EY & ES & _).
    rewrite (@np_concatenate_same_shape oldX x (HsX oldX eq_refl)).
    cbn [Y_train set_X_train]. rewrite EY.
    rewrite (@np_concatenate_same_shape oldY y (HsY oldY EY)).
    cbn [scores_train set_Y_train set_X_train]. rewrite ES.
    rewrite (@np_concatenate_same_shape oldS s (HsS oldS ES)).
    reflexivity.
  - destruct (Hnone eq_refl) as [EY ES]. rewrite EY, ES. reflexivity.
Qed.

Lemma merge_loop (X Y S : dict NdArray) (l : list nat) :
  NoDup l ->
  (forall k, In k l -> In k (keys X)) ->
  aligned X Y S ->
  forall self : Reader,
    aligned (X_train self) (Y_train self) (scores_train self) ->
    (forall k a b, In k l -> get k X = Some a ->
                   get k (X_train self) = Some b -> item_shape b = item_shape a) ->
    (forall k a b, In k l -> get k Y = Some a ->
                   get k (Y_train self) = Some b -> item_shape b = item_shape a) ->
    (forall k a b, In k l -> get k S = Some a ->
                   get k (scores_train self) = Some b ->
                   item_shape b = item_shape a) ->
    exists self',
      Py.for_each l (merge_key X Y S) self = (Ok tt, self') /\
      aligned (X_train self') (Y_train self') (scores_train self') /\
      (forall k, instances k (X_train self')
                 = instances k (X_train self)
                   + (if in_dec Nat.eq_dec k l then instances k X else 0)) /\
      (forall k, In k (keys (X_train self'))
                 <-> In k (keys (X_train self)) \/ In k l) /\
      (forall k, ~ In k l ->
                 get k (X_train self') = get k (X_train self) /\
                 get k (Y_train self') = get k (Y_train self) /\
                 get k (scores_train self') = get k (scores_train self)) /\
      n_objects self' = n_objects self /\
      logger self' = logger self /\
      world self' = world self.
Proof.
  intros Hnd Hin Hnew. induction l as [|k l IH]; intros self Htrain HsX HsY HsS.
  - exists self. split; [reflexivity|]. split; [exact Htrain|].
    split; [intros k; cbn; lia|]. split; [intros k; cbn [In]; tauto|].
    repeat split; reflexivity.
  - apply NoDup_cons_iff in Hnd. destruct Hnd as [Hk Hnd].
    assert (HkX : In k (keys X)) by (apply Hin; now left).
    apply get_In_keys in HkX. destruct HkX as [x HX].
    destruct (@aligned_same_keys _ _ _ k Hnew) as [_ Hsome].
    destruct (Hsome x HX) as (y & s & HY & HS & Hly & Hls).
    pose proof (@merge_key_spec X Y S k x y s self HX HY HS Htrain
                  (fun b => HsX k x b (or_introl eq_refl) HX)
                  (fun b => HsY k y b (or_introl eq_refl) HY)
                  (fun b => HsS k s b (or_introl eq_refl) HS)) as Estep.
    set (self1 := mkReader (n_objects self)
                           (merged k x (X_train self))
                           (merged k y (Y_train self))
                           (merged k s (scores_train self))
                           (logger self) (world self)) in *.
    assert (Htrain1 : aligned (X_train self1) (Y_train self1)
                              (scores_train self1)).
    { destruct Htrain as (HkY & HkS & HiY & HiS).
      cbn [self1 X_train Y_train scores_train].
      split; [|split; [|split]]; intros k0.
      - rewrite !keys_merged, HkY. tauto.
      - rewrite !keys_merged, HkS. tauto.
      - rewrite !instances_merged, HiY, Hly. reflexivity.
      - rewrite !instances_merged, HiS, Hls. reflexivity. }
    assert (Hother : forall k0, In k0 l -> k0 <> k)
      by (intros k0 Hk0 ->; contradiction).
    destruct (IH Hnd (fun k0 Hk0 => Hin k0 (or_intror Hk0)) self1 Htrain1)
      as (self' & Eloop & Htrain' & Hcount & Hkeys & Hrest & Hn & Hlog & Hw).
    { intros k0 a b Hk0 Ha Hb. cbn [self1 X_train] in Hb.
      rewrite get_merged_other in Hb by (apply Hother, Hk0).
      apply (HsX k0 a b (or_intror Hk0) Ha Hb). }
    { intros k0 a b Hk0 Ha Hb. cbn [self1 Y_train] in Hb.
      rewrite get_merged_other in Hb by (apply Hother, Hk0).
      apply (HsY k0 a b (or_intror Hk0) Ha Hb). }
    { intros k0 a b Hk0 Ha Hb. cbn [self1 scores_train] in Hb.
      rewrite get_merged_other in Hb by (apply Hother, Hk0).
      apply (HsS k0 a b (or_intror Hk0) Ha Hb). }
    exists self'. cbn [Py.for_each]. unfold Py.bind. rewrite Estep.
    split; [exact Eloop|]. split; [exact Htrain'|].
    split; [|split; [|split]].
    + intros k0. rewrite Hcount. cbn [self1 X_train].
      rewrite instances_merged.
      assert (HiX : instances k X = length (items x))
        by (unfold instances; now rewrite HX).
      destruct (in_dec Nat.eq_dec k0 (k :: l)) as [Hi|Hi];
        destruct (in_dec Nat.eq_dec k0 l) as [Hi'|Hi'];
        destruct (Nat.eqb_spec k0 k) as [->|Hne];
        cbn [In] in Hi;
        first [lia | exfalso; intuition congruence].
    + intros k0. rewrite Hkeys. cbn [self1 X_train].
      rewrite keys_merged. cbn [In]. split; intros H; intuition congruence.
    + intros k0 Hk0. cbn [In] in Hk0.
      destruct (Hrest k0) as (E1 & E2 & E3); [tauto|].
      rewrite E1, E2, E3. cbn [self1 X_train Y_train scores_train].
      rewrite !get_merged_other by (intros ->; tauto). now repeat split.
    + rewrite Hn, Hlog, Hw. now repeat split.
Qed.

End Reader.

End LetorReaderProofs.

Import PyDict PyDictProofs LetorReader LetorReaderProofs.

(** X17.  [merge_to_train] keeps the three training dictionaries
    aligned and accumulates per ranking length: when the dictionaries of
    the reader go together, those of a fold go together, and the arrays
    under a common key can be appended, the call returns, the training
    dictionaries still have the same keys and equally many instances under
    each, the keys are those held before and those of the fold, and under
    every key the number of instances has grown by that of the fold. *)
Theorem merge_to_train_keeps_the_dictionaries_aligned
        (Item World : Type) (X Y scores : dict (NdArray Item))
        (self : Reader Item World) :
  NoDup (keys X) ->
  aligned X Y scores ->
  aligned (X_train self) (Y_train self) (scores_train self) ->
  appendable X (X_train self) ->
  appendable Y (Y_train self) ->
  appendable scores (scores_train self) ->
  exists self',
    merge_to_train X Y scores self = (Ok tt, self') /\
    aligned (X_train self') (Y_train self') (scores_train self') /\
    (forall k, instances k (X_train self')
               = instances k (X_train self) + instances k X) /\
    (forall k, In k (keys (X_train self'))
               <-> In k (keys (X_train self)) \/ In k (keys X)).
Proof.
  intros Hnd Hnew Htrain HaX HaY HaS.
  destruct (@merge_loop Item World X Y scores (keys X) Hnd (fun k H => H) Hnew
              self Htrain
              (fun k a b _ => HaX k a b)
              (fun k a b _ => HaY k a b)
              (fun k a b _ => HaS k a b))
    as (self' & Eloop & Htrain' & Hcount & Hkeys & _).
  exists self'. split; [exact Eloop|]. split; [exact Htrain'|].
  split; [|exact Hkeys].
  intros k. rewrite Hcount.
  destruct (in_dec Nat.eq_dec k (keys X)) as [Hin|Hout]; [reflexivity|].
  unfold instances at 3.
  destruct (get k X) as [x|] eqn:E; [|reflexivity].
  exfalso. apply Hout, get_In_keys. now exists x.
Qed.

Lemma fold_is_aligned :
  aligned LetorExamples.fold_X LetorExamples.fold_Y LetorExamples.fold_scores.
Proof.
  repeat split; try (intros H; exact H);
    intros k; unfold instances; cbn -[Nat.eqb]; destruct (3 =? k); reflexivity.
Qed.

Lemma reader_is_aligned (n : nat) :
  aligned (X_train (LetorExamples.reader n)) (Y_train (LetorExamples.reader n))
          (scores_train (LetorExamples.reader n)).
Proof.
  repeat split; try (intros H; exact H);
    intros k; unfold instances; cbn -[Nat.eqb]; destruct (3 =? k); reflexivity.
Qed.

Lemma fold_is_appendable (n : nat) :
  appendable LetorExamples.fold_X (X_train (LetorExamples.reader n)) /\
  appendable LetorExamples.fold_Y (Y_train (LetorExamples.reader n)) /\
  appendable LetorExamples.fold_scores (scores_train (LetorExamples.reader n)).
Proof.
  repeat split; intros k a b; cbn -[Nat.eqb];
    destruct (3 =? k); try discriminate; now intros [= <-] [= <-].
Qed.

Lemma fold_keys_NoDup : NoDup (keys LetorExamples.fold_X).
Proof. repeat constructor. intros []. Qed.

Lemma merge_to_train_keeps_the_dictionaries_aligned_witness :
  exists self',
    merge_to_train LetorExamples.fold_X LetorExamples.fold_Y
                   LetorExamples.fold_scores (LetorExamples.reader 2)
    = (Ok tt, self') /\
    instances 3 (X_train self') = 3.
Proof.
  destruct (@merge_to_train_keeps_the_dictionaries_aligned
              nat unit LetorExamples.fold_X LetorExamples.fold_Y
              LetorExamples.fold_scores (LetorExamples.reader 2)
              fold_keys_NoDup fold_is_aligned (reader_is_aligned 2)
              (proj1 (fold_is_appendable 2))
              (proj1 (proj2 (fold_is_appendable 2)))
              (proj2 (proj2 (fold_is_appendable 2))))
    as (self' & Hmerge & _ & Hcount & _).
  exists self'. split; [exact Hmerge|]. rewrite Hcount. reflexivity.
Defined.

Module LetorSamplingProofs.
Import PyDict PyDictProofs LetorReader.

Section Reader.
Variables Item World : Type.
Variable sampler :
  NdArray Item -> NdArray Item -> nat -> World ->
  Result (NdArray Item * NdArray Item) * World.

(** The loop passes over the queries that are not larger than
    [n_objects]. *)
Lemma small_keys_are_skipped (l : list nat) (acc : PyValue Item * PyValue Item)
      (self : Reader Item World) :
  (forall k, In k l -> k <= n_objects self) ->
  for_carrying l (sample_key sampler) acc self = (Ok acc, self).
Proof.
  intros Hsmall. induction l as [|k l IH]; [reflexivity|].
  cbn [for_carrying]. unfold Py.bind at 1.
  assert (Hk : sample_key sampler k acc self = (Ok acc, self)).
  { unfold sample_key. destruct acc as [X Y]. unfold Py.bind, Py.get.
    destruct (Nat.ltb_spec (n_objects self) k) as [Hlt|_]; [|reflexivity].
    specialize (Hsmall k (or_introl eq_refl)). lia. }
  rewrite Hk. apply IH. intros k0 Hk0. apply Hsmall. now right.
Qed.


Variables (d : nat) (choice_shape : list nat).

Lemma sample_key_collects (k : nat) (acc : PyValue Item * PyValue Item)
      (s : Reader Item World) :
  sampler_returns sampler d choice_shape (n_objects s) ->
  (n_objects s < k ->
   exists a c, get k (X_train s) = Some a /\ get k (scores_train s) = Some c) ->
  acc = (EmptyList Item, EmptyList Item)
  \/ collected (n_objects s) d choice_shape acc ->
  exists acc' s',
    sample_key sampler k acc s = (Ok acc', s') /\
    same_dictionaries s s' /\
    (n_objects s < k -> collected (n_objects s) d choice_shape acc') /\
    (k <= n_objects s -> acc' = acc).
Proof.
  intros Hsampler Hentries Hacc.
  unfold sample_key. destruct acc as [X Y]. unfold Py.bind at 1, Py.get at 1.
  destruct (Nat.ltb_spec (n_objects s) k) as [Hlt|Hge].
  2:{ exists (X, Y), s. split; [reflexivity|].
      split; [repeat split|]. split; [lia|reflexivity]. }
  destruct (Hentries Hlt) as (a & c & Ea & Ec).
  destruct (Hsampler a c (world s)) as (x & y & w' & Es & Hx).
  unfold Py.bind, Py.lift, getitem, sample. rewrite Ea, Ec, Es.
  destruct Hacc as [[= -> ->]|(X0 & Y0 & [= -> ->] & HsX & HsY & Hlen & Hlen')].
  - cbn [len Nat.eqb]. eexists. eexists. split; [reflexivity|].
    split; [repeat split|]. split; [|lia].
    intros _. exists x, y. split; [reflexivity|exact Hx].
  - cbn [len]. destruct (Nat.eqb_spec (length (items X0)) 0) as [Hz|_]; [lia|].
    destruct Hx as (Hsx & Hsy & Hlx & Hly).
    unfold np_concatenate. cbn [asarray]. rewrite HsX, HsY, Hsx, Hsy.
    destruct (list_eq_dec Nat.eq_dec [n_objects s; d] [n_objects s; d])
      as [_|Hne]; [|contradiction].
    destruct (list_eq_dec Nat.eq_dec choice_shape choice_shape)
      as [_|Hne]; [|contradiction].
    unfold Py.ret. eexists. eexists. split; [reflexivity|].
    split; [repeat split|]. split; [|lia].
    intros _. eexists. eexists. split; [reflexivity|].
    repeat split; cbn [item_shape items]; rewrite ?length_app; lia.
Qed.

Lemma sampling_loop_collects (l : list nat) :
  forall (acc : PyValue Item * PyValue Item) (s : Reader Item World),
    sampler_returns sampler d choice_shape (n_objects s) ->
    (forall k, In k l -> n_objects s < k ->
     exists a c, get k (X_train s) = Some a /\ get k (scores_train s) = Some c) ->
    acc = (EmptyList Item, EmptyList Item)
    \/ collected (n_objects s) d choice_shape acc ->
    exists acc' s',
      for_carrying l (sample_key sampler) acc s = (Ok acc', s') /\
      same_dictionaries s s' /\
      (collected (n_objects s) d choice_shape acc ->
       collected (n_objects s) d choice_shape acc') /\
      ((exists k, In k l /\ n_objects s < k) ->
       collected (n_objects s) d choice_shape acc').
Proof.
  induction l as [|k l IH]; intros acc s Hsampler Hentries Hacc.
  - exists acc, s. split; [reflexivity|]. split; [repeat split|].
    split; [auto|]. intros (k & [] & _).
  - destruct (@sample_key_collects k acc s Hsampler
                (Hentries k (or_introl eq_refl)) Hacc)
      as (acc1 & s1 & Estep & (Hn & HX & HY & HS & Hlog) & Hlarge & Hsmall).
    assert (Hacc1 : acc1 = (EmptyList Item, EmptyList Item)
                    \/ collected (n_objects s1) d choice_shape acc1).
    { rewrite Hn. destruct (Nat.lt_ge_cases (n_objects s) k) as [Hlt|Hge].
      - right. apply Hlarge, Hlt.
      - rewrite (Hsmall Hge). exact Hacc. }
    destruct (IH acc1 s1) as (acc' & s' & Eloop & (Hn' & HX' & HY' & HS' & Hlog')
                              & Hkeep & Hfind).
    { rewrite Hn. exact Hsampler. }
    { intros k0 Hk0 Hlt. rewrite Hn in Hlt. rewrite HX, HS.
      apply Hentries; [now right|exact Hlt]. }
    { exact Hacc1. }
    rewrite Hn in Hkeep, Hfind.
    exists acc', s'. cbn [for_carrying]. unfold Py.bind. rewrite Estep.
    split; [exact Eloop|]. split.
    { repeat split; congruence. }
    split.
    + intros Hc. apply Hkeep.
      destruct (Nat.lt_ge_cases (n_objects s) k) as [Hlt|Hge];
        [apply Hlarge, Hlt | now rewrite (Hsmall Hge)].
    + intros (k0 & [<-|Hk0] & Hlt).
      * apply Hkeep, Hlarge, Hlt.
      * apply Hfind. exists k0. now split.
Qed.

End Reader.

End LetorSamplingProofs.

Import LetorSamplingProofs.

(** X18.  [sub_sampling_for_dictionary] needs a query larger than
    [n_objects]: when no key of [X_train] exceeds [n_objects], the local
    [X] is still the empty list after the loop, and the call fails, with
    ValueError from [np.concatenate] of the empty list and the array of
    rank two or more kept under [n_objects], and with AttributeError from
    [X.shape] when there is no such key; the reader is left as it was. *)
Theorem sub_sampling_for_dictionary_needs_a_larger_query
        (Item World : Type)
        (sampler : NdArray Item -> NdArray Item -> nat -> World ->
                   Result (NdArray Item * NdArray Item) * World)
        (self : Reader Item World) :
  (forall k, In k (keys (X_train self)) -> k <= n_objects self) ->
  (forall a, get (n_objects self) (X_train self) = Some a ->
             item_shape a <> []) ->
  sub_sampling_for_dictionary sampler self
  = (Raise (if contains (n_objects self) (X_train self)
            then ValueError else AttributeError), self).
Proof.
  intros Hsmall Hrank.
  unfold sub_sampling_for_dictionary.
  unfold Py.bind at 1. unfold Py.get at 1.
  unfold Py.bind at 1.
  rewrite (@small_keys_are_skipped Item World sampler
             (keys (X_train self)) (EmptyList Item, EmptyList Item) self Hsmall).
  unfold contains, getitem.
  destruct (get (n_objects self) (X_train self)) as [a|] eqn:E.
  - specialize (Hrank a eq_refl).
    unfold Py.bind, Py.lift, np_concatenate. cbn [asarray item_shape].
    destruct (list_eq_dec Nat.eq_dec [] (item_shape a)) as [Heq|_];
      [now symmetry in Heq|reflexivity].
  - reflexivity.
Qed.

Lemma sub_sampling_for_dictionary_needs_a_larger_query_witness :
  sub_sampling_for_dictionary LetorExamples.one_query (LetorExamples.reader 3)
  = (Raise ValueError, LetorExamples.reader 3) /\
  sub_sampling_for_dictionary LetorExamples.one_query (LetorExamples.reader 4)
  = (Raise AttributeError, LetorExamples.reader 4).
Proof.
  split.
  - apply (@sub_sampling_for_dictionary_needs_a_larger_query
             nat unit LetorExamples.one_query (LetorExamples.reader 3)).
    + cbn. intros k [<-|[]]. lia.
    + cbn. intros a [= <-]. discriminate.
  - apply (@sub_sampling_for_dictionary_needs_a_larger_query
             nat unit LetorExamples.one_query (LetorExamples.reader 4)).
    + cbn. intros k [<-|[]]. lia.
    + cbn. intros a [=].
Defined.

(** X19.  With a query larger than [n_objects] among the training data,
    [sub_sampling_for_dictionary] returns arrays that go together: when
    the training dictionaries are aligned, the sampling function returns
    at least one query of [n_objects] objects with as many choices
    whenever it is called, and the arrays kept under [n_objects] have the
    shapes of such samples, the call returns an [X] of queries of
    [n_objects] objects and a [Y] of equally many choices; all the queries
    kept under [n_objects] are among them beside at least one sampled
    query; the sizes are logged once and the dictionaries are left as they
    were. *)
Theorem sub_sampling_for_dictionary_returns_aligned_arrays
        (Item World : Type)
        (sampler : NdArray Item -> NdArray Item -> nat -> World ->
                   Result (NdArray Item * NdArray Item) * World)
        (self : Reader Item World) (d : nat) (choice_shape : list nat) :
  aligned (X_train self) (Y_train self) (scores_train self) ->
  (exists k, In k (keys (X_train self)) /\ n_objects self < k) ->
  sampler_returns sampler d choice_shape (n_objects self) ->
  (forall a b, get (n_objects self) (X_train self) = Some a ->
               get (n_objects self) (Y_train self) = Some b ->
               item_shape a = [n_objects self; d] /\
               item_shape b = choice_shape) ->
  exists X Y self',
    sub_sampling_for_dictionary sampler self = (Ok (Array X, Array Y), self') /\
    item_shape X = [n_objects self; d] /\
    item_shape Y = choice_shape /\
    length (items Y) = length (items X) /\
    instances (n_objects self) (X_train self) + 1 <= length (items X) /\
    LetorReader.logger self'
    = LetorReader.logger self ++ [LogSampled (length (items X)) (n_objects self)] /\
    X_train self' = X_train self /\
    Y_train self' = Y_train self /\
    scores_train self' = scores_train self.
Proof.
  intros Htrain Hlarger Hsampler Hkept.
  destruct (@sampling_loop_collects Item World sampler d choice_shape
              (keys (X_train self)) (EmptyList Item, EmptyList Item) self
              Hsampler)
    as (acc & s1 & Eloop & (Hn & HX & HY & HS & Hlog) & _ & Hfound).
  { intros k Hk _. apply get_In_keys in Hk. destruct Hk as [a Ea].
    destruct (@aligned_same_keys Item (X_train self) (Y_train self)
                (scores_train self) k Htrain) as [_ Hsome].
    destruct (Hsome a Ea) as (_ & c & _ & Ec & _).
    exists a, c. now split. }
  { now left. }
  destruct (Hfound Hlarger) as (X1 & Y1 & -> & HsX & HsY & Hlen & Hlen').
  unfold sub_sampling_for_dictionary.
  unfold Py.bind at 1. unfold Py.get at 1.
  unfold Py.bind at 1. rewrite Eloop.
  unfold contains, getitem.
  destruct (get (n_objects self) (X_train self)) as [a|] eqn:Ea.
  - destruct (@aligned_same_keys Item (X_train self) (Y_train self)
                (scores_train self) (n_objects self) Htrain) as [_ Hsome].
    destruct (Hsome a Ea) as (b & c & Eb & _ & Hlb & _).
    destruct (Hkept a b eq_refl Eb) as [Hsa Hsb].
    unfold Py.bind, Py.lift, np_concatenate. cbn [asarray].
    rewrite HsX, Hsa, Eb, HsY, Hsb.
    destruct (list_eq_dec Nat.eq_dec [n_objects self; d] [n_objects self; d])
      as [_|Hne]; [|contradiction].
    destruct (list_eq_dec Nat.eq_dec choice_shape choice_shape)
      as [_|Hne]; [|contradiction].
    unfold Py.ret. cbn [item_shape items].
    unfold logger_info, Py.modify.
    eexists. eexists. eexists. split; [reflexivity|].
    cbn [item_shape items LetorReader.logger X_train Y_train scores_train].
    rewrite !length_app, Hlog, HX, HY, HS.
    unfold instances. rewrite Ea.
    repeat split; try reflexivity; lia.
  - unfold Py.bind, Py.ret. rewrite HsX.
    unfold logger_info, Py.modify.
    eexists. eexists. eexists. split; [reflexivity|].
    cbn [LetorReader.logger X_train Y_train scores_train].
    rewrite Hlog, HX, HY, HS. unfold instances. rewrite Ea.
    repeat split; try reflexivity; try assumption; lia.
Qed.

Lemma one_query_returns (n : nat) :
  sampler_returns LetorExamples.one_query 1 [] n.
Proof.
  intros a c w. eexists. eexists. eexists. split; [reflexivity|].
  repeat split; cbn; lia.
Qed.

Lemma sub_sampling_for_dictionary_returns_aligned_arrays_witness :
  exists X Y self',
    sub_sampling_for_dictionary LetorExamples.one_query (LetorExamples.reader 2)
    = (Ok (Array X, Array Y), self') /\
    length (items Y) = length (items X).
Proof.
  assert (Hlarger : exists k, In k (keys (X_train (LetorExamples.reader 2)))
                              /\ n_objects (LetorExamples.reader 2) < k).
  { exists 3. split; [now left|]. cbn. lia. }
  assert (Hkept : forall a b,
             get (n_objects (LetorExamples.reader 2))
                 (X_train (LetorExamples.reader 2)) = Some a ->
             get (n_objects (LetorExamples.reader 2))
                 (Y_train (LetorExamples.reader 2)) = Some b ->
             item_shape a = [n_objects (LetorExamples.reader 2); 1] /\
             item_shape b = []).
  { intros a b. cbn. discriminate. }
  destruct (@sub_sampling_for_dictionary_returns_aligned_arrays
              nat unit LetorExamples.one_query (LetorExamples.reader 2) 1 []
              (reader_is_aligned 2) Hlarger (one_query_returns 2) Hkept)
    as (X & Y & self' & Hrun & _ & _ & Hlen & _).
  exists X, Y, self'. split; [exact Hrun | exact Hlen].
Defined.

(** ** RandomBaselineDC: the scores are the draws, whatever the batch *)

Module RandomBaselineBatchProofs.
Import Np NpProofs RandomBaselineDC RandomBaselineDCProofs.

Section WithGenerator.
Context {G : Type} {RS : RandomState G}.

Lemma random_samples_app (a b : nat) (g : G) :
  random_samples (a + b) g
  = (fst (random_samples a g)
     ++ fst (random_samples b (snd (random_samples a g))),
     snd (random_samples b (snd (random_samples a g)))).
Proof.
  revert g. induction a as [|a IH]; intros g.
  - cbn [Nat.add random_samples fst snd app].
    now destruct (random_samples b g).
  - cbn [Nat.add random_samples].
    destruct (random_sample g) as [x g1]. rewrite (IH g1).
    destruct (random_samples a g1) as [xs g2]. cbn [fst snd].
    destruct (random_samples b g2) as [ys g3]. reflexivity.
Qed.

Lemma seq_from (a n : nat) : seq a n = map (Nat.add a) (seq 0 n).
Proof.
  induction a as [|a IH]; [now rewrite map_id|].
  rewrite <- seq_shift, IH, map_map. reflexivity.
Qed.

Lemma reshape2_app (n n' m : nat) (xs ys : list R) :
  length xs = n * m ->
  data2 (reshape2 (n + n') m (xs ++ ys))
  = data2 (reshape2 n m xs) ++ data2 (reshape2 n' m ys).
Proof.
  intros Hlen. unfold reshape2. cbn [data2].
  rewrite seq_app, map_app. f_equal.
  - apply map_ext_in. intros i Hi. apply in_seq in Hi.
    rewrite skipn_app, firstn_app.
    replace (i * m - length xs) with 0 by nia.
    replace (m - length (skipn (i * m) xs)) with 0
      by (rewrite length_skipn; nia).
    cbn [skipn firstn]. now rewrite app_nil_r.
  - cbn [Nat.add]. rewrite (seq_from n n'), map_map.
    apply map_ext. intros j.
    rewrite skipn_app.
    rewrite (skipn_all2 xs) by nia. cbn [app].
    f_equal. f_equal. nia.
Qed.

End WithGenerator.

End RandomBaselineBatchProofs.

Import RandomBaselineBatchProofs.

(** X20.  The scores of [RandomBaselineDC] are the next draws of its
    generator, laid out row by row, whatever the features and however the
    queries are batched: predicting for [n] queries and then for [n']
    queries of [m] objects returns, one after the other, the rows that one
    prediction for [n + n'] queries of [m] objects returns, and leaves the
    generator in the same state. *)
Theorem random_baseline_scores_do_not_depend_on_batching
        (G : Type) (RS : RandomState G)
        (self : RandomBaselineDC.RandomBaselineDC G)
        (X X' X_both : Array3) (n n' m d d' d'' : nat) :
  shape3 X = (n, m, d) ->
  shape3 X' = (n', m, d') ->
  shape3 X_both = (n + n', m, d'') ->
  exists first second self1 self2,
    RandomBaselineDC._predict_scores_fixed X self = (Ok first, self1) /\
    RandomBaselineDC._predict_scores_fixed X' self1 = (Ok second, self2) /\
    RandomBaselineDC._predict_scores_fixed X_both self
    = (Ok (mkArray2 (n + n', m) (data2 first ++ data2 second)), self2).
Proof.
  intros HX HX' Hboth.
  eexists. eexists. eexists. eexists.
  split; [apply (@RandomBaselineDCProofs.baseline_predict_scores_draws
                   G RS self X n m d HX)|].
  split; [apply (@RandomBaselineDCProofs.baseline_predict_scores_draws
                   G RS _ X' n' m d' HX')|].
  rewrite (@RandomBaselineDCProofs.baseline_predict_scores_draws
             G RS self X_both (n + n') m d'' Hboth).
  cbn [RandomBaselineDC.random_state_].
  rewrite Nat.mul_add_distr_r, random_samples_app. cbn [fst snd].
  f_equal. f_equal.
  rewrite <- reshape2_app
    by apply RandomBaselineDCProofs.random_samples_length.
  reflexivity.
Qed.

Lemma random_baseline_scores_do_not_depend_on_batching_witness :
  exists first second self1 self2,
    @RandomBaselineDC._predict_scores_fixed nat Examples.counting_generator
      Examples.X121 Examples.baseline_fitted = (Ok first, self1) /\
    @RandomBaselineDC._predict_scores_fixed nat Examples.counting_generator
      Examples.X121 self1 = (Ok second, self2) /\
    @RandomBaselineDC._predict_scores_fixed nat Examples.counting_generator
      Examples.X221 Examples.baseline_fitted
    = (Ok (mkArray2 (2, 2) (data2 first ++ data2 second)), self2).
Proof.
  apply (@random_baseline_scores_do_not_depend_on_batching
           nat Examples.counting_generator Examples.baseline_fitted
           Examples.X121 Examples.X121 Examples.X221 1 1 2 1 1 1
           eq_refl eq_refl eq_refl).
Defined.

(** ** FATELinearCore: fit, then predict *)

Import Np NpProofs FATELinearFit FATELinearFitProofs.
Import FATELinearSchedule FATELinearScheduleProofs.
Import FATELinearGraph FATELinearGraphProofs.

Lemma fold_left_invariant {A B : Type} (P : A -> Prop) (f : A -> B -> A)
      (l : list B) (a : A) :
  (forall a b, P a -> P (f a b)) -> P a -> P (fold_left f l a).
Proof.
  intros Hf. revert a. induction l as [|b l IH]; intros a Ha; [exact Ha|].
  cbn [fold_left]. apply IH, Hf, Ha.
Qed.

Lemma fit_stores_the_trained_variables
      (learning_rate drop : R) (batch_size epochs_drop : nat)
      (minimize : R -> TFVariables -> Array3 -> Array2 -> TFVariables)
      (loss_ : TFVariables -> Array3 -> Array2 -> list R)
      (initial_variables : TFVariables) (_pre_fit : Py.M Fitting unit)
      (X : Array3) (Y : Array2) (epochs verbose : nat) (s0 s : Fitting) :
  0 < batch_size -> 0 < epochs_drop ->
  fit_prologue learning_rate initial_variables _pre_fit X s0 = (Ok tt, s) ->
  sigint s = None ->
  exists s',
    fit learning_rate drop batch_size epochs_drop minimize loss_
        initial_variables _pre_fit X Y epochs verbose s0 = (Ok tt, s') /\
    fitted_weights s'
    = Some (trained learning_rate drop batch_size epochs_drop minimize
                    X Y (fst (fst (shape3 X))) epochs initial_variables).
Proof.
  intros Hb Hd Hpro Hs.
  destruct (@fit_prologue_sets learning_rate initial_variables _pre_fit
              X s0 s Hpro) as [Hsession Hrate].
  assert (Hrate0 : optimizer_lr (clear_epoch s)
                   = rate_of_epoch learning_rate drop epochs_drop 0).
  { cbn [clear_epoch optimizer_lr]. rewrite Hrate. unfold rate_of_epoch.
    rewrite Nat.div_small by exact Hd. cbn [pow]. now rewrite Rmult_1_r. }
  destruct (@training_loop_quiet learning_rate drop batch_size epochs_drop
              minimize loss_ X Y (fst (fst (shape3 X))) verbose epochs 0
              (clear_epoch s) Hb Hd Hs Hrate0)
    as (s1 & Eloop & Hse & _ & _ & _ & _ & Hs1).
  eexists. split.
  - unfold fit, Py.bind. rewrite Hpro.
    unfold _fit_, Py.bind, Py.modify, Py.try_except, training_loop, range.
    rewrite Eloop. apply fit_epilogue_spec. exact Hs1.
  - cbn [fitted_weights set_fitted_weights]. rewrite Hse.
    cbn [session clear_epoch]. rewrite Hsession. reflexivity.
Qed.

(** X21.  After an uninterrupted [fit], prediction works: when the
    variables start with the shapes [_construct_model_] gives them and the
    optimizer keeps these shapes, [fit] returns and stores weights with
    which [_predict_scores_fixed] returns, for every batch with the
    number of features of the training set, whatever its number of
    queries and of objects, one score in (0, 1) per object of each query,
    leaving the instance as it is. *)
Theorem fate_linear_fit_then_predict
        (learning_rate drop : R) (batch_size epochs_drop : nat)
        (minimize : R -> TFVariables -> Array3 -> Array2 -> TFVariables)
        (loss_ : TFVariables -> Array3 -> Array2 -> list R)
        (initial_variables : TFVariables) (_pre_fit : Py.M Fitting unit)
        (X : Array3) (Y : Array2) (epochs verbose : nat)
        (s0 s : Fitting) (d h : nat) :
  0 < batch_size -> 0 < epochs_drop ->
  fit_prologue learning_rate initial_variables _pre_fit X s0 = (Ok tt, s) ->
  sigint s = None ->
  FATELinear.fitted (stored d h initial_variables) ->
  (forall lr v Xb Yb, FATELinear.fitted (stored d h v) ->
                      FATELinear.fitted (stored d h (minimize lr v Xb Yb))) ->
  exists s' v,
    fit learning_rate drop batch_size epochs_drop minimize loss_
        initial_variables _pre_fit X Y epochs verbose s0 = (Ok tt, s') /\
    fitted_weights s' = Some v /\
    forall (X_test : Array3) (n m : nat),
      has_shape3 n m d X_test ->
      exists result,
        FATELinear._predict_scores_fixed X_test (stored d h v)
        = (Ok result, stored d h v) /\
        has_shape2 n m result /\
        Forall2d in_unit_interval result.
Proof.
  intros Hb Hd Hpro Hs Hinit Hkeeps.
  destruct (@fit_stores_the_trained_variables
              learning_rate drop batch_size epochs_drop minimize loss_
              initial_variables _pre_fit X Y epochs verbose s0 s
              Hb Hd Hpro Hs) as (s' & Hfit & Hw).
  set (v := trained learning_rate drop batch_size epochs_drop minimize
                    X Y (fst (fst (shape3 X))) epochs initial_variables) in *.
  assert (Hv : FATELinear.fitted (stored d h v)).
  { unfold v, trained. apply fold_left_invariant; [|exact Hinit].
    intros w e Hw'. unfold sweep. apply fold_left_invariant; [|exact Hw'].
    intros w' start Hw''. unfold descend. apply Hkeeps, Hw''. }
  exists s', v. split; [exact Hfit|]. split; [exact Hw|].
  intros X_test n m HX.
  apply (@FATELinearProofs.fate_predict_scores_ok (stored d h v) X_test n m Hv).
  exact HX.
Qed.

Lemma shift_bias_keeps_shapes (lr : R) (v : TFVariables) (Xb : Array3)
      (Yb : Array2) :
  FATELinear.fitted (stored 1 1 v) ->
  FATELinear.fitted (stored 1 1 (Examples.shift_bias lr v Xb Yb)).
Proof.
  intros (HW1 & Hb1 & HW2 & Hb2). repeat split; try assumption;
    try apply HW1.
  unfold has_shape1 in *. cbn. rewrite length_map. exact Hb2.
Qed.

Lemma fate_linear_fit_then_predict_witness :
  exists s' v result,
    fit 1%R 1%R 1 300 Examples.shift_bias Examples.bias_loss
        Examples.variables0 (Py.ret tt) Examples.X221 Examples.Y22 3 0
        (Examples.unfit None) = (Ok tt, s') /\
    fitted_weights s' = Some v /\
    fst (FATELinear._predict_scores_fixed Examples.X121 (stored 1 1 v))
    = Ok result.
Proof.
  destruct (@fate_linear_fit_then_predict
              1%R 1%R 1 300 Examples.shift_bias Examples.bias_loss
              Examples.variables0 (Py.ret tt) Examples.X221 Examples.Y22 3 0
              (Examples.unfit None)
              (snd (fit_prologue 1%R Examples.variables0 (Py.ret tt)
                                 Examples.X221 (Examples.unfit None)))
              1 1
              (Nat.lt_0_succ 0) (Nat.lt_0_succ 299) eq_refl eq_refl
              fate_fitted_is_fitted shift_bias_keeps_shapes)
    as (s' & v & Hfit & Hw & Hpredict).
  assert (HX : has_shape3 1 2 1 Examples.X121).
  { split; [reflexivity|]. split; [reflexivity|]. repeat constructor. }
  destruct (Hpredict Examples.X121 1 2 HX) as (result & Hrun & _).
  exists s', v, result. split; [exact Hfit|]. split; [exact Hw|].
  now rewrite Hrun.
Defined.

(** ** The labels of the trivial ranking problem *)

Module TestRankingProofs.
Import TestRanking.

Section Argsort.
Context {A : Type}.
Variable ltb : A -> A -> bool.
Hypothesis ltb_irrefl : forall x, ltb x x = false.
Hypothesis ltb_trans :
  forall x y z, ltb x y = true -> ltb y z = true -> ltb x z = true.
Hypothesis ltb_total : forall x y, x <> y -> ltb x y = true \/ ltb y x = true.

Lemma ltb_asym (x y : A) : ltb x y = true -> ltb y x = false.
Proof.
  intros Hxy. destruct (ltb y x) eqn:Hyx; [|reflexivity].
  rewrite <- (ltb_irrefl x). symmetry. now apply ltb_trans with y.
Qed.

Lemma insert_Permutation (e : nat * A) (l : list (nat * A)) :
  Permutation (insert ltb e l) (e :: l).
Proof.
  induction l as [|f l IH]; cbn [insert]; [reflexivity|].
  destruct (ltb (snd f) (snd e)); [|reflexivity].
  rewrite IH. apply perm_swap.
Qed.

Lemma fold_insert_Permutation (l : list (nat * A)) :
  Permutation (fold_right (insert ltb) [] l) l.
Proof.
  induction l as [|e l IH]; cbn [fold_right]; [reflexivity|].
  rewrite insert_Permutation. now constructor.
Qed.

Lemma insert_increasing (e : nat * A) (l : list (nat * A)) :
  increasing ltb l ->
  (forall f, In f l -> snd f <> snd e) ->
  increasing ltb (insert ltb e l).
Proof.
  induction l as [|f l IH]; intros Hs Hne; cbn [insert].
  - repeat constructor.
  - destruct Hs as [Hf Hs]. destruct (ltb (snd f) (snd e)) eqn:Hfe.
    + split.
      * apply Forall_forall. intros g Hg.
        apply (Permutation_in _ (insert_Permutation e l)) in Hg.
        destruct Hg as [<-|Hg]; [exact Hfe|].
        rewrite Forall_forall in Hf. now apply Hf.
      * apply IH; [exact Hs|]. intros g Hg. apply Hne. now right.
    + assert (Hef : before ltb e f).
      { destruct (@ltb_total (snd e) (snd f)) as [H|H];
          [|exact H|unfold before in *; congruence].
        intros Heq. apply (Hne f); [now left|now symmetry]. }
      split; [|split; assumption].
      constructor; [exact Hef|].
      rewrite Forall_forall in *. intros g Hg.
      apply ltb_trans with (snd f); [exact Hef|now apply Hf].
Qed.

Lemma fold_insert_increasing (l : list (nat * A)) :
  NoDup (map snd l) ->
  increasing ltb (fold_right (insert ltb) [] l).
Proof.
  induction l as [|e l IH]; intros Hnd; cbn [fold_right]; [exact I|].
  cbn [map] in Hnd. apply NoDup_cons_iff in Hnd. destruct Hnd as [He Hnd].
  apply insert_increasing; [now apply IH|].
  intros f Hf Heq. apply He. rewrite <- Heq. apply in_map.
  now apply (Permutation_in _ (fold_insert_Permutation l)).
Qed.

(** In a sorted list, an entry has as many smaller entries as it has
    entries before it. *)
Lemma increasing_position (S : list (nat * A)) (t : nat) (d : nat * A) :
  increasing ltb S -> t < length S ->
  length (filter (fun f => ltb (snd f) (snd (nth t S d))) S) = t.
Proof.
  revert t. induction S as [|e S IH]; intros t Hs Ht.
  - cbn in Ht. lia.
  - destruct Hs as [He Hs].
    rewrite Forall_forall in He. destruct t as [|t]; cbn [nth filter].
    + rewrite ltb_irrefl.
      assert (Hnone : filter (fun f => ltb (snd f) (snd e)) S = []).
      { clear -He ltb_irrefl ltb_trans.
        induction S as [|g S IHS]; [reflexivity|]. cbn [filter].
        rewrite (@ltb_asym (snd e) (snd g)) by (apply He; now left).
        apply IHS. intros h Hh. apply He. now right. }
      now rewrite Hnone.
    + cbn [length] in Ht.
      assert (Hin : In (nth t S d) S) by (apply nth_In; lia).
      rewrite (He _ Hin). cbn [length]. f_equal. apply IH; [exact Hs|lia].
Qed.

Lemma sorted_items_Permutation (a : list A) :
  Permutation (sorted_items ltb a) (combine (seq 0 (length a)) a).
Proof. apply fold_insert_Permutation. Qed.

End Argsort.

Lemma combine_seq_snd {A : Type} (s : nat) (a : list A) :
  map snd (combine (seq s (length a)) a) = a.
Proof.
  revert s. induction a as [|x a IH]; intros s; [reflexivity|].
  cbn. f_equal. apply IH.
Qed.

Lemma combine_seq_fst {A : Type} (s : nat) (a : list A) :
  map fst (combine (seq s (length a)) a) = seq s (length a).
Proof.
  revert s. induction a as [|x a IH]; intros s; [reflexivity|].
  cbn. f_equal. apply IH.
Qed.

Lemma combine_seq_In {A : Type} (s i : nat) (v d : A) (a : list A) :
  In (i, v) (combine (seq s (length a)) a) ->
  s <= i < s + length a /\ nth (i - s) a d = v.
Proof.
  revert s. induction a as [|x a IH]; intros s; [intros []|].
  cbn [length seq combine In]. intros [[= <- <-]|Hin].
  - rewrite Nat.sub_diag. split; [lia|reflexivity].
  - destruct (IH (S s) Hin) as [Hi Hv]. split; [lia|].
    replace (i - s) with (S (i - S s)) by lia. exact Hv.
Qed.

Lemma filter_length_Permutation {A : Type} (f : A -> bool) (l l' : list A) :
  Permutation l l' -> length (filter f l) = length (filter f l').
Proof.
  induction 1 as [|x l l' _ IH|x y l|l l' l'' _ IH1 _ IH2]; cbn [filter].
  - reflexivity.
  - destruct (f x); cbn [length]; now rewrite IH.
  - destruct (f x), (f y); reflexivity.
  - now rewrite IH1.
Qed.

Lemma filter_length_map {A B : Type} (g : A -> B) (f : B -> bool)
      (l : list A) :
  length (filter f (map g l)) = length (filter (fun x => f (g x)) l).
Proof.
  induction l as [|x l IH]; [reflexivity|]. cbn [map filter].
  destruct (f (g x)); cbn [length]; now rewrite IH.
Qed.

Lemma ltb_nat_irrefl (x : nat) : (x <? x) = false.
Proof. apply Nat.ltb_irrefl. Qed.

Lemma ltb_nat_trans (x y z : nat) :
  (x <? y) = true -> (y <? z) = true -> (x <? z) = true.
Proof. rewrite !Nat.ltb_lt. lia. Qed.

Lemma ltb_nat_total (x y : nat) :
  x <> y -> (x <? y) = true \/ (y <? x) = true.
Proof. rewrite !Nat.ltb_lt. lia. Qed.

Lemma Rltb_irrefl (x : R) : Rltb x x = false.
Proof. unfold Rltb. destruct (Rlt_dec x x); [lra|reflexivity]. Qed.

Lemma Rltb_trans (x y z : R) :
  Rltb x y = true -> Rltb y z = true -> Rltb x z = true.
Proof.
  unfold Rltb.
  destruct (Rlt_dec x y), (Rlt_dec y z), (Rlt_dec x z);
    try discriminate; try reflexivity; lra.
Qed.

Lemma Rltb_total (x y : R) :
  x <> y -> Rltb x y = true \/ Rltb y x = true.
Proof.
  intros Hne. unfold Rltb.
  destruct (Rlt_dec x y); [now left|].
  destruct (Rlt_dec y x); [now right|]. exfalso. lra.
Qed.

(** Items sorted by natural keys that are the numbers from [s] on in some
    order have the keys in order. *)
Lemma increasing_keys_are_seq (S : list (nat * nat)) :
  forall s,
    increasing Nat.ltb S ->
    Permutation (map snd S) (seq s (length S)) ->
    map snd S = seq s (length S).
Proof.
  induction S as [|e S IH]; intros s Hinc Hperm; [reflexivity|].
  destruct Hinc as [He Hinc]. cbn [map length seq] in *.
  assert (Hhead : snd e = s).
  { assert (Hs : In s (snd e :: map snd S)).
    { apply (Permutation_in _ (Permutation_sym Hperm)). now left. }
    assert (Hk : In (snd e) (s :: seq (Datatypes.S s) (length S))).
    { apply (Permutation_in _ Hperm). now left. }
    destruct Hs as [Hs|Hs]; [exact Hs|].
    destruct Hk as [Hk|Hk]; [now symmetry|].
    apply in_seq in Hk. apply in_map_iff in Hs.
    destruct Hs as (f & Hf & Hin).
    rewrite Forall_forall in He. specialize (He f Hin).
    unfold before in He. apply Nat.ltb_lt in He. lia. }
  rewrite Hhead in *. f_equal.
  apply IH; [exact Hinc|]. now apply Permutation_cons_inv in Hperm.
Qed.

Section Ranks.
Context {A : Type}.
Variable ltb : A -> A -> bool.
Hypothesis ltb_irrefl : forall x, ltb x x = false.
Hypothesis ltb_trans :
  forall x y z, ltb x y = true -> ltb y z = true -> ltb x z = true.
Hypothesis ltb_total : forall x y, x <> y -> ltb x y = true \/ ltb y x = true.

Lemma argsort_Permutation (a : list A) :
  Permutation (argsort ltb a) (seq 0 (length a)).
Proof.
  unfold argsort. rewrite <- (combine_seq_fst 0 a).
  apply Permutation_map, sorted_items_Permutation.
Qed.

Lemma argsort_argsort (a : list A) (j : nat) (d : A) :
  NoDup a -> j < length a ->
  nth j (argsort Nat.ltb (argsort ltb a)) 0
  = length (filter (fun v => ltb v (nth j a d)) a).
Proof.
  intros Hnd Hj.
  set (n := length a) in *.
  set (S := sorted_items ltb a).
  set (p := argsort ltb a).
  assert (HS : Permutation S (combine (seq 0 n) a))
    by apply sorted_items_Permutation.
  assert (HSinc : increasing ltb S).
  { apply (@fold_insert_increasing A ltb ltb_trans ltb_total).
    now rewrite combine_seq_snd. }
  assert (Hp : Permutation p (seq 0 n)) by apply argsort_Permutation.
  assert (Hlp : length p = n).
  { rewrite (Permutation_length Hp). apply length_seq. }
  assert (HlS : length S = n).
  { unfold p, argsort in Hlp. now rewrite length_map in Hlp. }
  assert (Hpnd : NoDup p).
  { apply (Permutation_NoDup (Permutation_sym Hp)), seq_NoDup. }
  set (S' := sorted_items Nat.ltb p).
  assert (HS' : Permutation S' (combine (seq 0 n) p)).
  { unfold S'. rewrite <- Hlp. apply sorted_items_Permutation. }
  assert (HS'inc : increasing Nat.ltb S').
  { apply (@fold_insert_increasing nat Nat.ltb ltb_nat_trans ltb_nat_total).
    now rewrite combine_seq_snd. }
  assert (HlS' : length S' = n).
  { rewrite (Permutation_length HS'), length_combine, length_seq, Hlp.
    apply Nat.min_id. }
  assert (Hkeys : map snd S' = seq 0 n).
  { rewrite <- HlS'. apply increasing_keys_are_seq; [exact HS'inc|].
    rewrite HlS'. rewrite (Permutation_map snd HS').
    rewrite <- Hlp at 1. rewrite combine_seq_snd. exact Hp. }
  (* the item at position [j] of the second sort *)
  destruct (nth j S' (0, 0)) as [t k] eqn:Eitem.
  assert (Hk : k = j).
  { change k with (snd (t, k)). rewrite <- Eitem.
    change (snd (nth j S' (0, 0))) with (snd (nth j S' (0, 0))).
    rewrite <- (map_nth snd S' (0, 0) j), Hkeys.
    cbn [snd]. rewrite seq_nth by exact Hj. reflexivity. }
  subst k.
  assert (Hin : In (t, j) (combine (seq 0 (length p)) p)).
  { rewrite Hlp. apply (Permutation_in _ HS'). rewrite <- Eitem.
    apply nth_In. now rewrite HlS'. }
  destruct (@combine_seq_In nat 0 t j 0 p Hin) as [Ht Hpt].
  rewrite Nat.sub_0_r in Hpt. rewrite Hlp in Ht.
  assert (Hresult : nth j (argsort Nat.ltb p) 0 = t).
  { unfold argsort. fold S'.
    change 0 with (fst (0, 0)) at 1. rewrite map_nth, Eitem. reflexivity. }
  rewrite Hresult.
  (* the item at position [t] of the first sort is object [j] *)
  assert (Hitem : nth t S (0, d) = (j, nth j a d)).
  { assert (HinS : In (nth t S (0, d)) (combine (seq 0 (length a)) a)).
    { apply (Permutation_in _ HS). apply nth_In. rewrite HlS. lia. }
    destruct (nth t S (0, d)) as [i v] eqn:Ei.
    destruct (@combine_seq_In A 0 i v d a HinS) as [Hi Hv].
    rewrite Nat.sub_0_r in Hv.
    assert (Hij : i = j).
    { rewrite <- Hpt. unfold p, argsort. fold S.
      change 0 with (fst (0, d)) at 1. rewrite map_nth, Ei. reflexivity. }
    subst i. now rewrite Hv. }
  transitivity (length (filter (fun v => ltb v (nth j a d))
                              (map snd (combine (seq 0 n) a))));
    [|unfold n; now rewrite combine_seq_snd].
  rewrite <- (filter_length_Permutation _ (Permutation_map snd HS)).
  rewrite filter_length_map.
  replace (nth j a d) with (snd (nth t S (0, d))) by (now rewrite Hitem).
  symmetry. apply increasing_position; try assumption. rewrite HlS. lia.
Qed.

End Ranks.

End TestRankingProofs.

Import TestRanking TestRankingProofs.

Lemma filter_length_monotone {A : Type} (f g : A -> bool) (l : list A) :
  (forall x, In x l -> f x = true -> g x = true) ->
  length (filter f l) <= length (filter g l)
  /\ ((exists x, In x l /\ f x = false /\ g x = true) ->
      length (filter f l) < length (filter g l)).
Proof.
  induction l as [|y l IH]; intros Himp.
  - split; [reflexivity|]. intros (x & [] & _).
  - destruct IH as [IHle IHlt].
    { intros x Hx. apply Himp. now right. }
    cbn [filter].
    destruct (f y) eqn:Hf.
    + rewrite (Himp y (or_introl eq_refl) Hf). cbn [length].
      split; [lia|]. intros (x & [<-|Hx] & Hfx & Hgx); [congruence|].
      apply -> Nat.succ_lt_mono. apply IHlt. now exists x.
    + destruct (g y) eqn:Hg; cbn [length].
      * split; lia.
      * split; [lia|]. intros (x & [<-|Hx] & Hfx & Hgx); [congruence|].
        apply IHlt. now exists x.
Qed.

(** X22.  The labels of the trivial ranking problem are the ranks of the
    objects: for a query whose features are pairwise distinct, applying
    [argsort] twice yields for every object the number of objects of the
    query with a smaller feature, so that the labels of the query are the
    numbers 0 to m - 1 in some order, and order the objects as their
    features do. *)
Theorem trivial_ranking_labels_are_ranks (x : list (list R)) (i j : nat) :
  let q := nth i x [] in
  let y := nth i (y_true x) [] in
  i < length x -> NoDup q -> j < length q ->
  nth j y 0 = rank q j /\
  Permutation y (seq 0 (length q)) /\
  forall k, k < length q ->
            ((nth j q 0 < nth k q 0)%R <-> nth j y 0 < nth k y 0).
Proof.
  intros q y Hi Hnd Hj.
  assert (Hy : y = argsort Nat.ltb (argsort Rltb q)).
  { unfold y, y_true, q.
    rewrite (nth_indep _ [] (argsort Nat.ltb (argsort Rltb [])))
      by (now rewrite length_map).
    apply (map_nth (fun q => argsort Nat.ltb (argsort Rltb q))). }
  assert (Hrank : forall k, k < length q -> nth k y 0 = rank q k).
  { intros k Hk. rewrite Hy. unfold rank.
    apply (@argsort_argsort R Rltb Rltb_irrefl Rltb_trans Rltb_total
             q k 0%R Hnd Hk). }
  split; [apply Hrank, Hj|]. split.
  - rewrite Hy.
    pose proof (argsort_Permutation Nat.ltb (argsort Rltb q)) as Hperm.
    rewrite (Permutation_length (argsort_Permutation Rltb q)), length_seq
      in Hperm.
    exact Hperm.
  - intros k Hk. rewrite (Hrank j Hj), (Hrank k Hk). unfold rank.
    assert (Hlt : forall a b : nat,
               a < length q -> b < length q ->
               (nth a q 0 < nth b q 0)%R ->
               length (filter (fun v => Rltb v (nth a q 0%R)) q)
               < length (filter (fun v => Rltb v (nth b q 0%R)) q)).
    { intros a b Ha Hb Hab.
      apply filter_length_monotone.
      - intros v _ Hv. apply Rltb_trans with (nth a q 0%R); [exact Hv|].
        unfold Rltb. now destruct (Rlt_dec (nth a q 0%R) (nth b q 0%R)).
      - exists (nth a q 0%R). split; [now apply nth_In|].
        split; [apply Rltb_irrefl|].
        unfold Rltb. now destruct (Rlt_dec (nth a q 0%R) (nth b q 0%R)). }
    split; [apply Hlt; assumption|].
    intros Hranks.
    destruct (Rtotal_order (nth j q 0%R) (nth k q 0%R)) as [H|[H|H]];
      [exact H| |].
    + rewrite H in Hranks. lia.
    + pose proof (Hlt k j Hk Hj H). lia.
Qed.

Lemma trivial_ranking_labels_are_ranks_witness :
  nth 1 (nth 0 (y_true [[3; 1; 2]%R]) []) 0 = rank [3; 1; 2]%R 1 /\
  Permutation (nth 0 (y_true [[3; 1; 2]%R]) []) [0; 1; 2].
Proof.
  assert (Hnd : NoDup [3; 1; 2]%R).
  { constructor; [intros [H|[H|[]]]; lra|].
    constructor; [intros [H|[]]; lra|].
    constructor; [intros []|constructor]. }
  destruct (@trivial_ranking_labels_are_ranks [[3; 1; 2]%R] 0 1
              (Nat.lt_0_succ 0) Hnd (le_n_S _ _ (le_n_S _ _ (le_0_n 1))))
    as (Hrank & Hperm & _).
  split; [exact Hrank | exact Hperm].
Defined.

(** ** Sub-sampling: calls that cannot succeed *)

Import Np SubSampling.

(** X23.  [sub_sampling] fails on degenerate input when the queries are
    larger than [max_number_of_objects]: with [max_number_of_objects = 0]
    the bucket size is a division by zero, and for a batch without
    queries [X_train] is still the empty list when its shape is logged,
    which raises AttributeError; in both cases nothing has been drawn from
    the generator. *)
Theorem sub_sampling_fails_on_degenerate_input
        (G : Type) (RS : RandomState G)
        (self : FETA.FETAChoiceFunction) (X : Array3) (Y : list (list Z))
        (g : G) :
  FETA.max_number_of_objects self < FETA.n_objects_fit_ self ->
  (FETA.max_number_of_objects self = 0 ->
   sub_sampling self X Y g = (Raise ZeroDivisionError, g)) /\
  (1 <= FETA.max_number_of_objects self ->
   data3 X = [] \/ Y = [] ->
   sub_sampling self X Y g = (Raise AttributeError, g)).
Proof.
  intros Hlarge. unfold sub_sampling.
  destruct (Nat.leb_spec (FETA.n_objects_fit_ self)
                         (FETA.max_number_of_objects self)) as [Hle|_];
    [lia|].
  destruct (shape3 X) as [[n N] d]. split.
  - intros ->. reflexivity.
  - intros Hmax Hempty.
    destruct (Nat.eqb_spec (FETA.max_number_of_objects self) 0) as [Hz|_];
      [lia|].
    assert (Hzip : combine (data3 X) Y = []).
    { destruct Hempty as [-> | ->]; [reflexivity|apply combine_nil]. }
    unfold Py.bind. rewrite Hzip. reflexivity.
Qed.

Lemma sub_sampling_fails_on_degenerate_input_witness :
  @sub_sampling nat Examples.counting_generator Examples.feta_large
                (mkArray3 (0, 4, 1) []) [] 0
  = (Raise AttributeError, 0).
Proof.
  destruct (@sub_sampling_fails_on_degenerate_input
              nat Examples.counting_generator Examples.feta_large
              (mkArray3 (0, 4, 1) []) [] 0
              (le_n_S _ _ (le_n_S _ _ (le_n_S _ _ (le_0_n 1)))))
    as [_ Hempty].
  apply Hempty; [apply Nat.lt_0_succ | now left].
Defined.
